(** * GcodeCANBus: G-code to CAN frames (convert.py) and the CAN sender (send.py)

    A shallow embedding of the two scripts of the repository and the
    properties of their specification.

    - Python [int] is [Z]; Python [float] is IEEE-754 binary64, taken from
      the Standard Library's [SpecFloat] (round to nearest, ties to even),
      so that every arithmetic step of the encoder can be evaluated.
    - Text is [string], read as ASCII; [format(n, "0wX")], [int(s, 16)],
      [int(s)] and [float(s)] are defined on it.  [int(s)] refuses more
      than 4300 digits, the default limit of CPython 3.11 and later.
    - Exceptions are an error monad; the module-level list [last_positions]
      and the bus with its clock are threaded as explicit state.
    - The payload of a [can.Message] is a list of [byte], its set of
      responders a [gset Z]. *)

From Stdlib Require Import ZArith List String Ascii Bool Lia.
From Stdlib Require Import Strings.Byte.
From Stdlib Require Import Floats.SpecFloat.
From stdpp Require Import base gmap.
Import ListNotations.

Local Open Scope Z_scope.

(** ** Exceptions *)

Inductive exn : Set :=
| OverflowError
| ValueError
| IndexError
| ZeroDivisionError.

Inductive result (A : Type) : Type :=
| Ok (a : A)
| Raise (e : exn).

Arguments Ok {A} a.
Arguments Raise {A} e.

Definition rbind {A B : Type} (r : result A) (k : A -> result B) : result B :=
  match r with
  | Ok a => k a
  | Raise e => Raise e
  end.

Notation "'do' x <- r ; k" := (rbind r (fun x => k))
  (at level 10, x name, r at level 100, k at level 200).

Fixpoint rmap {A B : Type} (f : A -> result B) (l : list A) : result (list B) :=
  match l with
  | [] => Ok []
  | a :: l' => do b <- f a; do bs <- rmap f l'; Ok (b :: bs)
  end.

(** ** Python sequences: indexing with negative wrap-around, slices *)

Module PySeq.

Definition get {A : Type} (l : list A) (i : Z) : result A :=
  let n := Z.of_nat (length l) in
  let j := if i <? 0 then i + n else i in
  if (0 <=? j) && (j <? n) then
    match nth_error l (Z.to_nat j) with
    | Some a => Ok a
    | None => Raise IndexError
    end
  else Raise IndexError.

Fixpoint update {A : Type} (l : list A) (k : nat) (a : A) : list A :=
  match l, k with
  | [], _ => []
  | _ :: l', O => a :: l'
  | x :: l', S k' => x :: update l' k' a
  end.

Definition set {A : Type} (l : list A) (i : Z) (a : A) : result (list A) :=
  let n := Z.of_nat (length l) in
  let j := if i <? 0 then i + n else i in
  if (0 <=? j) && (j <? n) then Ok (update l (Z.to_nat j) a)
  else Raise IndexError.

(** [l[a:b]] for [0 <= a <= b]. *)
Definition slice {A : Type} (l : list A) (a b : nat) : list A :=
  firstn (b - a) (skipn a l).

End PySeq.

(** ** Python numbers *)

Module Py.

Definition prec : Z := 53.
Definition emax : Z := 1024.

Inductive num : Set :=
| Int (z : Z)
| Float (f : spec_float).

(** [float(z)] for an [int]: nearest binary64, [OverflowError] beyond the range. *)
Definition float_of_int (z : Z) : result spec_float :=
  match binary_normalize prec emax z 0 false with
  | S754_infinity _ => Raise OverflowError
  | f => Ok f
  end.

Definition to_float (a : num) : result spec_float :=
  match a with
  | Int z => float_of_int z
  | Float f => Ok f
  end.

(** [a * b]: exact on two ints, binary64 as soon as one side is a float. *)
Definition mul (a b : num) : result num :=
  match a, b with
  | Int x, Int y => Ok (Int (x * y))
  | _, _ => do f <- to_float a; do g <- to_float b; Ok (Float (SFmul prec emax f g))
  end.

Definition sub (a b : num) : result num :=
  match a, b with
  | Int x, Int y => Ok (Int (x - y))
  | _, _ => do f <- to_float a; do g <- to_float b; Ok (Float (SFsub prec emax f g))
  end.

(** The integral part of [m * 2^e], for a positive mantissa. *)
Definition trunc_mag (m : positive) (e : Z) : Z := Z.shiftl (Z.pos m) e.

(** [int(a)]: truncation toward zero; infinities and NaN raise. *)
Definition to_int (a : num) : result Z :=
  match a with
  | Int z => Ok z
  | Float (S754_zero _) => Ok 0
  | Float (S754_infinity _) => Raise OverflowError
  | Float S754_nan => Raise ValueError
  | Float (S754_finite s m e) => Ok (cond_Zopp s (trunc_mag m e))
  end.

(** [x / y] on two ints: the correctly rounded quotient. *)
Definition truediv (x y : Z) : result spec_float :=
  if y =? 0 then Raise ZeroDivisionError
  else
    let neg := xorb (x <? 0) (y <? 0) in
    if x =? 0 then Ok (S754_zero neg)
    else
      let '(q, e, l) := SFdiv_core_binary prec emax (Z.abs x) 0 (Z.abs y) 0 in
      match binary_round_aux prec emax neg q e l with
      | S754_infinity _ => Raise OverflowError
      | f => Ok f
      end.

(** The decimal [n / 10^k] with sign [neg], correctly rounded: what
    [float("...")] and a float literal denote. *)
Definition float_of_decimal (neg : bool) (n : Z) (k : nat) : spec_float :=
  match n with
  | Z0 => S754_zero neg
  | _ =>
      let '(q, e, l) :=
        SFdiv_core_binary prec emax (Z.abs n) 0 (10 ^ Z.of_nat k) 0 in
      binary_round_aux prec emax neg q e l
  end.

End Py.

(** ** Text: digits, [format(n, "0wX")], [int(s, 16)], decimal tokens *)

Module Text.

Definition is_digit (c : ascii) : bool :=
  let n := nat_of_ascii c in (48 <=? n)%nat && (n <=? 57)%nat.

Definition digit_value (c : ascii) : Z := Z.of_nat (nat_of_ascii c) - 48.

Definition hex_digit (d : Z) : ascii :=
  match d with
  | 0 => "0" | 1 => "1" | 2 => "2" | 3 => "3"
  | 4 => "4" | 5 => "5" | 6 => "6" | 7 => "7"
  | 8 => "8" | 9 => "9" | 10 => "A" | 11 => "B"
  | 12 => "C" | 13 => "D" | 14 => "E" | _ => "F"
  end%char.

Definition hex_value (c : ascii) : option Z :=
  let n := nat_of_ascii c in
  if (48 <=? n)%nat && (n <=? 57)%nat then Some (Z.of_nat n - 48)
  else if (65 <=? n)%nat && (n <=? 70)%nat then Some (Z.of_nat n - 55)
  else if (97 <=? n)%nat && (n <=? 102)%nat then Some (Z.of_nat n - 87)
  else None.

(** The [w] least significant hexadecimal digits of [n], upper case. *)
Fixpoint hex_fixed (w : nat) (n : Z) : string :=
  match w with
  | O => EmptyString
  | S w' => (hex_fixed w' (n / 16) ++ String (hex_digit (n mod 16)) EmptyString)%string
  end.

(** Number of hexadecimal digits of [n >= 0] (one for zero). *)
Definition hex_len (n : Z) : nat := S (Z.to_nat (Z.log2 n / 4)).

(** [format(n, "0wX")]: at least [w] characters, zero padded after the sign. *)
Definition format_X (w : nat) (n : Z) : string :=
  if n <? 0 then String "-"%char (hex_fixed (Nat.max (w - 1) (hex_len (- n))) (- n))
  else hex_fixed (Nat.max w (hex_len n)) n.

Fixpoint int16_acc (s : string) (acc : Z) : option Z :=
  match s with
  | EmptyString => Some acc
  | String c s' =>
      match hex_value c with
      | Some d => int16_acc s' (acc * 16 + d)
      | None => None
      end
  end.

(** [int(s, 16)] on a text of hexadecimal digits; anything else is taken
    as malformed ([ValueError]). *)
Definition int16 (s : string) : result Z :=
  match s with
  | EmptyString => Raise ValueError
  | _ => match int16_acc s 0 with
         | Some n => Ok n
         | None => Raise ValueError
         end
  end.

(** [[s[i:i+2] for i in range(0, len(s), 2)]] *)
Fixpoint chunks2 (s : string) : list string :=
  match s with
  | EmptyString => []
  | String a EmptyString => [String a EmptyString]
  | String a (String b s') => String a (String b EmptyString) :: chunks2 s'
  end.

(** [s[n:]] *)
Fixpoint drop (n : nat) (s : string) : string :=
  match n, s with
  | S n', String _ s' => drop n' s'
  | _, _ => s
  end.

(** Longest prefix of decimal digits, and what follows it. *)
Fixpoint span_digits (s : string) : string * string :=
  match s with
  | EmptyString => (EmptyString, EmptyString)
  | String c s' =>
      if is_digit c then
        let '(d, r) := span_digits s' in (String c d, r)
      else (EmptyString, s)
  end.

Fixpoint dec_acc (s : string) (acc : Z) : option Z :=
  match s with
  | EmptyString => Some acc
  | String c s' => if is_digit c then dec_acc s' (acc * 10 + digit_value c) else None
  end.

Definition is_sign (c : ascii) : bool := (c =? "-")%char || (c =? "+")%char.

Definition split_sign (s : string) : bool * string :=
  match s with
  | String c s' => if is_sign c then ((c =? "-")%char, s') else (false, s)
  | EmptyString => (false, s)
  end.

(** [sys.int_info.default_max_str_digits]: the longest run of digits that
    [int(s)] converts. *)
Definition max_str_digits : nat := 4300.

(** [int(s)] on an optionally signed run of digits, which is all that the
    patterns of convert.py hand to it; any other text is [ValueError], and
    so is a run of more than [max_str_digits] digits. *)
Definition py_int (s : string) : result Z :=
  let '(neg, body) := split_sign s in
  match body with
  | EmptyString => Raise ValueError
  | _ => match dec_acc body 0 with
         | Some n =>
             if (String.length body <=? max_str_digits)%nat
             then Ok (if neg then - n else n)
             else Raise ValueError
         | None => Raise ValueError
         end
  end.

Fixpoint contains (c : ascii) (s : string) : bool :=
  match s with
  | EmptyString => false
  | String a s' => (a =? c)%char || contains c s'
  end.

(** [float(s)] on [[-+]?digits.digits], the nearest binary64 (an infinity
    beyond the range, as in Python); any other text is [ValueError]. *)
Definition py_float (s : string) : result spec_float :=
  let '(neg, body) := split_sign s in
  let '(ip, r) := span_digits body in
  match r with
  | String "."%char fp =>
      match fp, dec_acc (ip ++ fp)%string 0 with
      | String _ _, Some n => Ok (Py.float_of_decimal neg n (String.length fp))
      | _, _ => Raise ValueError
      end
  | _ => Raise ValueError
  end.

End Text.

(** ** The two regular expressions of convert.py

    [re] tries the alternatives left to right at the leftmost position that
    matches; each quantifier is greedy.  After a maximal run of digits no
    shorter run can be followed by [.], so the greedy choice is the only
    one to try; an optional sign is tried present first, then absent. *)

Module Regex.

Import Text.

(** [\d*\.\d+] at the head of [s]: the matched text and the remainder. *)
Definition match_fraction (s : string) : option (string * string) :=
  let '(ip, r) := span_digits s in
  match r with
  | String "."%char r' =>
      match span_digits r' with
      | (EmptyString, _) => None
      | (fp, rest) => Some ((ip ++ String "."%char fp)%string, rest)
      end
  | _ => None
  end.

(** [\d+] at the head of [s]. *)
Definition match_digits (s : string) : option (string * string) :=
  match span_digits s with
  | (EmptyString, _) => None
  | (d, rest) => Some (d, rest)
  end.

(** [[-+]?body] at the head of [s]. *)
Definition match_signed (body : string -> option (string * string))
    (s : string) : option (string * string) :=
  match s with
  | String c s' =>
      if is_sign c then
        match body s' with
        | Some (t, rest) => Some (String c t, rest)
        | None => body s
        end
      else body s
  | EmptyString => body s
  end.

(** [[-+]?\d*\.\d+|[-+]?\d+] at the head of [s]. *)
Definition match_number (s : string) : option (string * string) :=
  match match_signed match_fraction s with
  | Some m => Some m
  | None => match_signed match_digits s
  end.

(** [re.findall] for the number pattern: [skip] characters of the last
    match are still to be passed over. *)
Fixpoint findall_from (skip : nat) (s : string) : list string :=
  match s with
  | EmptyString => []
  | String _ s' =>
      match skip with
      | S k => findall_from k s'
      | O =>
          match match_number s with
          | Some (t, _) => t :: findall_from (String.length t - 1) s'
          | None => findall_from O s'
          end
      end
  end.

Definition findall_numbers (s : string) : list string := findall_from O s.

(** [re.search(r"F(\d+)", s)]: group 1 of the leftmost match. *)
Fixpoint search_feed (s : string) : option string :=
  match s with
  | EmptyString => None
  | String c s' =>
      if (c =? "F")%char then
        match match_digits s' with
        | Some (d, _) => Some d
        | None => search_feed s'
        end
      else search_feed s'
  end.

End Regex.

(** ** convert.py *)

Module Convert.

Import Text.

Definition gear_ratios : list Py.num :=
  Eval vm_compute in
  [ Py.Float (Py.float_of_decimal false 135 1);
    Py.Int 150;
    Py.Int 150;
    Py.Int 48;
    Py.Float (Py.float_of_decimal false 6782 2);
    Py.Float (Py.float_of_decimal false 6782 2) ].

Definition invert_direction : list bool :=
  [true; true; false; false; false; false].

Definition initial_positions : list Py.num := repeat (Py.Int 0) 6.

(** The starting value of the module-level list [last_positions]. *)
Definition last_positions0 : list Py.num := repeat (Py.Int 0) 6.

Definition sum (data : list Z) : Z := fold_right Z.add 0 data.

Definition calculate_crc (data : list Z) : Z := Z.land (sum data) 255.

(** [format(rel_position & 0xFFFFFF, "06X")]: the displacement field. *)
Definition rel_position_hex (rel_position : Z) : string :=
  format_X 6 (Z.land rel_position 16777215).

(** Returns the message and the updated [last_positions]. *)
Definition convert_to_can_message (axis_id speed : Z) (position gear_ratio : Py.num)
    (invert_direction : bool) (last_positions : list Py.num)
    : result (string * list Py.num) :=
  let can_id := format_X 2 axis_id in
  let speed_hex := format_X 4 speed in
  do scaled <- Py.mul position gear_ratio;
  do origin <- PySeq.get initial_positions (axis_id - 1);
  do rel <- Py.sub scaled origin;
  do rel100 <- Py.mul rel (Py.Int 100);
  do rel_position <- Py.to_int rel100;
  let rel_position_hex := rel_position_hex rel_position in
  do last <- Py.mul position gear_ratio;
  do last_positions' <- PySeq.set last_positions (axis_id - 1) last;
  Ok ((can_id ++ "F5" ++ speed_hex ++ "02" ++ rel_position_hex)%string,
      last_positions').

(** The body of the innermost loop: one line of the output file. *)
Definition encode_axis (speed axis_id : Z) (position : Py.num)
    (last_positions : list Py.num) : result (string * list Py.num) :=
  do gear_ratio <- PySeq.get gear_ratios (axis_id - 1);
  do invert_dir <- PySeq.get invert_direction (axis_id - 1);
  do r <- convert_to_can_message axis_id speed position gear_ratio invert_dir
            last_positions;
  let '(can_message, last_positions') := r in
  do bytes <- rmap int16 (chunks2 can_message);
  let crc := calculate_crc bytes in
  Ok ((can_message ++ format_X 2 crc)%string, last_positions').

(** What a run has written, and how it ended. *)
Record run (S : Type) : Type := mkRun {
  written : list string;
  outcome : result S
}.

Arguments mkRun {S} written outcome.
Arguments written {S} r.
Arguments outcome {S} r.

(** [for axis_id, position in enumerate(positions, start=axis_id)]:
    lines written so far stay written when an axis raises. *)
Fixpoint encode_axes (speed axis_id : Z) (positions : list Py.num)
    (last_positions : list Py.num) : run (list Py.num) :=
  match positions with
  | [] => mkRun [] (Ok last_positions)
  | position :: rest =>
      match encode_axis speed axis_id position last_positions with
      | Raise e => mkRun [] (Raise e)
      | Ok (line, last_positions') =>
          let r := encode_axes speed (axis_id + 1) rest last_positions' in
          mkRun (line :: written r) (outcome r)
      end
  end.

(** [float(value) if "." in value else int(value)] *)
Definition parse_value (value : string) : result Py.num :=
  if contains "."%char value then do f <- py_float value; Ok (Py.Float f)
  else do z <- py_int value; Ok (Py.Int z).

(** The state carried from line to line. *)
Record state : Set := mkState {
  speed : Z;
  last_positions : list Py.num
}.

Definition initial_state : state := mkState 0 last_positions0.

(** One iteration of [for line in input_file]. *)
Definition process_line (st : state) (line : string) : run state :=
  let feed :=
    match Regex.search_feed line with
    | Some g => do v <- py_int g; Ok (Some v)
    | None => Ok None
    end in
  match feed with
  | Raise ValueError => mkRun [] (Ok st)
  | Raise e => mkRun [] (Raise e)
  | Ok f =>
      let speed' := match f with Some v => v | None => speed st end in
      if String.prefix "G90" line then
        match rmap parse_value (Regex.findall_numbers line) with
        | Raise e => mkRun [] (Raise e)
        | Ok values =>
            if (7 <=? length values)%nat then
              let r := encode_axes speed' 1 (PySeq.slice values 1 7)
                         (last_positions st) in
              mkRun (written r)
                    (do lp <- outcome r; Ok (mkState speed' lp))
            else mkRun [] (Ok (mkState speed' (last_positions st)))
        end
      else mkRun [] (Ok (mkState speed' (last_positions st)))
  end.

(** The loop over the lines of one file; the first exception ends it
    ([except Exception] reports it and returns). *)
Fixpoint process_lines (st : state) (lines : list string) : run state :=
  match lines with
  | [] => mkRun [] (Ok st)
  | line :: rest =>
      let r := process_line st line in
      match outcome r with
      | Raise e => mkRun (written r) (Raise e)
      | Ok st' =>
          let r' := process_lines st' rest in
          mkRun (written r ++ written r') (outcome r')
      end
  end.

End Convert.

(** ** send.py *)

Module Send.

Import Text.

(** [can.Message]: the payload is a [bytearray]. *)
Record Message : Set := mkMessage {
  arbitration_id : Z;
  data : list byte;
  is_extended_id : bool
}.

Definition byte_val (b : byte) : Z := Z.of_N (Byte.to_N b).

(** Storing an int into a [bytearray]: [ValueError] outside [range(256)]. *)
Definition to_byte (z : Z) : result byte :=
  if (0 <=? z) && (z <? 256) then
    match Byte.of_N (Z.to_N z) with
    | Some b => Ok b
    | None => Raise ValueError
    end
  else Raise ValueError.

Definition is_space (c : ascii) : bool :=
  let n := nat_of_ascii c in
  ((9 <=? n)%nat && (n <=? 13)%nat) || ((28 <=? n)%nat && (n <=? 32)%nat).

Fixpoint lstrip (s : string) : string :=
  match s with
  | String c s' => if is_space c then lstrip s' else s
  | EmptyString => EmptyString
  end.

Fixpoint rstrip (s : string) : string :=
  match s with
  | String c s' =>
      match rstrip s' with
      | EmptyString => if is_space c then EmptyString else String c EmptyString
      | r => String c r
      end
  | EmptyString => EmptyString
  end.

(** [s.strip()] *)
Definition strip (s : string) : string := rstrip (lstrip s).

(** [s.split(sep)] for a one-character separator: never empty. *)
Fixpoint split (sep : ascii) (s : string) : list string :=
  match s with
  | EmptyString => [EmptyString]
  | String c s' =>
      if (c =? sep)%char then EmptyString :: split sep s'
      else match split sep s' with
           | h :: t => String c h :: t
           | [] => [String c EmptyString]
           end
  end.

Definition parse_can_message (line : string) : result Message :=
  let parts := split " "%char line in
  do part0 <- PySeq.get parts 0;
  do arbitration_id <- int16 (substring 0 2 part0);
  do head <- rmap int16 (chunks2 (drop 2 part0));
  do tail <- rmap int16 (PySeq.slice parts 1 (length parts));
  do data <- rmap to_byte (head ++ tail);
  Ok (mkMessage arbitration_id data false).

(** [calculate_crc] of send.py, which the script does not call. *)
Definition calculate_crc (arbitration_id status : Z) : Z :=
  Z.land (arbitration_id + 244 + status) 255.

(** [(msg.data[3] << 8) + msg.data[4]] *)
Definition speed_of (msg : Message) : result Z :=
  do hi <- PySeq.get (data msg) 3;
  do lo <- PySeq.get (data msg) 4;
  Ok (Z.shiftl (byte_val hi) 8 + byte_val lo).

(** The body of the second loop of [adjust_speeds_within_packet]. *)
Definition adjust_message (reference_speed : Z) (msg : Message) : result Message :=
  do speed <- speed_of msg;
  do ratio <- Py.truediv speed reference_speed;
  do scaled <- Py.mul (Py.Float ratio) (Py.Int reference_speed);
  do adjusted_speed <- Py.to_int scaled;
  do hi <- to_byte (Z.land (Z.shiftr adjusted_speed 8) 255);
  do data3 <- PySeq.set (data msg) 3 hi;
  do lo <- to_byte (Z.land adjusted_speed 255);
  do data4 <- PySeq.set data3 4 lo;
  Ok (mkMessage (arbitration_id msg) data4 (is_extended_id msg)).

(** The messages are changed in place; the result is their new content. *)
Definition adjust_speeds_within_packet (messages : list Message)
    : result (list Message) :=
  do speeds <- rmap speed_of messages;
  if (length speeds =? 0)%nat then Raise ZeroDivisionError
  else
    let reference_speed := Convert.sum speeds / Z.of_nat (length speeds) in
    if reference_speed =? 0 then Ok messages
    else rmap (adjust_message reference_speed) messages.

(** *** The bus and the clock

    The bus holds the frames that the motors will send, each with its
    arrival time.  [recv] returns the next frame when it arrives within
    the time-out; otherwise it returns [None] after the time-out and the
    latency of the bus.  The clock moves only while [recv] waits; time is
    counted in the unit of the time-out.  The log records what the
    program does. *)

Inductive verdict : Set := SATISFIED | TIMED_OUT.

Inductive event : Set :=
| EvSend (msg : Message)
| EvRecv (msg : Message)
| EvResolved (v : verdict).

Record world : Set := mkWorld {
  inbox : list (Z * Message);
  now : Z;
  log : list event;
  latency : N
}.

Definition send (msg : Message) (w : world) : world :=
  mkWorld (inbox w) (now w) (log w ++ [EvSend msg]) (latency w).

Definition recv (timeout : Z) (w : world) : option Message * world :=
  let wait := Z.max 0 timeout in
  let silent :=
    mkWorld (inbox w) (now w + wait + Z.of_N (latency w)) (log w) (latency w) in
  match inbox w with
  | (arrival, msg) :: rest =>
      if arrival <=? now w + wait
      then (Some msg, mkWorld rest (Z.max (now w) arrival) (log w) (latency w))
      else (None, silent)
  | [] => (None, silent)
  end.

Definition note (e : event) (w : world) : world :=
  mkWorld (inbox w) (now w) (log w ++ [e]) (latency w).

Definition expected_responses : gset Z := {[1; 2]}.

(** [received_msg.data[1]] *)
Definition status_of (msg : Message) : result Z :=
  do b <- PySeq.get (data msg) 1; Ok (byte_val b).

(** How a call ends: normally, with an exception, or not within the fuel. *)
Inductive ending (A : Type) : Type :=
| Returns (a : A) (w : world)
| Raises (e : exn) (w : world)
| Diverges.

Arguments Returns {A} a w.
Arguments Raises {A} e w.
Arguments Diverges {A}.

(** The end of a turn of [while True:], from
    [if received_responses == expected_responses:] on: the verdict when
    the turn ends with [break]. *)
Definition conclude (recv_timeout start_time : Z) (received_responses : gset Z)
    (w : world) : ending (gset Z * option verdict) :=
  let all_status_2 :=
    if bool_decide (received_responses = expected_responses) then
      let '(probe, w1) := recv recv_timeout w in
      match probe with
      | Some msg =>
          match status_of msg with
          | Ok status => Returns (status =? 2) w1
          | Raise e => Raises e w1
          end
      | None => Returns false w1
      end
    else Returns false w in
  match all_status_2 with
  | Raises e w' => Raises e w'
  | Diverges => Diverges
  | Returns true w2 =>
      Returns (received_responses, Some SATISFIED)
        (note (EvResolved SATISFIED) w2)
  | Returns false w2 =>
      if now w2 - start_time >? recv_timeout
      then Returns (received_responses, Some TIMED_OUT)
             (note (EvResolved TIMED_OUT) w2)
      else Returns (received_responses, None) w2
  end.

(** One turn of [while True:]: the responders seen so far, and the
    verdict when the turn ends the loop. *)
Definition iteration (recv_timeout start_time : Z)
    (received_responses : gset Z) (w : world)
    : ending (gset Z * option verdict) :=
  let '(received_msg, w1) := recv recv_timeout w in
  match received_msg with
  | Some msg =>
      let w1' := note (EvRecv msg) w1 in
      match status_of msg with
      | Ok status =>
          let received' :=
            if bool_decide (status ∈ expected_responses)
            then {[arbitration_id msg]} ∪ received_responses
            else received_responses in
          conclude recv_timeout start_time received' w1'
      | Raise e => Raises e w1'
      end
  | None => conclude recv_timeout start_time received_responses w1
  end.

(** [while True:] of [can_send_messages]. *)
Fixpoint await (fuel : nat) (recv_timeout start_time : Z)
    (received_responses : gset Z) (w : world) : ending verdict :=
  match fuel with
  | O => Diverges
  | S fuel' =>
      match iteration recv_timeout start_time received_responses w with
      | Returns (_, Some v) w' => Returns v w'
      | Returns (received', None) w' =>
          await fuel' recv_timeout start_time received' w'
      | Raises e w' => Raises e w'
      | Diverges => Diverges
      end
  end.

Definition can_send_messages (fuel : nat) (messages : list Message)
    (recv_timeout : Z) (w : world) : ending verdict :=
  let w' := fold_left (fun w msg => send msg w) messages w in
  await fuel recv_timeout (now w') ∅ w'.

(** [[lines[i : i + 6] for i in range(0, len(lines), 6)]] *)
Fixpoint message_sets (lines : list string) : list (list string) :=
  match lines with
  | a :: b :: c :: d :: e :: f :: rest => [a; b; c; d; e; f] :: message_sets rest
  | [] => []
  | short => [short]
  end.

(** The loop over the message sets, from the lines of the file. *)
Fixpoint send_sets (fuel : nat) (sets : list (list string)) (recv_timeout : Z)
    (w : world) : ending (list verdict) :=
  match sets with
  | [] => Returns [] w
  | message :: rest =>
      match rmap (fun line => parse_can_message (strip line)) message with
      | Raise e => Raises e w
      | Ok messages =>
          match adjust_speeds_within_packet messages with
          | Raise e => Raises e w
          | Ok messages' =>
              match can_send_messages fuel messages' recv_timeout w with
              | Raises e w' => Raises e w'
              | Diverges => Diverges
              | Returns v w' =>
                  match send_sets fuel rest recv_timeout w' with
                  | Returns vs w'' => Returns (v :: vs) w''
                  | other => other
                  end
              end
          end
      end
  end.

Definition main (fuel : nat) (lines : list string) (recv_timeout : Z)
    (w : world) : ending (list verdict) :=
  send_sets fuel (message_sets lines) recv_timeout w.

End Send.

(** * The vocabulary of the properties *)

(** ** For the encoder *)

Section EncoderVocabulary.

Import Text Regex.

Local Open Scope string_scope.

(** [(position * gear_ratio - initial_positions[axis_id - 1]) * 100] *)
Definition scaled_displacement (axis_id : Z) (position gear_ratio : Py.num)
    : result Py.num :=
  do scaled <- Py.mul position gear_ratio;
  do origin <- PySeq.get Convert.initial_positions (axis_id - 1);
  do rel <- Py.sub scaled origin;
  Py.mul rel (Py.Int 100).

(** The last six characters of a message, read as a number. *)
Definition rel_position_field (can_message : string) : result Z :=
  int16 (drop (String.length can_message - 6) can_message).

(** The target [10.0] and the feed rate [1000] of the reference scenario. *)
Definition target_10_0 : Py.num := Py.Float (Py.float_of_decimal false 100 1).

(** The specification's reading of the three displacement bytes: a signed
    24-bit two's-complement integer, big-endian.  The repository has the
    encoder of the field only ([Convert.rel_position_hex]); this is the
    decoder that the specification holds against it. *)
Definition spec_decode_int24 (field : string) : result Z :=
  do bytes <- rmap int16 (chunks2 field);
  match bytes with
  | [b0; b1; b2] =>
      let u := b0 * 65536 + b1 * 256 + b2 in
      Ok (if (8388608 <=? u)%Z then u - 16777216 else u)
  | _ => Raise ValueError
  end.

(** [(t * g - 0) * 100], the origin of every axis being 0. *)
Definition displacement_from_origin (t g : Py.num) : result Py.num :=
  do p <- Py.mul t g;
  do r <- Py.sub p (Py.Int 0);
  Py.mul r (Py.Int 100).

(** The value [(-1)^s * m * 2^e] of a finite float as a fraction with a
    positive denominator. *)
Definition fraction (s : bool) (m : positive) (e : Z) : Z * Z :=
  (cond_Zopp s (Z.pos m) * 2 ^ Z.max e 0, 2 ^ Z.max (- e) 0).

(** Truncation toward zero of a finite number. *)
Definition truncate (x : Py.num) : option Z :=
  match x with
  | Py.Int z => Some z
  | Py.Float (S754_zero _) => Some 0
  | Py.Float (S754_finite s m e) =>
      let '(n, d) := fraction s m e in Some (Z.quot n d)
  | Py.Float _ => None
  end.

(** Rounding of a finite number to the nearest integer, ties to even. *)
Definition round_nearest (x : Py.num) : option Z :=
  match x with
  | Py.Int z => Some z
  | Py.Float (S754_zero _) => Some 0
  | Py.Float (S754_finite s m e) =>
      let '(n, d) := fraction s m e in
      let q := n / d in
      Some match (2 * (n mod d) ?= d)%Z with
           | Lt => q
           | Gt => q + 1
           | Eq => if Z.even q then q else q + 1
           end
  | Py.Float _ => None
  end.

(** The field that the encoder writes for a target. *)
Definition encoded_field (axis_id speed : Z) (t g : Py.num) : result Z :=
  do r <- Convert.convert_to_can_message axis_id speed t g false
            Convert.last_positions0;
  rel_position_field (fst r).

(** The field with [round] in the place of the truncation. *)
Definition rounded_field (t g : Py.num) : result Z :=
  do x <- displacement_from_origin t g;
  match round_nearest x with
  | Some r => Ok (r mod 2 ^ 24)
  | None => Raise OverflowError
  end.

(** The target [0.125]: on axis 1 its displacement is [168.75]. *)
Definition target_0_125 : Py.num := Py.Float (Py.float_of_decimal false 125 3).

Definition gear_13_5 : Py.num := Py.Float (Py.float_of_decimal false 135 1).

Fixpoint all_digits (s : string) : bool :=
  match s with
  | EmptyString => true
  | String c s' => is_digit c && all_digits s'
  end.

(** An unsigned token of the first alternative: [digits.digits]. *)
Definition fraction_token (t : string) : Prop :=
  exists ip fp c,
    t = ip ++ String "."%char (String c fp) /\
    all_digits ip = true /\ all_digits (String c fp) = true.

(** An unsigned token of the second alternative: a run of digits. *)
Definition digits_token (t : string) : Prop :=
  exists c d, t = String c d /\ all_digits t = true.

Definition signed (P : string -> Prop) (t : string) : Prop :=
  P t \/ exists c t', t = String c t' /\ is_sign c = true /\ P t'.

(** The feed rate in force after the feed token of a line: that of the
    token, or the one carried forward when the line has none; [None] when
    [int] refuses the token, and the line is skipped. *)
Definition feed_after (st : Convert.state) (line : string) : option Z :=
  match search_feed line with
  | Some g => match py_int g with Ok v => Some v | Raise _ => None end
  | None => Some (Convert.speed st)
  end.

(** A line whose feed token has more digits than [int] converts. *)
Definition long_feed_token (line : string) : bool :=
  match search_feed line with
  | Some g => negb (String.length g <=? max_str_digits)%nat
  | None => false
  end.

(** A numeric token without a decimal point that has more digits than
    [int] converts. *)
Definition long_integer (t : string) : bool :=
  negb (contains "."%char t) &&
  negb (String.length (snd (split_sign t)) <=? max_str_digits)%nat.

(** [enumerate(l, start=start)] *)
Fixpoint enumerate {A : Type} (start : Z) (l : list A) : list (Z * A) :=
  match l with
  | [] => []
  | a :: l' => (start, a) :: enumerate (start + 1) l'
  end.

(** The line written for one axis and one target. *)
Definition frame_of (speed : Z) (p : Z * Py.num) : result string :=
  do r <- Convert.encode_axis speed (fst p) (snd p) Convert.last_positions0;
  Ok (fst r).

(** Two runs of the loop body agree but for the list they update. *)
Definition same_line (r1 r2 : result (string * list Py.num)) : Prop :=
  match r1, r2 with
  | Ok (m1, l1), Ok (m2, l2) => m1 = m2 /\ length l1 = 6%nat
  | Raise e1, Raise e2 => e1 = e2
  | _, _ => False
  end.

Fixpoint replicate (n : nat) (c : ascii) : string :=
  match n with
  | O => EmptyString
  | S n' => String c (replicate n' c)
  end.

(** A command whose first target has four hundred digits. *)
Definition overflow_line : string :=
  "G90 X" ++ replicate 400 "9"%char ++ " Y0 Z0 A0 B0 C0".

End EncoderVocabulary.

(** ** For the sender *)

Section SenderVocabulary.

Import Send.

(** A frame of six payload bytes whose bytes 3 and 4 are zero. *)
Definition idle_frame (id : Z) : Send.Message :=
  Send.mkMessage id [xf5; x03; xe8; x00; x00; x07] false.

(** A frame of the inbox from which the status byte can be read. *)
Definition payload_ok (p : Z * Message) : Prop :=
  exists status, status_of (snd p) = Ok status.

Definition is_recv (e : event) : Prop :=
  match e with
  | EvRecv _ => True
  | _ => False
  end.

(** A bound on the turns that the loop can still take: every turn that
    does not end the loop takes a frame from the inbox or lets a whole
    time-out pass, and a second silent time-out ends the loop. *)
Definition budget (start_time : Z) (w : world) : nat :=
  (length (inbox w) + (if (0 <? now w - start_time)%Z then 1 else 2))%nat.

Definition resolved (o : option verdict) : list event :=
  match o with
  | Some v => [EvResolved v]
  | None => []
  end.

(** The first two statements of the loop over the message sets: the
    frames of a set as they are handed to [can_send_messages]. *)
Definition prepare (message : list string) : result (list Message) :=
  do messages <- rmap (fun line => parse_can_message (strip line)) message;
  adjust_speeds_within_packet messages.

(** The log of a run over packets: for each packet in turn its frames are
    sent, then frames are received, then its verdict is reached; nothing
    of a later packet comes before the verdict of an earlier one. *)
Inductive sequenced :
    list (list Message) -> list verdict -> list event -> Prop :=
| sequenced_nil : sequenced [] [] []
| sequenced_cons p ps v vs rx trace :
    Forall is_recv rx ->
    sequenced ps vs trace ->
    sequenced (p :: ps) (v :: vs)
      (map EvSend p ++ rx ++ [EvResolved v] ++ trace).

(** The frames sent, in the order of the log. *)
Fixpoint sends (trace : list event) : list Message :=
  match trace with
  | [] => []
  | EvSend msg :: trace' => msg :: sends trace'
  | _ :: trace' => sends trace'
  end.

(** Eight lines: a packet of six frames and a short group of two. *)
Definition demo_lines : list string :=
  [ "01F503E8020034BCD3"; "02F503E802000000E4"; "03F503E802FFA81CA8";
    "04F503E8020004B09A"; "05F503E802004F79AF"; "06F503E802FFFFFAE0";
    "01F503E8020034BCD3"; "02F503E802000000E4" ]%string.

(** A status frame of a motor: [status] is its second payload byte. *)
Definition status_frame (id : Z) (status : byte) : Message :=
  mkMessage id [xf5; status; x00] false.

(** Three acknowledgements with status 2, arriving at time 7, on a bus
    with a latency of 1. *)
Definition demo_world : world :=
  mkWorld [(7, status_frame 1 x02); (7, status_frame 2 x02);
           (7, status_frame 1 x02)] 0 [] 1.

Definition demo_packets : list (list Message) :=
  Eval vm_compute in
  match rmap prepare (message_sets demo_lines) with
  | Ok packets => packets
  | Raise _ => []
  end.

(** The verdict of a call that returns. *)
Definition verdict_of (e : ending verdict) : option verdict :=
  match e with
  | Returns v _ => Some v
  | _ => None
  end.

(** The handshake of a packet against a bus on which the given frames
    are waiting, with the time-out of 3 and a latency of 1. *)
Definition handshake (frames : list Message) : option verdict :=
  verdict_of
    (can_send_messages 10 [] 3
       (mkWorld (map (fun m => (0, m)) frames) 0 [] 1)).

End SenderVocabulary.

(** ** For the rest of the encoder *)

Section EncoderCoverage.

Import Text Regex.

Local Open Scope string_scope.

(** [int((position * gear_ratio - initial_positions[axis_id - 1]) * 100)]
    with the gear ratio of the axis: the displacement before the mask. *)
Definition displacement (axis_id : Z) (position : Py.num) : result Z :=
  do gear_ratio <- PySeq.get Convert.gear_ratios (axis_id - 1);
  do x <- scaled_displacement axis_id position gear_ratio;
  Py.to_int x.

(** Texts of hexadecimal digits. *)
Fixpoint all_hex (s : string) : bool :=
  match s with
  | EmptyString => true
  | String c s' =>
      match hex_value c with
      | Some _ => all_hex s'
      | None => false
      end
  end.

(** The states that the loop over the lines goes through. *)
Definition well_formed (st : Convert.state) : Prop :=
  0 <= Convert.speed st /\ length (Convert.last_positions st) = 6%nat.

(** Two runs over the same lines that differ in [last_positions] only:
    they end alike. *)
Definition same_end (o1 o2 : result Convert.state) : Prop :=
  match o1, o2 with
  | Ok s1, Ok s2 =>
      Convert.speed s1 = Convert.speed s2 /\
      length (Convert.last_positions s1) = 6%nat /\
      length (Convert.last_positions s2) = 6%nat
  | Raise e1, Raise e2 => e1 = e2
  | _, _ => False
  end.

End EncoderCoverage.

(** ** For the rest of the sender *)

Section SenderCoverage.

Import Send.

(** Texts of white space, which [strip] removes altogether. *)
Fixpoint all_space (s : string) : bool :=
  match s with
  | EmptyString => true
  | String c s' => is_space c && all_space s'
  end.

(** The end of a line as [readlines] leaves it. *)
Definition newline : string := String "010"%char EmptyString.

(** Two frames that differ at most in the payload bytes 3 and 4. *)
Definition same_but_speed (m m' : Message) : Prop :=
  arbitration_id m' = arbitration_id m /\
  is_extended_id m' = is_extended_id m /\
  length (data m') = length (data m) /\
  forall i, i <> 3%nat -> i <> 4%nat ->
    nth_error (data m') i = nth_error (data m) i.

(** The senders of the frames that the loop has received and printed
    with a status of [expected_responses]. *)
Fixpoint responders (trace : list event) : gset Z :=
  match trace with
  | [] => ∅
  | EvRecv msg :: trace' =>
      match status_of msg with
      | Ok status =>
          if bool_decide (status ∈ expected_responses)
          then {[arbitration_id msg]} ∪ responders trace'
          else responders trace'
      | Raise _ => responders trace'
      end
  | _ :: trace' => responders trace'
  end.

(** A packet of two frames whose payload bytes 3 and 4 read 1 and 97:
    the reference speed is 49, and [(1 / 49) * 49] is below 1. *)
Definition uneven_packet : list Message :=
  [ mkMessage 1 [xf5; x00; x00; x00; x01; x00] false;
    mkMessage 2 [xf5; x00; x00; x00; x61; x00] false ].

(** [(msg.data[1] << 8) + msg.data[2]]: the two payload bytes that follow
    [F5], where convert.py writes the feed rate of a frame. *)
Definition speed_field (msg : Message) : result Z :=
  do hi <- PySeq.get (data msg) 1;
  do lo <- PySeq.get (data msg) 2;
  Ok (Z.shiftl (byte_val hi) 8 + byte_val lo).

(** The payloads of the frames of a packet, as numbers. *)
Definition payloads (r : result (list Message)) : result (list (list Z)) :=
  do messages <- r; Ok (map (fun m => map byte_val (data m)) messages).

(** A command without a feed token: its frames carry the feed rate 0. *)
Definition zero_feed_command : string := "G90 X1300 Y20 Z15 A45 B30 C30".




(** Eight lines of the converter at the feed rate 1000: the six frames
    of a command, and the first two of the command that follows it. *)
Definition short_file : list string :=
  [ "01F503E8020034BCD3"; "02F503E802000000E4"; "03F503E802FFA81CA8";
    "04F503E8020004B09A"; "05F503E802004F79AF"; "06F503E802FFFFFAE0";
    "01F503E8020034BCD3"; "02F503E8026201D81F" ]%string.


End SenderCoverage.

(** * Properties *)

(** ** Text *)

Section TextFacts.

Import Text.

Lemma append_nil_l (t : string) : (EmptyString ++ t)%string = t.
Proof. reflexivity. Qed.

Lemma append_cons (c : ascii) (s t : string) :
  (String c s ++ t)%string = String c (s ++ t)%string.
Proof. reflexivity. Qed.

Lemma append_nil_r (s : string) : (s ++ EmptyString)%string = s.
Proof.
  induction s as [| c s IH]; [reflexivity |].
  rewrite append_cons. f_equal. exact IH.
Qed.

Lemma length_append (s t : string) :
  String.length (s ++ t)%string = (String.length s + String.length t)%nat.
Proof.
  induction s as [| c s IH]; [reflexivity |].
  rewrite append_cons. cbn [String.length]. rewrite IH. reflexivity.
Qed.

Lemma append_assoc (s t u : string) :
  ((s ++ t) ++ u)%string = (s ++ (t ++ u))%string.
Proof.
  induction s as [| c s IH]; [reflexivity |].
  rewrite !append_cons. f_equal. exact IH.
Qed.

Lemma length_hex_fixed (w : nat) (n : Z) : String.length (hex_fixed w n) = w.
Proof.
  revert n; induction w as [| w IH]; intros n; simpl; [reflexivity |].
  rewrite length_append, IH; simpl; lia.
Qed.

Lemma hex_value_digit (d : Z) : 0 <= d < 16 -> hex_value (hex_digit d) = Some d.
Proof.
  intros H.
  assert (d = 0 \/ d = 1 \/ d = 2 \/ d = 3 \/ d = 4 \/ d = 5 \/ d = 6 \/ d = 7 \/
          d = 8 \/ d = 9 \/ d = 10 \/ d = 11 \/ d = 12 \/ d = 13 \/ d = 14 \/
          d = 15) as D by lia.
  repeat (destruct D as [-> | D]; [reflexivity |]); subst d; reflexivity.
Qed.

Lemma int16_acc_app (s t : string) (acc : Z) :
  int16_acc (s ++ t)%string acc =
  match int16_acc s acc with
  | Some a => int16_acc t a
  | None => None
  end.
Proof.
  revert acc; induction s as [| c s IH]; intros acc; simpl; [reflexivity |].
  destruct (hex_value c); [apply IH | reflexivity].
Qed.

(** Reading back [w] digits gives the number modulo [16^w]. *)
Lemma int16_acc_hex_fixed (w : nat) (n acc : Z) :
  int16_acc (hex_fixed w n) acc = Some (acc * 16 ^ Z.of_nat w + n mod 16 ^ Z.of_nat w).
Proof.
  revert n acc; induction w as [| w IH]; intros n acc.
  - simpl. rewrite Z.mod_1_r. f_equal; lia.
  - cbn [hex_fixed]. rewrite int16_acc_app, IH. cbn [int16_acc].
    rewrite hex_value_digit by (apply Z.mod_pos_bound; lia).
    f_equal. rewrite Nat2Z.inj_succ, Z.pow_succ_r by lia.
    rewrite (Z.rem_mul_r n 16 (16 ^ Z.of_nat w)) by lia. lia.
Qed.

Lemma int16_hex_fixed (w : nat) (n : Z) :
  (0 < w)%nat -> int16 (hex_fixed w n) = Ok (n mod 16 ^ Z.of_nat w).
Proof.
  intros Hw. unfold int16.
  assert (L := length_hex_fixed w n).
  rewrite int16_acc_hex_fixed.
  destruct (hex_fixed w n); [simpl in L; lia | reflexivity].
Qed.

Lemma hex_len_le (w : nat) (n : Z) :
  (0 < w)%nat -> 0 <= n < 16 ^ Z.of_nat w -> (hex_len n <= w)%nat.
Proof.
  intros Hw [H0 Hn]. unfold hex_len.
  destruct (Z.eq_dec n 0) as [-> | Hne].
  { change (Z.to_nat (Z.log2 0 / 4)) with 0%nat. lia. }
  assert (Z.log2 n < 4 * Z.of_nat w) as L.
  { apply Z.log2_lt_pow2; [lia |].
    replace (2 ^ (4 * Z.of_nat w)) with (16 ^ Z.of_nat w); [exact Hn |].
    rewrite Z.pow_mul_r by lia. reflexivity. }
  assert (Z.log2 n / 4 < Z.of_nat w) by (apply Z.div_lt_upper_bound; lia).
  assert (0 <= Z.log2 n / 4) by (apply Z.div_pos; [apply Z.log2_nonneg | lia]).
  lia.
Qed.

Lemma hex_len_gt (w : nat) (n : Z) :
  16 ^ Z.of_nat w <= n -> (w < hex_len n)%nat.
Proof.
  intros Hn. unfold hex_len.
  assert (0 < 16 ^ Z.of_nat w) by (apply Z.pow_pos_nonneg; lia).
  assert (4 * Z.of_nat w <= Z.log2 n) as L.
  { apply Z.log2_le_pow2; [lia |].
    replace (2 ^ (4 * Z.of_nat w)) with (16 ^ Z.of_nat w); [exact Hn |].
    rewrite Z.pow_mul_r by lia. reflexivity. }
  assert (Z.of_nat w <= Z.log2 n / 4) by (apply Z.div_le_lower_bound; lia).
  lia.
Qed.

(** Within the width, [format] is the fixed-width rendering. *)
Lemma format_X_fits (w : nat) (n : Z) :
  (0 < w)%nat -> 0 <= n < 16 ^ Z.of_nat w -> format_X w n = hex_fixed w n.
Proof.
  intros Hw Hn. unfold format_X.
  destruct (Z.ltb_spec n 0) as [Hneg | _]; [lia |].
  assert (H := hex_len_le w n Hw Hn).
  now rewrite Nat.max_l by exact H.
Qed.

Lemma length_format_X (w : nat) (n : Z) :
  0 <= n -> String.length (format_X w n) = Nat.max w (hex_len n).
Proof.
  intros Hn. unfold format_X.
  destruct (Z.ltb_spec n 0) as [Hneg | _]; [lia |].
  apply length_hex_fixed.
Qed.

Lemma int16_format_X (w : nat) (n : Z) :
  (0 < w)%nat -> 0 <= n < 16 ^ Z.of_nat w -> int16 (format_X w n) = Ok n.
Proof.
  intros Hw Hn. rewrite format_X_fits, int16_hex_fixed by assumption.
  now rewrite Z.mod_small.
Qed.

(** Splitting the digits at any column. *)
Lemma hex_fixed_add (a b : nat) (n : Z) :
  hex_fixed (a + b) n = (hex_fixed a (n / 16 ^ Z.of_nat b) ++ hex_fixed b n)%string.
Proof.
  revert n; induction b as [| b IH]; intros n.
  - rewrite Nat.add_0_r. cbn [hex_fixed Z.of_nat]. rewrite Z.pow_0_r, Z.div_1_r.
    now rewrite append_nil_r.
  - rewrite Nat.add_succ_r. cbn [hex_fixed]. rewrite IH, append_assoc.
    do 2 f_equal.
    rewrite Nat2Z.inj_succ, Z.pow_succ_r by lia.
    rewrite Z.div_div by (try apply Z.pow_pos_nonneg; lia). reflexivity.
Qed.

Lemma chunks2_app (s t : string) :
  Nat.Even (String.length s) -> chunks2 (s ++ t)%string = chunks2 s ++ chunks2 t.
Proof.
  revert t. remember (String.length s) as k eqn:Hk. revert s Hk.
  induction k as [k IH] using lt_wf_ind. intros s Hk t Hev.
  destruct s as [| a [| b s]].
  - reflexivity.
  - simpl in Hk. subst k. destruct Hev as [m Hm]. lia.
  - simpl in Hk. rewrite !append_cons. cbn [chunks2 app]. f_equal.
    apply (IH (String.length s)); [lia | reflexivity |].
    subst k. destruct Hev as [m Hm]. exists (m - 1)%nat. lia.
Qed.

Lemma length_chunks2 (s : string) :
  Nat.Even (String.length s) -> (2 * length (chunks2 s))%nat = String.length s.
Proof.
  remember (String.length s) as k eqn:Hk. revert s Hk.
  induction k as [k IH] using lt_wf_ind. intros s Hk Hev.
  destruct s as [| a [| b s]].
  - simpl in *. lia.
  - simpl in Hk. subst k. destruct Hev as [m Hm]. lia.
  - simpl in Hk. cbn [chunks2 length].
    assert (Nat.Even (String.length s)) as E.
    { subst k. destruct Hev as [m Hm]. exists (m - 1)%nat. lia. }
    specialize (IH (String.length s) ltac:(lia) s eq_refl E). lia.
Qed.

Lemma rmap_app {A B : Type} (f : A -> result B) (l1 l2 : list A) :
  rmap f (l1 ++ l2) =
  do b1 <- rmap f l1; do b2 <- rmap f l2; Ok (b1 ++ b2).
Proof.
  induction l1 as [| a l1 IH]; simpl.
  - destruct (rmap f l2); reflexivity.
  - destruct (f a); simpl; [| reflexivity].
    rewrite IH. destruct (rmap f l1); simpl; [| reflexivity].
    destruct (rmap f l2); reflexivity.
Qed.

Lemma rmap_length {A B : Type} (f : A -> result B) (l : list A) (bs : list B) :
  rmap f l = Ok bs -> length bs = length l.
Proof.
  revert bs; induction l as [| a l IH]; intros bs; simpl.
  - intros [= <-]. reflexivity.
  - destruct (f a); simpl; [| discriminate].
    destruct (rmap f l) as [bs' |]; simpl; [| discriminate].
    intros [= <-]. simpl. f_equal. now apply IH.
Qed.

Lemma rmap_raises {A B : Type} (f : A -> result B) (P : exn -> Prop)
    (l : list A) (e : exn) :
  (forall a e', f a = Raise e' -> P e') -> rmap f l = Raise e -> P e.
Proof.
  intros Hf. induction l as [| a l IH]; cbn [rmap]; [discriminate |].
  destruct (f a) as [b | e1] eqn:E; cbn [rbind].
  - destruct (rmap f l) as [bs |]; cbn [rbind]; [discriminate |].
    intros [= <-]. now apply IH.
  - intros [= <-]. exact (Hf a e1 E).
Qed.

(** The first failure decides, when all failures are alike. *)
Lemma rmap_first_raise {A B : Type} (f : A -> result B) (e0 : exn)
    (l : list A) :
  (forall a e, f a = Raise e -> e = e0) ->
  Exists (fun a => f a = Raise e0) l -> rmap f l = Raise e0.
Proof.
  intros Hf. induction l as [| a l IH]; intros H; [inversion H |].
  cbn [rmap]. destruct (f a) as [b | e] eqn:E; cbn [rbind].
  - rewrite IH; [reflexivity |].
    inversion H as [? ? Ha | ? ? Hl]; subst; [congruence | exact Hl].
  - now rewrite (Hf a e E).
Qed.

End TextFacts.

(** ** convert.py: the encoder *)

Section EncoderFacts.

Import Text.

Local Open Scope string_scope.

Lemma drop_app (s t : string) : drop (String.length s) (s ++ t) = t.
Proof.
  induction s as [| c s IH]; [destruct t; reflexivity |].
  rewrite append_cons. exact IH.
Qed.

Lemma range_land_24 (d : Z) : 0 <= Z.land d 16777215 < 16 ^ Z.of_nat 6.
Proof.
  change 16777215 with (Z.ones 24). rewrite Z.land_ones by lia.
  change (16 ^ Z.of_nat 6) with (2 ^ 24). apply Z.mod_pos_bound. lia.
Qed.

Lemma rel_position_hex_fixed (d : Z) :
  Convert.rel_position_hex d = hex_fixed 6 (d mod 2 ^ 24).
Proof.
  unfold Convert.rel_position_hex.
  rewrite format_X_fits by (try apply range_land_24; lia).
  change 16777215 with (Z.ones 24). now rewrite Z.land_ones by lia.
Qed.

Lemma length_rel_position_hex (d : Z) :
  String.length (Convert.rel_position_hex d) = 6%nat.
Proof. rewrite rel_position_hex_fixed. apply length_hex_fixed. Qed.

(** What a successful call has computed. *)
Lemma convert_to_can_message_inv axis_id speed position gear_ratio inv lp msg lp' :
  Convert.convert_to_can_message axis_id speed position gear_ratio inv lp
    = Ok (msg, lp') ->
  exists x rel,
    scaled_displacement axis_id position gear_ratio = Ok x /\
    Py.to_int x = Ok rel /\
    msg = format_X 2 axis_id ++ "F5" ++ format_X 4 speed ++ "02"
            ++ Convert.rel_position_hex rel.
Proof.
  unfold Convert.convert_to_can_message, scaled_displacement.
  destruct (Py.mul position gear_ratio) as [scaled |]; cbn [rbind]; [| discriminate].
  destruct (PySeq.get Convert.initial_positions (axis_id - 1)) as [origin |];
    cbn [rbind]; [| discriminate].
  destruct (Py.sub scaled origin) as [rel |]; cbn [rbind]; [| discriminate].
  destruct (Py.mul rel (Py.Int 100)) as [x |]; cbn [rbind]; [| discriminate].
  destruct (Py.to_int x) as [d |] eqn:D; cbn [rbind]; [| discriminate].
  destruct (PySeq.set lp (axis_id - 1) scaled); cbn [rbind]; [| discriminate].
  intros [= <- <-]. exists x, d. repeat split; assumption || reflexivity.
Qed.

Lemma length_format_X_axis (axis_id : Z) :
  1 <= axis_id <= 6 -> String.length (format_X 2 axis_id) = 2%nat.
Proof.
  intros H. rewrite format_X_fits by (change (16 ^ Z.of_nat 2) with 256; lia).
  apply length_hex_fixed.
Qed.

(** The length of a message: sixteen characters but for a wide speed. *)
Lemma length_can_message axis_id speed position gear_ratio inv lp msg lp' :
  1 <= axis_id <= 6 -> 0 <= speed ->
  Convert.convert_to_can_message axis_id speed position gear_ratio inv lp
    = Ok (msg, lp') ->
  String.length msg = (12 + Nat.max 4 (hex_len speed))%nat.
Proof.
  intros Ha Hs H. apply convert_to_can_message_inv in H.
  destruct H as (x & rel & _ & _ & ->).
  rewrite !length_append, length_format_X_axis, length_format_X,
    length_rel_position_hex by assumption.
  cbn [String.length]. lia.
Qed.

Lemma encode_axis_inv speed axis_id position lp line lp' :
  Convert.encode_axis speed axis_id position lp = Ok (line, lp') ->
  exists gear_ratio inv msg bytes,
    PySeq.get Convert.gear_ratios (axis_id - 1) = Ok gear_ratio /\
    Convert.convert_to_can_message axis_id speed position gear_ratio inv lp
      = Ok (msg, lp') /\
    rmap int16 (chunks2 msg) = Ok bytes /\
    line = msg ++ format_X 2 (Convert.calculate_crc bytes).
Proof.
  unfold Convert.encode_axis.
  destruct (PySeq.get Convert.gear_ratios (axis_id - 1)) as [g |]; cbn [rbind];
    [| discriminate].
  destruct (PySeq.get Convert.invert_direction (axis_id - 1)) as [i |];
    cbn [rbind]; [| discriminate].
  destruct (Convert.convert_to_can_message axis_id speed position g i lp)
    as [[msg lp1] |] eqn:E; cbn [rbind]; [| discriminate].
  destruct (rmap int16 (chunks2 msg)) as [bytes |] eqn:B; cbn [rbind];
    [| discriminate].
  intros [= <- <-]. exists g, i, msg, bytes. repeat split; assumption || reflexivity.
Qed.

Lemma calculate_crc_mod (data : list Z) :
  Convert.calculate_crc data = Convert.sum data mod 256.
Proof.
  unfold Convert.calculate_crc. change 255 with (Z.ones 8).
  rewrite Z.land_ones by lia. reflexivity.
Qed.

Lemma calculate_crc_range (data : list Z) :
  0 <= Convert.calculate_crc data < 16 ^ Z.of_nat 2.
Proof.
  rewrite calculate_crc_mod. change (16 ^ Z.of_nat 2) with 256.
  apply Z.mod_pos_bound. lia.
Qed.

End EncoderFacts.

(** ** The frames of the encoder *)

Section Frames.

Import Text.

Local Open Scope string_scope.

(** C1. With feed rate 1000, the axis-1 target 10.0 (gear ratio 13.5,
    origin 0) is encoded as the nine bytes [01F503E8020034BCD3]: the
    message before the checksum is [01 F5 03E8 02 0034BC], the displacement
    is 13500, the checksum is [D3]; the same line is the first one written
    for a command line carrying that feed rate and target. *)
Theorem C1_reference_frame :
  PySeq.get Convert.gear_ratios (1 - 1)
    = Ok (Py.Float (Py.float_of_decimal false 135 1)) /\
  PySeq.get Convert.initial_positions (1 - 1) = Ok (Py.Int 0) /\
  Convert.parse_value "10.0" = Ok target_10_0 /\
  (do x <- scaled_displacement 1 target_10_0
             (Py.Float (Py.float_of_decimal false 135 1));
   Py.to_int x) = Ok 13500 /\
  (do r <- Convert.encode_axis 1000 1 target_10_0 Convert.last_positions0;
   Ok (fst r)) = Ok "01F503E8020034BCD3" /\
  rmap int16 (chunks2 "01F503E8020034BCD3")
    = Ok [1; 245; 3; 232; 2; 0; 52; 188; 211] /\
  hd_error (Convert.written
              (Convert.process_line Convert.initial_state
                 "G90 X10.0 Y0 Z0 A0 B0 C0 F1000"))
    = Some "01F503E8020034BCD3".
Proof. repeat split; vm_compute; reflexivity. Qed.

(** Every line has two characters more than its message. *)
Lemma encode_axis_length speed axis_id position lp line lp' :
  1 <= axis_id <= 6 -> 0 <= speed ->
  Convert.encode_axis speed axis_id position lp = Ok (line, lp') ->
  String.length line = (14 + Nat.max 4 (hex_len speed))%nat.
Proof.
  intros Ha Hs H. apply encode_axis_inv in H.
  destruct H as (g & i & msg & bytes & _ & Hm & _ & ->).
  rewrite length_append, (length_can_message _ _ _ _ _ _ _ _ Ha Hs Hm).
  rewrite format_X_fits, length_hex_fixed by (try apply calculate_crc_range; lia).
  lia.
Qed.

(** A feed rate of two bytes gives lines of eighteen characters. *)
Lemma encode_axis_length_18 speed axis_id position lp line lp' :
  1 <= axis_id <= 6 -> 0 <= speed <= 65535 ->
  Convert.encode_axis speed axis_id position lp = Ok (line, lp') ->
  String.length line = 18%nat.
Proof.
  intros Ha Hs H.
  rewrite (encode_axis_length _ _ _ _ _ _ Ha (proj1 Hs) H).
  assert (hex_len speed <= 4)%nat
    by (apply hex_len_le; [lia | change (16 ^ Z.of_nat 4) with 65536; lia]).
  lia.
Qed.

(** A wider feed rate gives longer lines. *)
Lemma encode_axis_length_wide speed axis_id position lp line lp' :
  1 <= axis_id <= 6 -> 65536 <= speed ->
  Convert.encode_axis speed axis_id position lp = Ok (line, lp') ->
  (18 < String.length line)%nat.
Proof.
  intros Ha Hs H. assert (0 <= speed) as H0 by lia.
  rewrite (encode_axis_length _ _ _ _ _ _ Ha H0 H).
  assert (4 < hex_len speed)%nat
    by (apply hex_len_gt; change (16 ^ Z.of_nat 4) with 65536; lia).
  lia.
Qed.

Lemma chunks2_pair (s : string) : String.length s = 2%nat -> chunks2 s = [s].
Proof.
  destruct s as [| a [| b [| c s]]]; cbn [String.length]; intros H;
    try discriminate; reflexivity.
Qed.

(** C2. At the feed rate 65536 the line written for axis 1 is
    [01F510000020034BC80].  Read as bytes, its ninth byte is [C8] (200),
    while the eight bytes before it add up to 116 modulo 256, which is
    also what [calculate_crc] gives on them.  The two digits [80] that
    the encoder appended are the checksum of the chunks of its message
    of seventeen characters, which are not the bytes of the line. *)
Theorem C2_checksum_at_feed_65536 :
  let r := Convert.process_lines Convert.initial_state
             ["F65536"; "G90 X10.0 Y0 Z0 A0 B0 C0"] in
  hd_error (Convert.written r) = Some "01F510000020034BC80" /\
  rmap int16 (chunks2 "01F510000020034BC80")
    = Ok ([1; 245; 16; 0; 0; 32; 3; 75] ++ [200; 0])%list /\
  Convert.sum [1; 245; 16; 0; 0; 32; 3; 75] mod 256 = 116 /\
  Convert.calculate_crc [1; 245; 16; 0; 0; 32; 3; 75] = 116 /\
  rmap int16 (chunks2 "01F510000020034BC")
    = Ok [1; 245; 16; 0; 0; 32; 3; 75; 12] /\
  Convert.calculate_crc [1; 245; 16; 0; 0; 32; 3; 75; 12] = 128.
Proof. repeat split; vm_compute; reflexivity. Qed.

(** C8. A feed rate of 65536 does not fit the two speed bytes: the lines
    written for it have nineteen characters, not eighteen. *)
Theorem C8_feed_rate_65536_lines :
  let r := Convert.process_lines Convert.initial_state
             ["F65536"; "G90 X10.0 Y0 Z0 A0 B0 C0"] in
  Convert.written r =
    ["01F510000020034BC80"; "02F5100000200000027"; "03F5100000200000028";
     "04F5100000200000029"; "05F510000020000002A"; "06F510000020000002B"] /\
  map String.length (Convert.written r) = [19; 19; 19; 19; 19; 19]%nat /\
  (do s <- Convert.outcome r; Ok (Convert.speed s)) = Ok 65536.
Proof. repeat split; vm_compute; reflexivity. Qed.

End Frames.

(** ** The displacement field *)

Section Displacement.

Import Text.

Local Open Scope string_scope.

Lemma bytes_of_hex_fixed_6 (u : Z) :
  rmap int16 (chunks2 (hex_fixed 6 u))
    = Ok [(u / 65536) mod 256; (u / 256) mod 256; u mod 256].
Proof.
  change 6%nat with (2 + 4)%nat. rewrite hex_fixed_add.
  change 4%nat with (2 + 2)%nat. rewrite hex_fixed_add.
  rewrite !chunks2_app by (rewrite length_hex_fixed; exists 1%nat; reflexivity).
  rewrite !chunks2_pair by apply length_hex_fixed.
  cbn [app rmap]. rewrite !int16_hex_fixed by lia. cbn [rbind].
  reflexivity.
Qed.

Lemma bytes_recombine (u : Z) :
  0 <= u < 16777216 ->
  (u / 65536) mod 256 * 65536 + (u / 256) mod 256 * 256 + u mod 256 = u.
Proof.
  intros H.
  assert (E1 := Z.div_mod u 256 ltac:(lia)).
  assert (E2 := Z.div_mod (u / 256) 256 ltac:(lia)).
  rewrite Z.div_div in E2 by lia. change (256 * 256) with 65536 in E2.
  assert (0 <= u / 65536 < 256) as B
    by (split; [apply Z.div_pos | apply Z.div_lt_upper_bound]; lia).
  rewrite (Z.mod_small (u / 65536) 256) by exact B. lia.
Qed.

(** Decoding an encoded displacement gives its representative in the
    signed 24-bit range. *)
Lemma decode_rel_position_hex (d : Z) :
  spec_decode_int24 (Convert.rel_position_hex d)
    = Ok (let u := d mod 2 ^ 24 in if (8388608 <=? u)%Z then u - 16777216 else u).
Proof.
  unfold spec_decode_int24. rewrite rel_position_hex_fixed, bytes_of_hex_fixed_6.
  cbn [rbind]. cbv zeta.
  rewrite bytes_recombine by (apply (Z.mod_pos_bound d (2 ^ 24)); lia).
  reflexivity.
Qed.

Lemma mod_24_negative (d : Z) :
  - 16777216 <= d < 0 -> d mod 16777216 = d + 16777216.
Proof.
  intros H. symmetry. apply (Z.mod_unique d 16777216 (-1)); lia.
Qed.

(** C6. A displacement in the signed 24-bit range is recovered exactly
    from its three bytes; for any displacement the decoded integer lies in
    that range and is congruent to the encoded one modulo 2^24; and
    displacements that differ by 2^24 have the same bytes, so that 2^23 is
    encoded, without any exception, as -2^23 is: [800000]. *)
Theorem C6_int24_round_trip (d : Z) :
  (- 2 ^ 23 <= d < 2 ^ 23 ->
   spec_decode_int24 (Convert.rel_position_hex d) = Ok d) /\
  (exists u,
     spec_decode_int24 (Convert.rel_position_hex d) = Ok u /\
     - 2 ^ 23 <= u < 2 ^ 23 /\
     u mod 2 ^ 24 = d mod 2 ^ 24) /\
  Convert.rel_position_hex d = Convert.rel_position_hex (d - 2 ^ 24) /\
  Convert.rel_position_hex (2 ^ 23) = "800000" /\
  Convert.rel_position_hex (2 ^ 23 - 2 ^ 24) = "800000".
Proof.
  assert (0 <= d mod 2 ^ 24 < 2 ^ 24) as B by (apply Z.mod_pos_bound; lia).
  change (2 ^ 24) with 16777216 in *. change (2 ^ 23) with 8388608 in *.
  repeat split.
  - intros R. rewrite decode_rel_position_hex. cbv zeta.
    change (2 ^ 24) with 16777216. f_equal.
    destruct (Z.lt_ge_cases d 0) as [N | P].
    + rewrite (mod_24_negative d) by lia.
      destruct (Z.leb_spec 8388608 (d + 16777216)); lia.
    + rewrite Z.mod_small by lia.
      destruct (Z.leb_spec 8388608 d); lia.
  - rewrite decode_rel_position_hex. cbv zeta. change (2 ^ 24) with 16777216.
    eexists. split; [reflexivity |].
    destruct (Z.leb_spec 8388608 (d mod 16777216)) as [Hs | Hs].
    + split; [lia |].
      replace (d mod 16777216 - 16777216)
        with (d mod 16777216 + (-1) * 16777216) by lia.
      rewrite Z.mod_add by lia. apply Z.mod_mod. lia.
    + split; [lia |]. apply Z.mod_mod. lia.
  - rewrite !rel_position_hex_fixed. f_equal. change (2 ^ 24) with 16777216.
    replace (d - 16777216) with (d + (-1) * 16777216) by lia.
    now rewrite Z.mod_add by lia.
Qed.

Lemma C6_int24_round_trip_witness :
  spec_decode_int24 (Convert.rel_position_hex (-150000)) = Ok (-150000).
Proof.
  apply (proj1 (C6_int24_round_trip (-150000))). lia.
Defined.

End Displacement.

(** ** The displacement formula *)

Section DisplacementFormula.

Import Text.

Local Open Scope string_scope.

Lemma to_int_truncate (x : Py.num) (d : Z) :
  Py.to_int x = Ok d -> truncate x = Some d.
Proof.
  destruct x as [z | [s | s | | s m e]]; cbn [Py.to_int truncate];
    try discriminate; try (intros [= <-]; reflexivity).
  intros [= <-]. unfold fraction, Py.trunc_mag. f_equal.
  destruct (Z.le_gt_cases 0 e) as [P | N].
  - rewrite Z.shiftl_mul_pow2 by exact P.
    rewrite Z.max_l, Z.max_r by lia. rewrite Z.pow_0_r, Z.quot_1_r.
    destruct s; cbn [cond_Zopp]; lia.
  - rewrite Z.shiftl_div_pow2 by lia.
    rewrite Z.max_r, Z.max_l by lia. rewrite Z.pow_0_r, Z.mul_1_r.
    assert (0 < 2 ^ (- e)) by (apply Z.pow_pos_nonneg; lia).
    destruct s; cbn [cond_Zopp].
    + rewrite Z.quot_opp_l by lia. rewrite Z.quot_div_nonneg by lia. reflexivity.
    + rewrite Z.quot_div_nonneg by lia. reflexivity.
Qed.

Lemma get_initial_position (axis_id : Z) :
  1 <= axis_id <= 6 ->
  PySeq.get Convert.initial_positions (axis_id - 1) = Ok (Py.Int 0).
Proof.
  intros H.
  assert (axis_id = 1 \/ axis_id = 2 \/ axis_id = 3 \/ axis_id = 4 \/
          axis_id = 5 \/ axis_id = 6) as D by lia.
  repeat (destruct D as [-> | D]; [reflexivity |]). subst. reflexivity.
Qed.

Lemma rel_position_field_message (a b : string) (rel : Z) :
  rel_position_field (a ++ "F5" ++ b ++ "02" ++ Convert.rel_position_hex rel)
    = Ok (rel mod 2 ^ 24).
Proof.
  unfold rel_position_field.
  replace (a ++ "F5" ++ b ++ "02" ++ Convert.rel_position_hex rel)
    with ((a ++ "F5" ++ b ++ "02") ++ Convert.rel_position_hex rel)
    by (now rewrite !append_assoc).
  rewrite length_append, length_rel_position_hex.
  replace (String.length (a ++ "F5" ++ b ++ "02") + 6 - 6)%nat
    with (String.length (a ++ "F5" ++ b ++ "02")) by lia.
  rewrite drop_app, rel_position_hex_fixed, int16_hex_fixed by lia.
  change (16 ^ Z.of_nat 6) with (2 ^ 24).
  apply f_equal, Z.mod_mod. lia.
Qed.

(** C3 (amended). For every axis 1..6, target [t] and gear ratio [g] that
    the encoder accepts, the three-byte field of the message is
    [(t * g - 0) * 100] truncated toward zero, modulo 2^24. *)
Theorem C3_field_is_truncated_displacement
    axis_id speed t g inv lp msg lp' :
  1 <= axis_id <= 6 ->
  Convert.convert_to_can_message axis_id speed t g inv lp = Ok (msg, lp') ->
  exists x d,
    displacement_from_origin t g = Ok x /\
    truncate x = Some d /\
    rel_position_field msg = Ok (d mod 2 ^ 24).
Proof.
  intros Ha H. apply convert_to_can_message_inv in H.
  destruct H as (x & rel & Hx & Hd & ->).
  exists x, rel. repeat split.
  - unfold scaled_displacement in Hx. unfold displacement_from_origin.
    destruct (Py.mul t g) as [p |]; cbn [rbind] in *; [| discriminate].
    rewrite get_initial_position in Hx by exact Ha. exact Hx.
  - apply to_int_truncate. exact Hd.
  - apply rel_position_field_message.
Qed.

Lemma C3_field_is_truncated_displacement_witness :
  exists x d,
    displacement_from_origin target_0_125 gear_13_5 = Ok x /\
    truncate x = Some d /\
    rel_position_field "01F503E8020000A8" = Ok (d mod 2 ^ 24).
Proof.
  apply (C3_field_is_truncated_displacement 1 1000 target_0_125 gear_13_5
           false Convert.last_positions0 "01F503E8020000A8"
           (PySeq.update Convert.last_positions0 0
              (Py.Float (S754_finite false 7599824371187712 (-52))))).
  - lia.
  - vm_compute. reflexivity.
Defined.

(** The target 0.125 on axis 1: the displacement is 168.75, the encoder
    writes 168 ([0000A8]) where rounding gives 169. *)
Lemma C3_round_counterexample :
  encoded_field 1 1000 target_0_125 gear_13_5 = Ok 168 /\
  rounded_field target_0_125 gear_13_5 = Ok 169 /\
  encoded_field 1 1000 target_0_125 gear_13_5
    <> rounded_field target_0_125 gear_13_5.
Proof.
  repeat split; try (vm_compute; reflexivity).
  vm_compute. discriminate.
Qed.

End DisplacementFormula.

(** ** The tokens of the number pattern *)

Section TokenFacts.

Import Text Regex.

Local Open Scope string_scope.

Lemma is_digit_not_sign (c : ascii) : is_digit c = true -> is_sign c = false.
Proof.
  destruct c as [[] [] [] [] [] [] [] []]; vm_compute; congruence.
Qed.

Lemma is_digit_not_dot (c : ascii) : is_digit c = true -> (c =? ".")%char = false.
Proof.
  destruct c as [[] [] [] [] [] [] [] []]; vm_compute; congruence.
Qed.

Lemma is_sign_not_dot (c : ascii) : is_sign c = true -> (c =? ".")%char = false.
Proof.
  destruct c as [[] [] [] [] [] [] [] []]; vm_compute; congruence.
Qed.

Lemma digit_value_nonneg (c : ascii) : is_digit c = true -> 0 <= digit_value c.
Proof.
  unfold is_digit, digit_value. intros H.
  apply andb_prop in H. destruct H as [H _]. apply Nat.leb_le in H. lia.
Qed.

Lemma span_digits_spec (s d r : string) :
  span_digits s = (d, r) ->
  s = d ++ r /\ all_digits d = true /\
  match r with String c _ => is_digit c = false | EmptyString => True end.
Proof.
  revert d r. induction s as [| c s IH]; intros d r; cbn [span_digits].
  - intros [= <- <-]. repeat split.
  - destruct (is_digit c) eqn:Dc.
    + destruct (span_digits s) as [d' r'] eqn:E. intros [= <- <-].
      destruct (IH d' r' eq_refl) as (-> & Hd & Hr).
      repeat split; [cbn [all_digits]; now rewrite Dc, Hd | exact Hr].
    + intros [= <- <-]. repeat split. exact Dc.
Qed.

Lemma span_digits_app (d r : string) :
  all_digits d = true ->
  match r with String c _ => is_digit c = false | EmptyString => True end ->
  span_digits (d ++ r) = (d, r).
Proof.
  intros Hd Hr. induction d as [| c d IH].
  - rewrite append_nil_l. destruct r as [| c r]; [reflexivity |].
    cbn [span_digits]. now rewrite Hr.
  - cbn [all_digits] in Hd. apply andb_prop in Hd. destruct Hd as [Hc Hd].
    rewrite append_cons. cbn [span_digits]. rewrite Hc, (IH Hd). reflexivity.
Qed.

Lemma dec_acc_digits (s : string) (acc : Z) :
  all_digits s = true -> 0 <= acc ->
  exists n, dec_acc s acc = Some n /\ 0 <= n.
Proof.
  revert acc. induction s as [| c s IH]; intros acc Hs Ha.
  - exists acc. split; [reflexivity | exact Ha].
  - cbn [all_digits] in Hs. apply andb_prop in Hs. destruct Hs as [Hc Hs].
    cbn [dec_acc]. rewrite Hc. apply IH; [exact Hs |].
    assert (D := digit_value_nonneg c Hc). lia.
Qed.

Lemma all_digits_app (s t : string) :
  all_digits (s ++ t) = all_digits s && all_digits t.
Proof.
  induction s as [| c s IH]; [reflexivity |].
  rewrite append_cons. cbn [all_digits]. rewrite IH. apply andb_assoc.
Qed.

Lemma contains_dot_digits (s : string) :
  all_digits s = true -> contains "."%char s = false.
Proof.
  induction s as [| c s IH]; [reflexivity |].
  cbn [all_digits contains]. intros H. apply andb_prop in H.
  destruct H as [Hc Hs]. now rewrite (is_digit_not_dot c Hc), (IH Hs).
Qed.

Lemma contains_dot_app (s t : string) :
  contains "."%char (s ++ String "."%char t) = true.
Proof.
  induction s as [| c s IH].
  - rewrite append_nil_l. cbn [contains]. reflexivity.
  - rewrite append_cons. cbn [contains]. rewrite IH. apply orb_true_r.
Qed.

Lemma match_fraction_token (s t rest : string) :
  match_fraction s = Some (t, rest) -> fraction_token t.
Proof.
  unfold match_fraction.
  destruct (span_digits s) as [ip r] eqn:E1.
  destruct (span_digits_spec _ _ _ E1) as (_ & Hip & _).
  destruct r as [| c r]; [discriminate |].
  destruct (Ascii.eqb_spec c "."%char) as [-> | Hne].
  2:{ destruct c as [[] [] [] [] [] [] [] []]; try discriminate.
      now contradiction Hne. }
  destruct (span_digits r) as [fp rest'] eqn:E2.
  destruct (span_digits_spec _ _ _ E2) as (_ & Hfp & _).
  destruct fp as [| c fp]; [discriminate |].
  intros [= <- <-]. exists ip, fp, c. repeat split; assumption.
Qed.

Lemma match_digits_token (s t rest : string) :
  match_digits s = Some (t, rest) -> digits_token t.
Proof.
  unfold match_digits.
  destruct (span_digits s) as [d r] eqn:E.
  destruct (span_digits_spec _ _ _ E) as (_ & Hd & _).
  destruct d as [| c d]; [discriminate |].
  intros [= <- <-]. exists c, d. split; [reflexivity | exact Hd].
Qed.

Lemma match_signed_token (P : string -> Prop)
    (body : string -> option (string * string)) (s t rest : string) :
  (forall s t rest, body s = Some (t, rest) -> P t) ->
  match_signed body s = Some (t, rest) -> signed P t.
Proof.
  intros HP. unfold match_signed. destruct s as [| c s].
  - intros H. left. exact (HP _ _ _ H).
  - destruct (is_sign c) eqn:Sc.
    + destruct (body s) as [[t' rest'] |] eqn:B.
      * intros [= <- <-]. right. exists c, t'. repeat split; [exact Sc |].
        exact (HP _ _ _ B).
      * intros H. left. exact (HP _ _ _ H).
    + intros H. left. exact (HP _ _ _ H).
Qed.

Lemma match_number_token (s t rest : string) :
  match_number s = Some (t, rest) ->
  signed fraction_token t \/ signed digits_token t.
Proof.
  unfold match_number.
  destruct (match_signed match_fraction s) as [[t' rest'] |] eqn:E.
  - intros [= <- <-]. left.
    exact (match_signed_token _ _ _ _ _ match_fraction_token E).
  - intros H. right.
    exact (match_signed_token _ _ _ _ _ match_digits_token H).
Qed.

End TokenFacts.

(** ** Tokens are numbers *)

Section ValueFacts.

Import Text Regex.

Local Open Scope string_scope.

Lemma split_sign_unsigned (t : string) :
  match t with String c _ => is_sign c = false | EmptyString => True end ->
  split_sign t = (false, t).
Proof.
  destruct t as [| c t]; [reflexivity |]. cbn [split_sign]. now intros ->.
Qed.

Lemma split_sign_signed (c : ascii) (t : string) :
  is_sign c = true -> split_sign (String c t) = ((c =? "-")%char, t).
Proof. cbn [split_sign]. now intros ->. Qed.

Lemma fraction_token_unsigned (t : string) :
  fraction_token t ->
  match t with String c _ => is_sign c = false | EmptyString => True end.
Proof.
  intros (ip & fp & c & -> & Hip & _). destruct ip as [| a ip].
  - rewrite append_nil_l. reflexivity.
  - rewrite append_cons. cbn [all_digits] in Hip.
    apply andb_prop in Hip. now apply is_digit_not_sign.
Qed.

Lemma digits_token_unsigned (t : string) :
  digits_token t ->
  match t with String c _ => is_sign c = false | EmptyString => True end.
Proof.
  intros (c & d & -> & H). cbn [all_digits] in H.
  apply andb_prop in H. now apply is_digit_not_sign.
Qed.

Lemma py_float_body (s body : string) (neg : bool) :
  split_sign s = (neg, body) -> fraction_token body ->
  exists f, py_float s = Ok f.
Proof.
  intros Hs (ip & fp & c & -> & Hip & Hfp). unfold py_float. rewrite Hs.
  rewrite (span_digits_app ip (String "."%char (String c fp)) Hip eq_refl).
  assert (all_digits (ip ++ String c fp) = true) as Hall
    by (now rewrite all_digits_app, Hip, Hfp).
  destruct (dec_acc_digits _ 0 Hall ltac:(lia)) as (n & -> & _).
  eexists. reflexivity.
Qed.

Lemma py_int_raises (s : string) (e : exn) : py_int s = Raise e -> e = ValueError.
Proof.
  unfold py_int. destruct (split_sign s) as [neg body].
  destruct body; [congruence |]. destruct (dec_acc _ 0); [| congruence].
  destruct (_ <=? _)%nat; congruence.
Qed.

Lemma py_float_raises (s : string) (e : exn) :
  py_float s = Raise e -> e = ValueError.
Proof.
  unfold py_float. destruct (split_sign s) as [neg body].
  destruct (span_digits body) as [ip r]. destruct r as [| c fp]; [congruence |].
  destruct c as [[] [] [] [] [] [] [] []]; try congruence.
  destruct fp; [congruence |]. destruct (dec_acc _ 0); congruence.
Qed.

Lemma parse_value_raises (t : string) (e : exn) :
  Convert.parse_value t = Raise e -> e = ValueError.
Proof.
  unfold Convert.parse_value. destruct (contains "."%char t).
  - destruct (py_float t) as [f |] eqn:E; cbn [rbind]; [discriminate |].
    intros [= <-]. exact (py_float_raises t _ E).
  - destruct (py_int t) as [z |] eqn:E; cbn [rbind]; [discriminate |].
    intros [= <-]. exact (py_int_raises t _ E).
Qed.

(** A run of digits is converted when it has at most [max_str_digits]
    digits, and refused otherwise. *)
Lemma py_int_body (s body : string) (neg : bool) :
  split_sign s = (neg, body) -> digits_token body ->
  if (String.length body <=? max_str_digits)%nat
  then exists z, py_int s = Ok z /\ (neg = false -> 0 <= z)
  else py_int s = Raise ValueError.
Proof.
  intros Hs (c & d & -> & Hd). unfold py_int. rewrite Hs.
  destruct (dec_acc_digits _ 0 Hd ltac:(lia)) as (n & -> & Hn).
  destruct (_ <=? _)%nat; [| reflexivity].
  eexists. split; [reflexivity |]. now intros ->.
Qed.

Lemma parse_value_fraction (t : string) :
  signed fraction_token t ->
  long_integer t = false /\ exists f, Convert.parse_value t = Ok (Py.Float f).
Proof.
  unfold Convert.parse_value, long_integer. intros [H | (c & t' & -> & Hc & H)].
  - assert (U := fraction_token_unsigned t H).
    destruct (py_float_body t t false (split_sign_unsigned t U) H) as (f & Hf).
    destruct H as (ip & fp & a & -> & _).
    rewrite contains_dot_app, Hf. split; [reflexivity | now exists f].
  - destruct (py_float_body _ t' _ (split_sign_signed c t' Hc) H) as (f & Hf).
    destruct H as (ip & fp & a & -> & _).
    cbn [contains]. rewrite contains_dot_app, orb_true_r, Hf.
    split; [reflexivity | now exists f].
Qed.

Lemma parse_value_digits (t : string) :
  signed digits_token t ->
  if long_integer t then Convert.parse_value t = Raise ValueError
  else exists z, Convert.parse_value t = Ok (Py.Int z).
Proof.
  unfold Convert.parse_value, long_integer. intros [H | (c & t' & -> & Hc & H)].
  - assert (U := digits_token_unsigned t H).
    assert (B := py_int_body t t false (split_sign_unsigned t U) H).
    rewrite (split_sign_unsigned t U). cbn [snd].
    destruct H as (a & d & -> & Hd).
    rewrite (contains_dot_digits _ Hd). cbn [negb andb].
    destruct (_ <=? _)%nat; cbn [negb].
    + destruct B as (z & -> & _). now exists z.
    + now rewrite B.
  - assert (B := py_int_body _ t' _ (split_sign_signed c t' Hc) H).
    rewrite (split_sign_signed c t' Hc). cbn [snd].
    destruct H as (a & d & -> & Hd).
    change (contains "."%char (String c (String a d)))
      with ((c =? ".")%char || contains "."%char (String a d)).
    rewrite (is_sign_not_dot c Hc), (contains_dot_digits _ Hd).
    cbn [orb negb andb].
    destruct (_ <=? _)%nat; cbn [negb].
    + destruct B as (z & -> & _). now exists z.
    + now rewrite B.
Qed.

Lemma findall_from_tokens (skip : nat) (s : string) :
  Forall (fun t => signed fraction_token t \/ signed digits_token t)
    (findall_from skip s).
Proof.
  revert skip. induction s as [| c s IH]; intros skip; cbn [findall_from].
  - constructor.
  - destruct skip as [| k]; [| apply IH].
    destruct (match_number (String c s)) as [[t rest] |] eqn:E; [| apply IH].
    constructor; [exact (match_number_token _ _ _ E) | apply IH].
Qed.

(** The tokens of a line are all read as numbers, unless one of them is
    an integer that [int] refuses. *)
Lemma parse_values_cases (line : string) :
  (Forall (fun t => long_integer t = false) (findall_numbers line) ->
   exists values,
     rmap Convert.parse_value (findall_numbers line) = Ok values /\
     length values = length (findall_numbers line)) /\
  (Exists (fun t => long_integer t = true) (findall_numbers line) ->
   rmap Convert.parse_value (findall_numbers line) = Raise ValueError).
Proof.
  unfold findall_numbers.
  assert (F := findall_from_tokens 0 line). split.
  - induction F as [| t ts Ht _ IH]; intros S.
    + exists []. split; reflexivity.
    + apply Forall_cons_iff in S. destruct S as [St Sts].
      destruct (IH Sts) as (vs & Hvs & L). cbn [rmap].
      destruct Ht as [Ht | Ht].
      * destruct (parse_value_fraction t Ht) as (_ & f & ->). cbn [rbind].
        rewrite Hvs. cbn [rbind]. eexists. split; [reflexivity |].
        cbn [length]. now rewrite L.
      * assert (D := parse_value_digits t Ht). rewrite St in D.
        destruct D as (z & ->). cbn [rbind].
        rewrite Hvs. cbn [rbind]. eexists. split; [reflexivity |].
        cbn [length]. now rewrite L.
  - intros E. apply rmap_first_raise; [exact parse_value_raises |].
    apply Exists_exists in E. destruct E as (t & Hin & Ht).
    apply Exists_exists. exists t. split; [exact Hin |].
    rewrite Forall_forall in F. destruct (F t Hin) as [Hf | Hd].
    + destruct (parse_value_fraction t Hf) as (Hl & _). congruence.
    + assert (D := parse_value_digits t Hd). now rewrite Ht in D.
Qed.

Lemma search_feed_token (s g : string) :
  search_feed s = Some g -> digits_token g.
Proof.
  induction s as [| c s IH]; cbn [search_feed]; [discriminate |].
  destruct (c =? "F")%char; [| exact IH].
  destruct (match_digits s) as [[d rest] |] eqn:E; [| exact IH].
  intros [= <-]. exact (match_digits_token _ _ _ E).
Qed.

(** The feed rate after the feed token: none when the token is too long,
    otherwise a number that is not negative. *)
Lemma feed_after_cases (st : Convert.state) (line : string) :
  if long_feed_token line then feed_after st line = None
  else exists feed,
         feed_after st line = Some feed /\
         (0 <= Convert.speed st -> 0 <= feed).
Proof.
  unfold long_feed_token, feed_after.
  destruct (search_feed line) as [g |] eqn:Eg.
  - apply search_feed_token in Eg.
    assert (U := digits_token_unsigned g Eg).
    assert (B := py_int_body g g false (split_sign_unsigned g U) Eg).
    destruct (_ <=? _)%nat; cbn [negb].
    + destruct B as (z & -> & P). exists z. split; [reflexivity |].
      intros _. now apply P.
    + now rewrite B.
  - exists (Convert.speed st). split; [reflexivity | trivial].
Qed.

(** One iteration of the loop over the lines, by cases. *)
Lemma process_line_cases (st : Convert.state) (line : string) :
  Convert.process_line st line =
  match feed_after st line with
  | None => Convert.mkRun [] (Ok st)
  | Some feed =>
      if String.prefix "G90" line then
        match rmap Convert.parse_value (findall_numbers line) with
        | Raise e => Convert.mkRun [] (Raise e)
        | Ok values =>
            if (7 <=? length values)%nat then
              let e := Convert.encode_axes feed 1 (PySeq.slice values 1 7)
                         (Convert.last_positions st) in
              Convert.mkRun (Convert.written e)
                (do lp <- Convert.outcome e; Ok (Convert.mkState feed lp))
            else Convert.mkRun []
                   (Ok (Convert.mkState feed (Convert.last_positions st)))
        end
      else Convert.mkRun []
             (Ok (Convert.mkState feed (Convert.last_positions st)))
  end.
Proof.
  unfold Convert.process_line, feed_after.
  destruct (search_feed line) as [g |]; [| reflexivity].
  destruct (py_int g) as [v | e] eqn:E; cbn [rbind]; [reflexivity |].
  now rewrite (py_int_raises g e E).
Qed.

End ValueFacts.

(** ** convert.py: the lines of a command *)

Section ParserFacts.

Import Text Regex.

Local Open Scope string_scope.

Lemma length_enumerate {A : Type} (start : Z) (l : list A) :
  length (enumerate start l) = length l.
Proof.
  revert start; induction l as [| a l IH]; intros start; [reflexivity |].
  cbn [enumerate length]. now rewrite IH.
Qed.

Lemma length_update {A : Type} (l : list A) (k : nat) (a : A) :
  length (PySeq.update l k a) = length l.
Proof.
  revert k; induction l as [| x l IH]; intros k; [reflexivity |].
  destruct k; cbn [PySeq.update length]; [reflexivity | now rewrite IH].
Qed.

Lemma set_in_range {A : Type} (l : list A) (axis_id : Z) (a : A) :
  length l = 6%nat -> 1 <= axis_id <= 6 ->
  PySeq.set l (axis_id - 1) a = Ok (PySeq.update l (Z.to_nat (axis_id - 1)) a).
Proof.
  intros L H. unfold PySeq.set. rewrite L.
  destruct (Z.ltb_spec (axis_id - 1) 0); [lia |].
  destruct (Z.leb_spec 0 (axis_id - 1)); [| lia].
  destruct (Z.ltb_spec (axis_id - 1) (Z.of_nat 6)); [reflexivity | lia].
Qed.

Lemma convert_same_line axis_id speed position gear_ratio inv lp1 lp2 :
  length lp1 = 6%nat -> length lp2 = 6%nat -> 1 <= axis_id <= 6 ->
  same_line
    (Convert.convert_to_can_message axis_id speed position gear_ratio inv lp1)
    (Convert.convert_to_can_message axis_id speed position gear_ratio inv lp2).
Proof.
  intros L1 L2 H. unfold Convert.convert_to_can_message.
  destruct (Py.mul position gear_ratio) as [scaled |]; cbn [rbind same_line];
    [| reflexivity].
  destruct (PySeq.get Convert.initial_positions (axis_id - 1)) as [origin |];
    cbn [rbind same_line]; [| reflexivity].
  destruct (Py.sub scaled origin) as [rel |]; cbn [rbind same_line]; [| reflexivity].
  destruct (Py.mul rel (Py.Int 100)) as [x |]; cbn [rbind same_line]; [| reflexivity].
  destruct (Py.to_int x) as [d |]; cbn [rbind same_line]; [| reflexivity].
  rewrite !set_in_range by assumption. cbn [rbind same_line].
  split; [reflexivity |]. now rewrite length_update.
Qed.

Lemma encode_axis_same_line speed axis_id position lp1 lp2 :
  length lp1 = 6%nat -> length lp2 = 6%nat -> 1 <= axis_id <= 6 ->
  same_line (Convert.encode_axis speed axis_id position lp1)
            (Convert.encode_axis speed axis_id position lp2).
Proof.
  intros L1 L2 H. unfold Convert.encode_axis.
  destruct (PySeq.get Convert.gear_ratios (axis_id - 1)) as [g |];
    cbn [rbind same_line]; [| reflexivity].
  destruct (PySeq.get Convert.invert_direction (axis_id - 1)) as [i |];
    cbn [rbind same_line]; [| reflexivity].
  assert (S := convert_same_line axis_id speed position g i lp1 lp2 L1 L2 H).
  destruct (Convert.convert_to_can_message axis_id speed position g i lp1)
    as [[m1 l1] |];
  destruct (Convert.convert_to_can_message axis_id speed position g i lp2)
    as [[m2 l2] |]; cbn [same_line] in S; try contradiction.
  - destruct S as [<- Ll]. cbn [rbind].
    destruct (rmap int16 (chunks2 m1)); cbn [rbind same_line]; [| reflexivity].
    split; [reflexivity | exact Ll].
  - subst. reflexivity.
Qed.

(** The lines of a command are the lines of its axes, in order, up to
    the first axis that raises: the lines written are those of the axes
    before it, and its exception is the outcome. *)
Lemma encode_axes_frames speed positions axis_id lp :
  length lp = 6%nat -> 1 <= axis_id ->
  axis_id + Z.of_nat (length positions) <= 7 ->
  let targets := enumerate axis_id positions in
  let r := Convert.encode_axes speed axis_id positions lp in
  match rmap (frame_of speed) targets with
  | Ok frames =>
      Convert.written r = frames /\
      exists lp', Convert.outcome r = Ok lp' /\ length lp' = 6%nat
  | Raise e =>
      Convert.outcome r = Raise e /\
      exists k p,
        (k < length positions)%nat /\
        rmap (frame_of speed) (firstn k targets) = Ok (Convert.written r) /\
        nth_error targets k = Some p /\
        frame_of speed p = Raise e
  end.
Proof.
  revert axis_id lp.
  induction positions as [| position rest IH]; intros axis_id lp L H1 H2.
  - cbn. split; [reflexivity |]. exists lp. split; [reflexivity | exact L].
  - cbn [length] in H2. cbv zeta. cbn [enumerate rmap Convert.encode_axes].
    assert (S := encode_axis_same_line speed axis_id position lp
                   Convert.last_positions0 L eq_refl ltac:(lia)).
    assert (frame_of speed (axis_id, position)
            = do r <- Convert.encode_axis speed axis_id position
                        Convert.last_positions0; Ok (fst r)) as Fo
      by reflexivity.
    destruct (Convert.encode_axis speed axis_id position lp) as [[m1 l1] |];
    destruct (Convert.encode_axis speed axis_id position Convert.last_positions0)
      as [[m2 l2] |]; cbn [same_line] in S; try contradiction;
      cbn [rbind fst] in Fo; rewrite Fo; cbn [rbind].
    + destruct S as [<- Ll].
      specialize (IH (axis_id + 1) l1 Ll ltac:(lia) ltac:(lia)).
      cbv zeta in IH.
      destruct (rmap (frame_of speed) (enumerate (axis_id + 1) rest))
        as [frames | e]; cbn [rbind Convert.written Convert.outcome].
      * destruct IH as [-> IH]. split; [reflexivity | exact IH].
      * destruct IH as (IH1 & k & p & Hk & Hf & Hn & Hp).
        split; [exact IH1 |]. exists (S k), p.
        split; [cbn [length]; lia |]. split.
        { cbn [firstn rmap]. rewrite Fo, Hf. reflexivity. }
        split; [exact Hn | exact Hp].
    + subst. cbn [Convert.written Convert.outcome].
      split; [reflexivity |]. exists 0%nat, (axis_id, position).
      split; [cbn [length]; lia |]. split; [reflexivity |].
      split; [reflexivity | exact Fo].
Qed.

Lemma length_slice_1_7 {A : Type} (l : list A) :
  (7 <= length l)%nat -> length (PySeq.slice l 1 7) = 6%nat.
Proof.
  intros H. unfold PySeq.slice.
  rewrite length_firstn, length_skipn. lia.
Qed.

Lemma enumerate_six {A : Type} (l : list A) :
  length l = 6%nat -> map fst (enumerate 1 l) = [1; 2; 3; 4; 5; 6].
Proof.
  destruct l as [| a [| b [| c [| d [| e [| f [| g l]]]]]]]; cbn [length];
    intros H; try discriminate. reflexivity.
Qed.

End ParserFacts.

(** ** The parser, line by line *)

Section Parser.

Import Text Regex.

Local Open Scope string_scope.

(** C7 (amended). Within the limit of [int] (a feed token and integer
    tokens of at most 4300 digits): a line is ignored, with no frame and
    no error, unless it starts with the marker [G90] and has at least
    seven numeric tokens.  Such a line gives the six frames of the axes
    1..6, in that order, from the current feed rate and the tokens 2..7,
    provided every one of the six targets can be encoded; otherwise
    exactly the frames of the axes before the first target that cannot
    are written, and the exception of that target ends the conversion.
    Beyond the limit: a line with a longer feed token is skipped whole,
    and a marker line with a longer integer token raises [ValueError]
    and writes nothing. *)
Theorem C7_lines_and_frames (st : Convert.state) (line : string) :
  length (Convert.last_positions st) = 6%nat ->
  let tokens := findall_numbers line in
  let r := Convert.process_line st line in
  (long_feed_token line = true -> r = Convert.mkRun [] (Ok st)) /\
  (long_feed_token line = false ->
   exists feed,
     feed_after st line = Some feed /\
     let idle :=
       Convert.mkRun []
         (Ok (Convert.mkState feed (Convert.last_positions st))) in
     (String.prefix "G90" line = false -> r = idle) /\
     (String.prefix "G90" line = true ->
      (Exists (fun t => long_integer t = true) tokens ->
       r = Convert.mkRun [] (Raise ValueError)) /\
      (Forall (fun t => long_integer t = false) tokens ->
       exists values,
         rmap Convert.parse_value tokens = Ok values /\
         ((length tokens < 7)%nat -> r = idle) /\
         ((7 <= length tokens)%nat ->
          let targets := enumerate 1 (PySeq.slice values 1 7) in
          map fst targets = [1; 2; 3; 4; 5; 6] /\
          match rmap (frame_of feed) targets with
          | Ok frames =>
              Convert.written r = frames /\ length frames = 6%nat /\
              exists lp, Convert.outcome r = Ok (Convert.mkState feed lp) /\
                         length lp = 6%nat
          | Raise e =>
              Convert.outcome r = Raise e /\
              exists k p,
                (k < 6)%nat /\
                rmap (frame_of feed) (firstn k targets)
                  = Ok (Convert.written r) /\
                nth_error targets k = Some p /\
                frame_of feed p = Raise e
          end)))).
Proof.
  intros L tokens r. subst r tokens. rewrite process_line_cases.
  assert (F := feed_after_cases st line).
  split; intros Hlong; rewrite Hlong in F.
  { now rewrite F. }
  destruct F as (feed & Hfeed & _). exists feed. rewrite Hfeed.
  split; [reflexivity |]. cbv zeta.
  split; [now intros -> |]. intros ->.
  destruct (parse_values_cases line) as [Hall Hex].
  split.
  { intros E. now rewrite (Hex E). }
  intros A. destruct (Hall A) as (values & Hv & Lv).
  exists values. split; [exact Hv |]. rewrite Hv, <- Lv.
  split.
  - intros Hl. destruct (Nat.leb_spec 7 (length values)); [lia | reflexivity].
  - intros Hl. destruct (Nat.leb_spec 7 (length values)) as [H7 | H7]; [| lia].
    assert (L6 := length_slice_1_7 values H7).
    split; [exact (enumerate_six _ L6) |].
    assert (E := encode_axes_frames feed (PySeq.slice values 1 7) 1
                   (Convert.last_positions st) L ltac:(lia) ltac:(lia)).
    cbv zeta in E. cbn [Convert.written Convert.outcome].
    destruct (rmap (frame_of feed) (enumerate 1 (PySeq.slice values 1 7)))
      as [frames | e] eqn:Ef.
    + destruct E as [Hw (lp' & Ho & Hlp)]. split; [exact Hw |]. split.
      * apply rmap_length in Ef. now rewrite Ef, length_enumerate.
      * exists lp'. rewrite Ho. split; [reflexivity | exact Hlp].
    + destruct E as (Ho & k & p & Hk & Hf & Hn & Hp).
      rewrite Ho. split; [reflexivity |]. exists k, p.
      split; [lia |]. split; [exact Hf |]. split; [exact Hn | exact Hp].
Qed.

Lemma C7_lines_and_frames_witness :
  let st := Convert.initial_state in
  let line := "G90 X10.0 Y0 Z-1.5 A+.25 B3 C-0.001 F1000" in
  let tokens := findall_numbers line in
  let r := Convert.process_line st line in
  (long_feed_token line = true -> r = Convert.mkRun [] (Ok st)) /\
  (long_feed_token line = false ->
   exists feed,
     feed_after st line = Some feed /\
     let idle :=
       Convert.mkRun []
         (Ok (Convert.mkState feed (Convert.last_positions st))) in
     (String.prefix "G90" line = false -> r = idle) /\
     (String.prefix "G90" line = true ->
      (Exists (fun t => long_integer t = true) tokens ->
       r = Convert.mkRun [] (Raise ValueError)) /\
      (Forall (fun t => long_integer t = false) tokens ->
       exists values,
         rmap Convert.parse_value tokens = Ok values /\
         ((length tokens < 7)%nat -> r = idle) /\
         ((7 <= length tokens)%nat ->
          let targets := enumerate 1 (PySeq.slice values 1 7) in
          map fst targets = [1; 2; 3; 4; 5; 6] /\
          match rmap (frame_of feed) targets with
          | Ok frames =>
              Convert.written r = frames /\ length frames = 6%nat /\
              exists lp, Convert.outcome r = Ok (Convert.mkState feed lp) /\
                         length lp = 6%nat
          | Raise e =>
              Convert.outcome r = Raise e /\
              exists k p,
                (k < 6)%nat /\
                rmap (frame_of feed) (firstn k targets)
                  = Ok (Convert.written r) /\
                nth_error targets k = Some p /\
                frame_of feed p = Raise e
          end)))).
Proof.
  apply (C7_lines_and_frames Convert.initial_state
           "G90 X10.0 Y0 Z-1.5 A+.25 B3 C-0.001 F1000").
  reflexivity.
Defined.

(** The line starts with the marker and has seven numeric tokens, yet no
    frame is written: the first target is beyond the range of a float. *)
Lemma C7_overflow_counterexample :
  String.prefix "G90" overflow_line = true /\
  length (findall_numbers overflow_line) = 7%nat /\
  Convert.written (Convert.process_line Convert.initial_state overflow_line)
    = [] /\
  Convert.outcome (Convert.process_line Convert.initial_state overflow_line)
    = Raise OverflowError.
Proof. repeat split; vm_compute; reflexivity. Qed.

End Parser.

(** ** send.py: the speed adjustment *)

Section SpeedFacts.

Lemma byte_val_range (b : byte) : 0 <= Send.byte_val b < 256.
Proof.
  unfold Send.byte_val. assert (H := Byte.to_N_bounded b). lia.
Qed.

Lemma speed_of_range (msg : Send.Message) (v : Z) :
  Send.speed_of msg = Ok v -> 0 <= v < 65536.
Proof.
  unfold Send.speed_of.
  destruct (PySeq.get (Send.data msg) 3) as [hi |]; cbn [rbind]; [| discriminate].
  destruct (PySeq.get (Send.data msg) 4) as [lo |]; cbn [rbind]; [| discriminate].
  intros [= <-]. rewrite Z.shiftl_mul_pow2 by lia. change (2 ^ 8) with 256.
  assert (H := byte_val_range hi). assert (L := byte_val_range lo). lia.
Qed.

Lemma speeds_nonneg (messages : list Send.Message) (speeds : list Z) :
  rmap Send.speed_of messages = Ok speeds -> 0 <= Convert.sum speeds.
Proof.
  revert speeds. induction messages as [| m ms IH]; intros speeds; cbn [rmap].
  - intros [= <-]. cbn. lia.
  - destruct (Send.speed_of m) as [v |] eqn:E; cbn [rbind]; [| discriminate].
    destruct (rmap Send.speed_of ms) as [vs |]; cbn [rbind]; [| discriminate].
    intros [= <-]. cbn [Convert.sum fold_right].
    assert (R := speed_of_range m v E).
    specialize (IH vs eq_refl). unfold Convert.sum in IH. lia.
Qed.


End SpeedFacts.

(** ** send.py: waiting for the acknowledgements *)

Section BusFacts.

Import Send.

Lemma recv_spec (T : Z) (w w1 : world) (m : option Message) :
  0 < T -> recv T w = (m, w1) ->
  log w1 = log w /\ now w <= now w1 /\
  match m with
  | Some msg => exists arrival, inbox w = (arrival, msg) :: inbox w1
  | None => inbox w1 = inbox w /\ now w + T <= now w1
  end.
Proof.
  intros HT. unfold recv. rewrite Z.max_r by lia.
  assert (0 <= Z.of_N (latency w)) as Hlat by lia.
  destruct (inbox w) as [| [arrival msg] rest] eqn:Ei.
  - intros [= <- <-]. cbn [log now inbox].
    split; [reflexivity |]. split; [lia |]. split; [reflexivity | lia].
  - destruct (Z.leb_spec arrival (now w + T)).
    + intros [= <- <-]. cbn [log now inbox].
      split; [reflexivity |]. split; [lia |]. now exists arrival.
    + intros [= <- <-]. cbn [log now inbox].
      split; [reflexivity |]. split; [lia |]. split; [reflexivity | lia].
Qed.

Lemma conclude_verdict (T start_time : Z) (received' : gset Z) (b : bool)
    (w2 w4 : world) (pre : list (Z * Message)) :
  log w4 = log w2 -> inbox w2 = pre ++ inbox w4 -> now w2 <= now w4 ->
  exists o w',
    (if b then
       Returns (received', Some SATISFIED) (note (EvResolved SATISFIED) w4)
     else if now w4 - start_time >? T
          then Returns (received', Some TIMED_OUT)
                 (note (EvResolved TIMED_OUT) w4)
          else Returns (received', None) w4) = Returns (received', o) w' /\
    log w' = log w2 ++ resolved o /\
    inbox w2 = pre ++ inbox w' /\
    now w2 <= now w' /\
    (o = None -> now w' - start_time <= T).
Proof.
  intros Hl Hi Hn. destruct b.
  - exists (Some SATISFIED), (note (EvResolved SATISFIED) w4).
    cbn. rewrite Hl. repeat split; try assumption. discriminate.
  - destruct (Z.gtb_spec (now w4 - start_time) T).
    + exists (Some TIMED_OUT), (note (EvResolved TIMED_OUT) w4).
      cbn. rewrite Hl. repeat split; try assumption. discriminate.
    + exists None, w4. cbn. rewrite Hl, app_nil_r.
      repeat split; try assumption. intros _. lia.
Qed.

Lemma conclude_spec (T start_time : Z) (received' : gset Z) (w2 : world) :
  0 < T -> Forall payload_ok (inbox w2) ->
  exists o w' pre,
    conclude T start_time received' w2 = Returns (received', o) w' /\
    log w' = log w2 ++ resolved o /\
    inbox w2 = pre ++ inbox w' /\
    now w2 <= now w' /\
    (o = None -> now w' - start_time <= T).
Proof.
  intros HT Hok. unfold conclude.
  destruct (bool_decide (received' = expected_responses)).
  - destruct (recv T w2) as [probe w3] eqn:R.
    destruct (recv_spec T w2 w3 probe HT R) as (Hl & Hn & Hm).
    destruct probe as [msg |].
    + destruct Hm as (arrival & Hi).
      assert (payload_ok (arrival, msg)) as (status & Hs).
      { rewrite Hi in Hok. now inversion Hok. }
      cbn [snd] in Hs. rewrite Hs.
      destruct (conclude_verdict T start_time received' (status =? 2) w2 w3
                  [(arrival, msg)] Hl Hi Hn) as (o & w' & E & H).
      exists o, w', [(arrival, msg)]. split; [exact E | exact H].
    + destruct Hm as (Hi & _).
      destruct (conclude_verdict T start_time received' false w2 w3
                  [] Hl (eq_sym Hi) Hn) as (o & w' & E & H).
      exists o, w', []. split; [exact E | exact H].
  - destruct (conclude_verdict T start_time received' false w2 w2
                [] eq_refl eq_refl ltac:(lia)) as (o & w' & E & H).
    exists o, w', []. split; [exact E | exact H].
Qed.

End BusFacts.

Section LoopFacts.

Import Send.

(** A turn of the loop never raises on well-formed frames, leaves a
    suffix of the inbox, and uses up some of the budget when it does not
    end the loop. *)
Lemma iteration_spec (T start_time : Z) (received : gset Z) (w : world) :
  0 < T -> start_time <= now w -> Forall payload_ok (inbox w) ->
  exists received' o w' rx pre,
    iteration T start_time received w = Returns (received', o) w' /\
    log w' = log w ++ rx ++ resolved o /\
    Forall is_recv rx /\
    inbox w = pre ++ inbox w' /\
    now w <= now w' /\
    (o = None -> (budget start_time w' < budget start_time w)%nat).
Proof.
  intros HT Hs Hok. unfold iteration.
  destruct (recv T w) as [received_msg w1] eqn:R.
  destruct (recv_spec T w w1 received_msg HT R) as (Hl & Hn & Hm).
  destruct received_msg as [msg |].
  - destruct Hm as (arrival & Hi).
    assert (payload_ok (arrival, msg)) as (status & Hst)
      by (rewrite Hi in Hok; now inversion Hok).
    cbn [snd] in Hst. rewrite Hst. cbv zeta.
    set (received' := if bool_decide (status ∈ expected_responses)
                      then {[arbitration_id msg]} ∪ received else received).
    assert (Forall payload_ok (inbox (note (EvRecv msg) w1))) as Hok1
      by (rewrite Hi in Hok; now inversion Hok).
    destruct (conclude_spec T start_time received' (note (EvRecv msg) w1) HT Hok1)
      as (o & w' & pre & E & Hl' & Hi' & Hn' & Ht).
    cbn [note log inbox now] in Hl', Hi', Hn'.
    exists received', o, w', [EvRecv msg], ((arrival, msg) :: pre).
    split; [exact E |]. split.
    { rewrite Hl', Hl, <- !app_assoc. reflexivity. }
    split; [repeat constructor |]. split.
    { rewrite Hi, Hi'. reflexivity. }
    split; [lia |]. intros _. unfold budget.
    rewrite Hi, Hi'. cbn [length]. rewrite length_app.
    destruct (Z.ltb_spec 0 (now w' - start_time));
      destruct (Z.ltb_spec 0 (now w - start_time)); lia.
  - destruct Hm as (Hi & Hn1).
    assert (Forall payload_ok (inbox w1)) as Hok1 by (now rewrite Hi).
    destruct (conclude_spec T start_time received w1 HT Hok1)
      as (o & w' & pre & E & Hl' & Hi' & Hn' & Ht).
    exists received, o, w', [], pre.
    split; [exact E |]. split; [now rewrite Hl', Hl |].
    split; [constructor |]. split; [now rewrite <- Hi |].
    split; [lia |]. intros Ho. specialize (Ht Ho). unfold budget.
    rewrite <- Hi, Hi', length_app.
    destruct (Z.ltb_spec 0 (now w' - start_time));
      destruct (Z.ltb_spec 0 (now w - start_time)); lia.
Qed.

(** The loop ends, with a verdict, within the budget. *)
Lemma await_returns (fuel : nat) (T start_time : Z) (received : gset Z)
    (w : world) :
  0 < T -> start_time <= now w -> Forall payload_ok (inbox w) ->
  (budget start_time w < fuel)%nat ->
  exists v w' rx pre,
    await fuel T start_time received w = Returns v w' /\
    log w' = log w ++ rx ++ [EvResolved v] /\
    Forall is_recv rx /\
    inbox w = pre ++ inbox w' /\
    now w <= now w'.
Proof.
  intros HT. revert received w.
  induction fuel as [| fuel IH]; intros received w Hs Hok Hb; [lia |].
  cbn [await].
  destruct (iteration_spec T start_time received w HT Hs Hok)
    as (received' & o & w1 & rx & pre & E & Hl & Hrx & Hi & Hn & Hd).
  rewrite E. destruct o as [v |].
  - exists v, w1, rx, pre. repeat split; assumption.
  - assert (Forall payload_ok (inbox w1)) as Hok1.
    { rewrite Hi in Hok. apply Forall_app in Hok. apply Hok. }
    destruct (IH received' w1 ltac:(lia) Hok1 ltac:(specialize (Hd eq_refl); lia))
      as (v & w2 & rx2 & pre2 & E2 & Hl2 & Hrx2 & Hi2 & Hn2).
    exists v, w2, (rx ++ rx2), (pre ++ pre2).
    split; [exact E2 |]. split.
    { rewrite Hl2, Hl. cbn [resolved]. rewrite app_nil_r, <- !app_assoc.
      reflexivity. }
    split; [apply Forall_app; split; assumption |]. split.
    { rewrite Hi, Hi2, <- app_assoc. reflexivity. }
    lia.
Qed.

Lemma send_all (messages : list Message) (w : world) :
  let w' := fold_left (fun w msg => send msg w) messages w in
  log w' = log w ++ map EvSend messages /\ inbox w' = inbox w /\ now w' = now w.
Proof.
  revert w. induction messages as [| m ms IH]; intros w; cbn [fold_left map].
  - rewrite app_nil_r. repeat split.
  - destruct (IH (send m w)) as (Hl & Hi & Hn).
    cbv zeta. rewrite Hl, Hi, Hn. cbn [send log inbox now].
    rewrite <- app_assoc. repeat split.
Qed.

(** One packet: its frames are sent, frames are received, the verdict
    comes last. *)
Lemma can_send_messages_returns (fuel : nat) (messages : list Message)
    (T : Z) (w : world) :
  0 < T -> Forall payload_ok (inbox w) -> (length (inbox w) + 2 < fuel)%nat ->
  exists v w' rx pre,
    can_send_messages fuel messages T w = Returns v w' /\
    log w' = log w ++ map EvSend messages ++ rx ++ [EvResolved v] /\
    Forall is_recv rx /\
    inbox w = pre ++ inbox w' /\
    now w <= now w'.
Proof.
  intros HT Hok Hf. unfold can_send_messages.
  destruct (send_all messages w) as (Hl & Hi & Hn).
  set (w0 := fold_left (fun w msg => send msg w) messages w) in *.
  assert (budget (now w0) w0 < fuel)%nat as Hb.
  { unfold budget. rewrite Hi, Z.sub_diag. cbn. exact Hf. }
  destruct (await_returns fuel T (now w0) ∅ w0 HT ltac:(lia)
              ltac:(now rewrite Hi) Hb)
    as (v & w' & rx & pre & E & Hl' & Hrx & Hi' & Hn').
  exists v, w', rx, pre. split; [exact E |]. split.
  { rewrite Hl', Hl, <- app_assoc. reflexivity. }
  split; [exact Hrx |]. split; [now rewrite <- Hi, Hi' | lia].
Qed.

End LoopFacts.

(** ** send.py: packet after packet *)

Section PacketFacts.

Import Send.

Lemma sends_app (t1 t2 : list event) : sends (t1 ++ t2) = sends t1 ++ sends t2.
Proof.
  induction t1 as [| e t1 IH]; [reflexivity |].
  destruct e; cbn [sends app]; now rewrite IH.
Qed.

Lemma sends_map_send (p : list Message) : sends (map EvSend p) = p.
Proof.
  induction p as [| m p IH]; [reflexivity |]. cbn [map sends]. now rewrite IH.
Qed.

Lemma sends_recv (rx : list event) : Forall is_recv rx -> sends rx = [].
Proof.
  induction 1 as [| e rx He _ IH]; [reflexivity |].
  destruct e; cbn [is_recv] in He; try contradiction. exact IH.
Qed.

Lemma sequenced_sends packets verdicts trace :
  sequenced packets verdicts trace ->
  sends trace = concat packets /\ length verdicts = length packets.
Proof.
  induction 1 as [| p ps v vs rx trace Hrx _ [IH1 IH2]].
  - split; reflexivity.
  - rewrite !sends_app, sends_map_send, (sends_recv rx Hrx), IH1.
    cbn [sends app concat length]. split; [reflexivity | now rewrite IH2].
Qed.


Lemma prepare_inv (message : list string) (p : list Message) :
  prepare message = Ok p ->
  exists messages,
    rmap (fun line => parse_can_message (strip line)) message = Ok messages /\
    adjust_speeds_within_packet messages = Ok p.
Proof.
  unfold prepare.
  destruct (rmap (fun line => parse_can_message (strip line)) message)
    as [messages |]; cbn [rbind]; [| discriminate].
  intros H. now exists messages.
Qed.

(** The run over the message sets: every set that can be prepared is
    sent, whatever the verdicts before it. *)
Lemma send_sets_returns (fuel : nat) (sets : list (list string))
    (packets : list (list Message)) (T : Z) (w : world) :
  0 < T -> Forall payload_ok (inbox w) -> (length (inbox w) + 2 < fuel)%nat ->
  rmap prepare sets = Ok packets ->
  exists verdicts w' trace,
    send_sets fuel sets T w = Returns verdicts w' /\
    log w' = log w ++ trace /\
    sequenced packets verdicts trace.
Proof.
  intros HT. revert packets w.
  induction sets as [| message rest IH]; intros packets w Hok Hf Hp.
  - cbn in Hp. injection Hp as <-. exists [], w, [].
    cbn [send_sets]. rewrite app_nil_r. repeat split. constructor.
  - cbn [rmap] in Hp.
    destruct (prepare message) as [p |] eqn:Ep; cbn [rbind] in Hp; [| discriminate].
    destruct (rmap prepare rest) as [ps |] eqn:Eps; cbn [rbind] in Hp;
      [| discriminate].
    injection Hp as <-.
    destruct (prepare_inv message p Ep) as (messages & Em & Ea).
    cbn [send_sets]. rewrite Em, Ea.
    destruct (can_send_messages_returns fuel p T w HT Hok Hf)
      as (v & w1 & rx & pre & E & Hl & Hrx & Hi & _).
    rewrite E.
    assert (Forall payload_ok (inbox w1)) as Hok1.
    { rewrite Hi in Hok. apply Forall_app in Hok. apply Hok. }
    assert (length (inbox w1) + 2 < fuel)%nat as Hf1.
    { rewrite Hi, length_app in Hf. lia. }
    destruct (IH ps w1 Hok1 Hf1 eq_refl) as (vs & w2 & trace & E2 & Hl2 & Hs).
    rewrite E2.
    exists (v :: vs), w2, (map EvSend p ++ rx ++ [EvResolved v] ++ trace).
    split; [reflexivity |]. split.
    + rewrite Hl2, Hl, <- !app_assoc. reflexivity.
    + now constructor.
Qed.

End PacketFacts.

(** ** The sender *)

Section Sender.

Import Send.

Local Open Scope string_scope.

(** C5. The packets are handled one after the other: in the log of a run
    the frames of a packet, the frames received for it and its verdict
    (SATISFIED or TIMED_OUT) come before any frame of the next packet;
    whatever the verdicts, every packet is sent, and every frame is sent
    once. *)
Theorem C5_packet_barrier (fuel : nat) (lines : list string)
    (packets : list (list Message)) (T : Z) (w : world) :
  0 < T -> Forall payload_ok (inbox w) -> (length (inbox w) + 2 < fuel)%nat ->
  rmap prepare (message_sets lines) = Ok packets ->
  exists verdicts w' trace,
    main fuel lines T w = Returns verdicts w' /\
    log w' = (log w ++ trace)%list /\
    sequenced packets verdicts trace /\
    sends trace = concat packets /\
    length verdicts = length packets.
Proof.
  intros HT Hok Hf Hp. unfold main.
  destruct (send_sets_returns fuel (message_sets lines) packets T w HT Hok Hf Hp)
    as (verdicts & w' & trace & E & Hl & Hs).
  exists verdicts, w', trace.
  destruct (sequenced_sends _ _ _ Hs) as [S1 S2].
  repeat split; assumption.
Qed.

Lemma payload_ok_demo_world : Forall payload_ok (inbox demo_world).
Proof.
  repeat constructor; eexists; reflexivity.
Defined.

(** On the demonstration run the first packet times out and the second
    is sent all the same. *)
Lemma C5_packet_barrier_witness :
  exists verdicts w' trace,
    main 6 demo_lines 3 demo_world = Returns verdicts w' /\
    log w' = (log demo_world ++ trace)%list /\
    sequenced demo_packets verdicts trace /\
    sends trace = concat demo_packets /\
    length verdicts = length demo_packets.
Proof.
  apply (C5_packet_barrier 6 demo_lines demo_packets 3 demo_world).
  - lia.
  - exact payload_ok_demo_world.
  - cbn. lia.
  - vm_compute. reflexivity.
Defined.

Lemma demo_verdicts :
  match main 6 demo_lines 3 demo_world with
  | Returns verdicts _ => verdicts = [TIMED_OUT; SATISFIED]
  | _ => False
  end.
Proof. vm_compute. reflexivity. Qed.


Lemma adjust_inv (messages p : list Message) :
  adjust_speeds_within_packet messages = Ok p ->
  exists speeds,
    rmap speed_of messages = Ok speeds /\ messages <> [] /\
    length p = length messages.
Proof.
  unfold adjust_speeds_within_packet.
  destruct (rmap speed_of messages) as [speeds |] eqn:E; cbn [rbind];
    [| discriminate].
  assert (L := rmap_length _ _ _ E).
  destruct (length speeds =? 0)%nat eqn:Z0; [discriminate |].
  apply Nat.eqb_neq in Z0.
  intros H. exists speeds. split; [reflexivity |]. split.
  - intros ->. cbn [length] in L. lia.
  - destruct (Convert.sum speeds / Z.of_nat (length speeds) =? 0)%Z.
    + now injection H as <-.
    + exact (rmap_length _ _ _ H).
Qed.

(** C4. The loop does not decide on the latest status of the motors 1
    and 2.  Motors 1 and 2 both at status 1, followed by a status 2 of
    motor 7: SATISFIED.  Motors 1 and 2 both at status 2 and nothing
    after them: TIMED_OUT.  A status frame of motor 3 before the status 2
    of motors 1 and 2: TIMED_OUT, however many status-2 frames follow. *)
Theorem C4_handshake_runs :
  handshake [status_frame 1 x01; status_frame 2 x01; status_frame 7 x02]
    = Some SATISFIED /\
  handshake [status_frame 1 x02; status_frame 2 x02] = Some TIMED_OUT /\
  handshake [status_frame 3 x02; status_frame 1 x02; status_frame 2 x02;
             status_frame 1 x02; status_frame 2 x02] = Some TIMED_OUT /\
  handshake [status_frame 1 x02; status_frame 2 x02; status_frame 2 x02]
    = Some SATISFIED /\
  handshake [status_frame 1 x02] = Some TIMED_OUT.
Proof. repeat split; vm_compute; reflexivity. Qed.

End Sender.

(** * Further properties of convert.py *)

Section EncoderTotality.

Import Text.

Local Open Scope string_scope.

Lemma all_hex_app (s t : string) :
  all_hex (s ++ t) = all_hex s && all_hex t.
Proof.
  induction s as [| c s IH]; [reflexivity |].
  rewrite append_cons. cbn [all_hex]. destruct (hex_value c); [exact IH | reflexivity].
Qed.

Lemma all_hex_hex_fixed (w : nat) (n : Z) : all_hex (hex_fixed w n) = true.
Proof.
  revert n. induction w as [| w IH]; intros n; [reflexivity |].
  cbn [hex_fixed]. rewrite all_hex_app, IH. cbn [all_hex andb].
  now rewrite hex_value_digit by (apply Z.mod_pos_bound; lia).
Qed.

Lemma all_hex_format_X (w : nat) (n : Z) : 0 <= n -> all_hex (format_X w n) = true.
Proof.
  intros H. unfold format_X. destruct (Z.ltb_spec n 0); [lia |].
  apply all_hex_hex_fixed.
Qed.

Lemma int16_all_hex (s : string) :
  all_hex s = true -> s <> EmptyString -> exists n, int16 s = Ok n.
Proof.
  intros H Hne. unfold int16.
  assert (forall acc, exists n, int16_acc s acc = Some n) as A.
  { clear Hne. induction s as [| c s IH]; intros acc; cbn [int16_acc].
    - now exists acc.
    - cbn [all_hex] in H. destruct (hex_value c); [apply IH, H | discriminate]. }
  destruct (A 0) as (n & ->). destruct s; [contradiction | now exists n].
Qed.

(** The chunks of a text of hexadecimal digits are all read as numbers. *)
Lemma chunks2_all_hex (s : string) :
  all_hex s = true -> exists bytes, rmap int16 (chunks2 s) = Ok bytes.
Proof.
  remember (String.length s) as k eqn:Hk. revert s Hk.
  induction k as [k IH] using lt_wf_ind. intros s Hk H.
  destruct s as [| a [| b s]].
  - now exists [].
  - cbn [chunks2 rmap].
    destruct (int16_all_hex (String a EmptyString) H ltac:(discriminate)) as (n & ->).
    now exists [n].
  - cbn [chunks2 rmap].
    assert (all_hex (String a (String b EmptyString)) = true /\ all_hex s = true)
      as [H2 Hs].
    { cbn [all_hex] in *. destruct (hex_value a); [| discriminate].
      destruct (hex_value b); [| discriminate]. now split. }
    destruct (int16_all_hex _ H2 ltac:(discriminate)) as (n & ->).
    cbn [String.length] in Hk.
    destruct (IH (String.length s) ltac:(lia) s eq_refl Hs) as (bytes & ->).
    now exists (n :: bytes).
Qed.

Lemma get_gear_ratio (axis_id : Z) :
  1 <= axis_id <= 6 ->
  exists g, PySeq.get Convert.gear_ratios (axis_id - 1) = Ok g.
Proof.
  intros H.
  assert (axis_id = 1 \/ axis_id = 2 \/ axis_id = 3 \/ axis_id = 4 \/
          axis_id = 5 \/ axis_id = 6) as D by lia.
  repeat (destruct D as [-> | D]; [eexists; reflexivity |]).
  subst. eexists. reflexivity.
Qed.

Lemma get_invert_direction (axis_id : Z) :
  1 <= axis_id <= 6 ->
  exists i, PySeq.get Convert.invert_direction (axis_id - 1) = Ok i.
Proof.
  intros H.
  assert (axis_id = 1 \/ axis_id = 2 \/ axis_id = 3 \/ axis_id = 4 \/
          axis_id = 5 \/ axis_id = 6) as D by lia.
  repeat (destruct D as [-> | D]; [eexists; reflexivity |]).
  subst. eexists. reflexivity.
Qed.

(** The message of an axis, once its displacement is known. *)
Lemma convert_of_displacement axis_id speed position gear_ratio inv lp :
  1 <= axis_id <= 6 -> length lp = 6%nat ->
  Convert.convert_to_can_message axis_id speed position gear_ratio inv lp =
  match Py.mul position gear_ratio with
  | Raise e => Raise e
  | Ok scaled =>
      do x <- scaled_displacement axis_id position gear_ratio;
      do rel <- Py.to_int x;
      Ok (format_X 2 axis_id ++ "F5" ++ format_X 4 speed ++ "02"
            ++ Convert.rel_position_hex rel,
          PySeq.update lp (Z.to_nat (axis_id - 1)) scaled)
  end.
Proof.
  intros Ha L. unfold Convert.convert_to_can_message, scaled_displacement.
  destruct (Py.mul position gear_ratio) as [scaled |]; cbn [rbind]; [| reflexivity].
  rewrite get_initial_position by exact Ha. cbn [rbind].
  destruct (Py.sub scaled (Py.Int 0)) as [rel |]; cbn [rbind]; [| reflexivity].
  destruct (Py.mul rel (Py.Int 100)) as [x |]; cbn [rbind]; [| reflexivity].
  destruct (Py.to_int x) as [d |]; cbn [rbind]; [| reflexivity].
  now rewrite set_in_range by assumption.
Qed.

Lemma all_hex_message (axis_id speed rel : Z) :
  0 <= axis_id -> 0 <= speed ->
  all_hex (format_X 2 axis_id ++ "F5" ++ format_X 4 speed ++ "02"
             ++ Convert.rel_position_hex rel) = true.
Proof.
  intros Ha Hs. rewrite !all_hex_app, !all_hex_format_X by assumption.
  rewrite rel_position_hex_fixed, all_hex_hex_fixed. reflexivity.
Qed.

End EncoderTotality.

Section EncoderLayout.

Import Text.

Local Open Scope string_scope.

(** An axis gives a line exactly when its displacement can be computed;
    the line is the message followed by the checksum of its chunks. *)
Lemma encode_axis_displacement speed axis_id position lp :
  1 <= axis_id <= 6 -> 0 <= speed -> length lp = 6%nat ->
  match displacement axis_id position with
  | Ok rel =>
      let msg := format_X 2 axis_id ++ "F5" ++ format_X 4 speed ++ "02"
                   ++ Convert.rel_position_hex rel in
      exists bytes lp',
        rmap int16 (chunks2 msg) = Ok bytes /\
        Convert.encode_axis speed axis_id position lp
          = Ok (msg ++ format_X 2 (Convert.calculate_crc bytes), lp') /\
        length lp' = 6%nat
  | Raise e => Convert.encode_axis speed axis_id position lp = Raise e
  end.
Proof.
  intros Ha Hs L. unfold displacement, Convert.encode_axis.
  destruct (get_gear_ratio axis_id Ha) as (g & ->).
  destruct (get_invert_direction axis_id Ha) as (i & ->). cbn [rbind].
  rewrite convert_of_displacement by assumption.
  destruct (Py.mul position g) as [scaled |] eqn:M.
  - destruct (scaled_displacement axis_id position g) as [x |]; cbn [rbind];
      [| reflexivity].
    destruct (Py.to_int x) as [rel |]; cbn [rbind]; [| reflexivity].
    cbv zeta.
    destruct (chunks2_all_hex _ (all_hex_message axis_id speed rel
                                   ltac:(lia) Hs)) as (bytes & Hb).
    exists bytes, (PySeq.update lp (Z.to_nat (axis_id - 1)) scaled).
    rewrite Hb. cbn [rbind]. repeat split. now rewrite length_update.
  - unfold scaled_displacement. rewrite M. reflexivity.
Qed.

Lemma to_float_raises (a : Py.num) (e : exn) :
  Py.to_float a = Raise e -> e = OverflowError.
Proof.
  destruct a as [z | f]; cbn [Py.to_float]; [| discriminate].
  unfold Py.float_of_int.
  destruct (binary_normalize Py.prec Py.emax z 0 false); congruence.
Qed.

Lemma mul_raises (a b : Py.num) (e : exn) :
  Py.mul a b = Raise e -> e = OverflowError.
Proof.
  unfold Py.mul. intros H.
  destruct a as [x | f], b as [y | g]; try discriminate H;
    (destruct (Py.to_float _) eqn:A in H; cbn [rbind] in H;
     [| inversion H; subst; exact (to_float_raises _ _ A)]);
    (destruct (Py.to_float _) eqn:B in H; cbn [rbind] in H;
     [discriminate H | inversion H; subst; exact (to_float_raises _ _ B)]).
Qed.

Lemma sub_raises (a b : Py.num) (e : exn) :
  Py.sub a b = Raise e -> e = OverflowError.
Proof.
  unfold Py.sub. intros H.
  destruct a as [x | f], b as [y | g]; try discriminate H;
    (destruct (Py.to_float _) eqn:A in H; cbn [rbind] in H;
     [| inversion H; subst; exact (to_float_raises _ _ A)]);
    (destruct (Py.to_float _) eqn:B in H; cbn [rbind] in H;
     [discriminate H | inversion H; subst; exact (to_float_raises _ _ B)]).
Qed.

Lemma to_int_raises (a : Py.num) (e : exn) :
  Py.to_int a = Raise e -> e = OverflowError \/ e = ValueError.
Proof.
  destruct a as [z | [s | s | | s m x]]; cbn [Py.to_int]; try discriminate;
    intros [= <-]; auto.
Qed.

Lemma displacement_raises (axis_id : Z) (position : Py.num) (e : exn) :
  1 <= axis_id <= 6 ->
  displacement axis_id position = Raise e ->
  e = OverflowError \/ e = ValueError.
Proof.
  intros Ha. unfold displacement, scaled_displacement.
  destruct (get_gear_ratio axis_id Ha) as (g & ->). cbn [rbind].
  rewrite get_initial_position by exact Ha.
  destruct (Py.mul position g) as [scaled |] eqn:M; cbn [rbind].
  2:{ intros [= <-]. left. exact (mul_raises _ _ _ M). }
  destruct (Py.sub scaled (Py.Int 0)) as [rel |] eqn:S; cbn [rbind].
  2:{ intros [= <-]. left. exact (sub_raises _ _ _ S). }
  destruct (Py.mul rel (Py.Int 100)) as [x |] eqn:M2; cbn [rbind].
  2:{ intros [= <-]. left. exact (mul_raises _ _ _ M2). }
  apply to_int_raises.
Qed.

(** X1. For an axis 1..6 and a feed rate that is not negative, the loop
    body writes a line exactly when the displacement of the target can be
    computed; when it cannot, the exception is that of the arithmetic, an
    [OverflowError] (a number beyond the range of a float) or a
    [ValueError] (a NaN): never an [IndexError], and never an error of
    the checksum. *)
Theorem encode_axis_raises_only_from_arithmetic speed axis_id position lp :
  1 <= axis_id <= 6 -> 0 <= speed -> length lp = 6%nat ->
  match Convert.encode_axis speed axis_id position lp with
  | Ok (line, lp') =>
      exists rel, displacement axis_id position = Ok rel /\ length lp' = 6%nat
  | Raise e =>
      displacement axis_id position = Raise e /\
      (e = OverflowError \/ e = ValueError)
  end.
Proof.
  intros Ha Hs L.
  assert (D := encode_axis_displacement speed axis_id position lp Ha Hs L).
  destruct (displacement axis_id position) as [rel | e] eqn:E.
  - cbv zeta in D. destruct D as (bytes & lp' & _ & -> & L').
    exists rel. split; [reflexivity | exact L'].
  - rewrite D. split; [reflexivity |].
    exact (displacement_raises axis_id position e Ha E).
Qed.

Lemma encode_axis_raises_only_from_arithmetic_witness :
  match Convert.encode_axis 1000 1 target_10_0 Convert.last_positions0 with
  | Ok (line, lp') =>
      exists rel, displacement 1 target_10_0 = Ok rel /\ length lp' = 6%nat
  | Raise e =>
      displacement 1 target_10_0 = Raise e /\
      (e = OverflowError \/ e = ValueError)
  end.
Proof.
  apply (encode_axis_raises_only_from_arithmetic 1000 1 target_10_0
           Convert.last_positions0); [lia | lia | reflexivity].
Defined.

End EncoderLayout.

Section FrameBytes.

Import Text.

Local Open Scope string_scope.

Lemma chunks2_cons2 (a b : ascii) (s : string) :
  chunks2 (String a (String b s)) = String a (String b EmptyString) :: chunks2 s.
Proof. reflexivity. Qed.

Lemma even_length_hex_fixed_2 (n : Z) : Nat.Even (String.length (hex_fixed 2 n)).
Proof. rewrite length_hex_fixed. now exists 1%nat. Qed.

(** The eight bytes of a message, field by field. *)
Lemma bytes_of_message (axis_id speed p : Z) :
  0 <= axis_id < 256 -> 0 <= speed < 65536 ->
  rmap int16
    (chunks2 (hex_fixed 2 axis_id ++ "F5" ++ hex_fixed 4 speed ++ "02"
                ++ hex_fixed 6 p))
  = Ok [axis_id; 245; speed / 256; speed mod 256; 2;
        (p / 65536) mod 256; (p / 256) mod 256; p mod 256].
Proof.
  intros Ha Hs.
  rewrite chunks2_app by apply even_length_hex_fixed_2.
  rewrite chunks2_pair by apply length_hex_fixed.
  rewrite !append_cons, !append_nil_l, chunks2_cons2.
  change 4%nat with (2 + 2)%nat. rewrite hex_fixed_add, append_assoc.
  rewrite chunks2_app by apply even_length_hex_fixed_2.
  rewrite chunks2_pair by apply length_hex_fixed.
  rewrite chunks2_app by apply even_length_hex_fixed_2.
  rewrite chunks2_pair by apply length_hex_fixed.
  rewrite chunks2_cons2.
  cbn [app]. cbn [rmap]. rewrite !int16_hex_fixed by lia.
  rewrite bytes_of_hex_fixed_6.
  change (int16 "F5") with (@Ok Z 245). change (int16 "02") with (@Ok Z 2).
  cbn [rbind]. change (16 ^ Z.of_nat 2) with 256.
  rewrite (Z.mod_small axis_id 256) by lia.
  rewrite (Z.mod_small (speed / 256) 256)
    by (split; [apply Z.div_pos | apply Z.div_lt_upper_bound]; lia).
  reflexivity.
Qed.

(** The chunks of a line, as the checksum loop reads them. *)
Lemma encode_axis_chunks speed axis_id position lp line lp' :
  1 <= axis_id <= 6 -> 0 <= speed <= 65535 ->
  Convert.encode_axis speed axis_id position lp = Ok (line, lp') ->
  exists rel,
    displacement axis_id position = Ok rel /\
    let p := rel mod 2 ^ 24 in
    let b5 := p / 65536 in
    let b6 := (p / 256) mod 256 in
    let b7 := p mod 256 in
    rmap int16 (chunks2 line)
    = Ok [axis_id; 245; speed / 256; speed mod 256; 2; b5; b6; b7;
          (axis_id + 245 + speed / 256 + speed mod 256 + 2 + b5 + b6 + b7)
            mod 256].
Proof.
  intros Ha Hs H. apply encode_axis_inv in H.
  destruct H as (g & i & msg & bytes & Hg & Hm & Hb & ->).
  apply convert_to_can_message_inv in Hm.
  destruct Hm as (x & rel & Hx & Hrel & ->).
  exists rel. split.
  { unfold displacement. rewrite Hg. cbn [rbind]. rewrite Hx. exact Hrel. }
  cbv zeta.
  assert (0 <= rel mod 2 ^ 24 < 16777216) as Hp
    by (apply (Z.mod_pos_bound rel (2 ^ 24)); lia).
  rewrite !format_X_fits in Hb
    by (try (change (16 ^ Z.of_nat 2) with 256);
        try (change (16 ^ Z.of_nat 4) with 65536); lia).
  rewrite rel_position_hex_fixed in Hb.
  rewrite bytes_of_message in Hb by lia. injection Hb as <-.
  rewrite !format_X_fits
    by (try (change (16 ^ Z.of_nat 2) with 256);
        try (change (16 ^ Z.of_nat 4) with 65536);
        try apply calculate_crc_range; lia).
  rewrite rel_position_hex_fixed.
  set (msg := hex_fixed 2 axis_id ++ "F5" ++ hex_fixed 4 speed ++ "02"
                ++ hex_fixed 6 (rel mod 2 ^ 24)).
  assert (Nat.Even (String.length msg)) as E.
  { exists 8%nat. subst msg. rewrite !length_append, !length_hex_fixed.
    reflexivity. }
  rewrite chunks2_app by exact E.
  rewrite rmap_app. subst msg. rewrite bytes_of_message by lia. cbn [rbind].
  rewrite chunks2_pair by apply length_hex_fixed. cbn [rmap].
  rewrite int16_hex_fixed by lia. cbn [rbind app].
  change (16 ^ Z.of_nat 2) with 256.
  rewrite calculate_crc_mod, Z.mod_mod by lia.
  rewrite (Z.mod_small (rel mod 2 ^ 24 / 65536) 256)
    by (split; [apply Z.div_pos | apply Z.div_lt_upper_bound]; lia).
  cbn [Convert.sum fold_right]. rewrite Z.add_0_r, !Z.add_assoc. reflexivity.
Qed.

(** X2. The nine bytes of a line, for an axis 1..6 and a feed rate of two
    bytes: the axis, [F5], the feed rate big-endian, [02], the displacement
    modulo 2^24 big-endian, and the sum of these eight bytes modulo 256. *)
Theorem frame_bytes_layout speed axis_id position lp line lp' :
  1 <= axis_id <= 6 -> 0 <= speed <= 65535 ->
  Convert.encode_axis speed axis_id position lp = Ok (line, lp') ->
  exists rel,
    displacement axis_id position = Ok rel /\
    let p := rel mod 2 ^ 24 in
    let b5 := p / 65536 in
    let b6 := (p / 256) mod 256 in
    let b7 := p mod 256 in
    rmap int16 (chunks2 line)
    = Ok [axis_id; 245; speed / 256; speed mod 256; 2; b5; b6; b7;
          (axis_id + 245 + speed / 256 + speed mod 256 + 2 + b5 + b6 + b7)
            mod 256].
Proof. exact (encode_axis_chunks speed axis_id position lp line lp'). Qed.

Lemma frame_bytes_layout_witness :
  exists rel,
    displacement 1 target_10_0 = Ok rel /\
    let p := rel mod 2 ^ 24 in
    let b5 := p / 65536 in
    let b6 := (p / 256) mod 256 in
    let b7 := p mod 256 in
    rmap int16 (chunks2 "01F503E8020034BCD3")
    = Ok [1; 245; 1000 / 256; 1000 mod 256; 2; b5; b6; b7;
          (1 + 245 + 1000 / 256 + 1000 mod 256 + 2 + b5 + b6 + b7) mod 256].
Proof.
  apply (frame_bytes_layout 1000 1 target_10_0 Convert.last_positions0
           "01F503E8020034BCD3"
           (PySeq.update Convert.last_positions0 0
              (Py.Float (S754_finite false 4749890231992320 (-45))))).
  - lia.
  - lia.
  - vm_compute. reflexivity.
Defined.

End FrameBytes.

Section IntegerTargets.

Import Text.

Local Open Scope string_scope.

(** The gear ratios of the axes 2, 3 and 4 are integers. *)
Lemma displacement_integer (axis_id t : Z) :
  2 <= axis_id <= 4 ->
  displacement axis_id (Py.Int t)
    = Ok (t * (if (axis_id =? 4)%Z then 48 else 150) * 100).
Proof.
  intros H. unfold displacement, scaled_displacement.
  rewrite get_initial_position by lia.
  assert (axis_id = 2 \/ axis_id = 3 \/ axis_id = 4) as [-> | [-> | ->]] by lia.
  - change (PySeq.get Convert.gear_ratios (2 - 1)) with (Ok (Py.Int 150)).
    cbn [rbind Py.mul Py.sub Py.to_int]. change (2 =? 4)%Z with false.
    cbv iota. f_equal. lia.
  - change (PySeq.get Convert.gear_ratios (3 - 1)) with (Ok (Py.Int 150)).
    cbn [rbind Py.mul Py.sub Py.to_int]. change (3 =? 4)%Z with false.
    cbv iota. f_equal. lia.
  - change (PySeq.get Convert.gear_ratios (4 - 1)) with (Ok (Py.Int 48)).
    cbn [rbind Py.mul Py.sub Py.to_int]. change (4 =? 4)%Z with true.
    cbv iota. f_equal. lia.
Qed.

(** Lines depend on the displacement through its residue only. *)
Lemma encode_axis_same_residue speed axis_id p1 p2 lp rel1 rel2 :
  1 <= axis_id <= 6 -> 0 <= speed -> length lp = 6%nat ->
  displacement axis_id p1 = Ok rel1 -> displacement axis_id p2 = Ok rel2 ->
  rel1 mod 2 ^ 24 = rel2 mod 2 ^ 24 ->
  exists line lp1 lp2,
    Convert.encode_axis speed axis_id p1 lp = Ok (line, lp1) /\
    Convert.encode_axis speed axis_id p2 lp = Ok (line, lp2).
Proof.
  intros Ha Hs L D1 D2 E.
  assert (A1 := encode_axis_displacement speed axis_id p1 lp Ha Hs L).
  assert (A2 := encode_axis_displacement speed axis_id p2 lp Ha Hs L).
  rewrite D1 in A1. rewrite D2 in A2. cbv zeta in A1, A2.
  rewrite rel_position_hex_fixed in A1, A2. rewrite <- E in A2.
  destruct A1 as (b1 & lp1 & Hb1 & E1 & _).
  destruct A2 as (b2 & lp2 & Hb2 & E2 & _).
  rewrite Hb1 in Hb2. injection Hb2 as <-.
  eexists _, lp1, lp2. split; [exact E1 | exact E2].
Qed.

(** X3. An integer target on the axes 2, 3 and 4, whose gear ratios are
    integers, is encoded without any floating-point step: the line is
    always written, whatever the size of the target, and its displacement
    is exactly [target * gear * 100]; no range is checked, so that targets
    which differ by a multiple of 2^24 give the same line. *)
Theorem integer_targets_are_exact (speed axis_id t k : Z) (lp : list Py.num) :
  2 <= axis_id <= 4 -> 0 <= speed -> length lp = 6%nat ->
  displacement axis_id (Py.Int t)
    = Ok (t * (if (axis_id =? 4)%Z then 48 else 150) * 100) /\
  exists line lp1 lp2,
    Convert.encode_axis speed axis_id (Py.Int t) lp = Ok (line, lp1) /\
    Convert.encode_axis speed axis_id (Py.Int (t + k * 2 ^ 24)) lp
      = Ok (line, lp2).
Proof.
  intros Ha Hs L. split; [exact (displacement_integer axis_id t Ha) |].
  apply (encode_axis_same_residue speed axis_id _ _ lp _ _ ltac:(lia) Hs L
           (displacement_integer axis_id t Ha)
           (displacement_integer axis_id (t + k * 2 ^ 24) Ha)).
  set (g := if (axis_id =? 4)%Z then 48 else 150).
  replace ((t + k * 2 ^ 24) * g * 100)
    with (t * g * 100 + (k * g * 100) * 2 ^ 24) by lia.
  now rewrite Z.mod_add by lia.
Qed.

Lemma integer_targets_are_exact_witness :
  displacement 2 (Py.Int 7) = Ok (7 * (if (2 =? 4)%Z then 48 else 150) * 100) /\
  exists line lp1 lp2,
    Convert.encode_axis 1000 2 (Py.Int 7) Convert.last_positions0
      = Ok (line, lp1) /\
    Convert.encode_axis 1000 2 (Py.Int (7 + 3 * 2 ^ 24)) Convert.last_positions0
      = Ok (line, lp2).
Proof.
  apply (integer_targets_are_exact 1000 2 7 3 Convert.last_positions0);
    [lia | lia | reflexivity].
Defined.

End IntegerTargets.

Section AxisBounds.

Import Text.

Local Open Scope string_scope.

Lemma nth_error_update_eq {A : Type} (l : list A) (k : nat) (a : A) :
  (k < length l)%nat -> nth_error (PySeq.update l k a) k = Some a.
Proof.
  revert k. induction l as [| x l IH]; intros k H; cbn [length] in H; [lia |].
  destruct k as [| k]; [reflexivity |]. cbn [PySeq.update nth_error].
  apply IH. lia.
Qed.

Lemma nth_error_update_ne {A : Type} (l : list A) (k j : nat) (a : A) :
  j <> k -> nth_error (PySeq.update l k a) j = nth_error l j.
Proof.
  revert k j. induction l as [| x l IH]; intros k j H.
  - destruct k; reflexivity.
  - destruct k as [| k], j as [| j]; cbn [PySeq.update nth_error];
      try reflexivity; try contradiction.
    apply IH. congruence.
Qed.

Lemma set_wraps {A : Type} (l : list A) (i : Z) (a : A) :
  length l = 6%nat -> - 6 <= i <= 5 ->
  PySeq.set l i a = Ok (PySeq.update l (Z.to_nat (i mod 6)) a).
Proof.
  intros L H. unfold PySeq.set. rewrite L.
  destruct (Z.ltb_spec i 0).
  - replace (i mod 6) with (i + Z.of_nat 6)
      by (apply (Z.mod_unique i 6 (-1)); lia).
    destruct (Z.leb_spec 0 (i + Z.of_nat 6)); [| lia].
    destruct (Z.ltb_spec (i + Z.of_nat 6) (Z.of_nat 6)); [reflexivity | lia].
  - rewrite Z.mod_small by lia.
    destruct (Z.leb_spec 0 i); [| lia].
    destruct (Z.ltb_spec i (Z.of_nat 6)); [reflexivity | lia].
Qed.

Lemma get_out_of_range {A : Type} (l : list A) (i : Z) :
  length l = 6%nat -> i < - 6 \/ 5 < i -> PySeq.get l i = Raise IndexError.
Proof.
  intros L H. unfold PySeq.get. rewrite L.
  destruct (Z.ltb_spec i 0).
  - destruct (Z.leb_spec 0 (i + Z.of_nat 6)); [lia | reflexivity].
  - destruct (Z.leb_spec 0 i); [| reflexivity].
    destruct (Z.ltb_spec i (Z.of_nat 6)); [lia | reflexivity].
Qed.

(** X4. An axis number outside -5..6 is refused with [IndexError], after
    the product of the target and the gear ratio has been computed (whose
    own exception comes first); no message is returned for it. *)
Theorem convert_axis_out_of_range axis_id speed position gear_ratio inv lp :
  axis_id < - 5 \/ 6 < axis_id ->
  Convert.convert_to_can_message axis_id speed position gear_ratio inv lp =
  match Py.mul position gear_ratio with
  | Ok _ => Raise IndexError
  | Raise e => Raise e
  end.
Proof.
  intros H. unfold Convert.convert_to_can_message.
  destruct (Py.mul position gear_ratio); cbn [rbind]; [| reflexivity].
  rewrite get_out_of_range by (reflexivity || lia). reflexivity.
Qed.

Lemma convert_axis_out_of_range_witness :
  Convert.convert_to_can_message 7 1000 target_10_0 gear_13_5 false
    Convert.last_positions0 =
  match Py.mul target_10_0 gear_13_5 with
  | Ok _ => Raise IndexError
  | Raise e => Raise e
  end.
Proof.
  apply (convert_axis_out_of_range 7 1000 target_10_0 gear_13_5 false
           Convert.last_positions0). lia.
Defined.

(** X5. A call that returns has replaced one entry of [last_positions],
    that of its axis, by the product of the target and the gear ratio,
    and has kept the five others; an axis number from -5 to 0 counts from
    the end of the list, as a negative index does. *)
Theorem convert_updates_one_position
    axis_id speed position gear_ratio inv lp msg lp' :
  - 5 <= axis_id <= 6 -> length lp = 6%nat ->
  Convert.convert_to_can_message axis_id speed position gear_ratio inv lp
    = Ok (msg, lp') ->
  let k := Z.to_nat ((axis_id - 1) mod 6) in
  length lp' = 6%nat /\
  (exists v, Py.mul position gear_ratio = Ok v /\ nth_error lp' k = Some v) /\
  forall j, j <> k -> nth_error lp' j = nth_error lp j.
Proof.
  intros Ha L. unfold Convert.convert_to_can_message.
  destruct (Py.mul position gear_ratio) as [scaled |]; cbn [rbind]; [| discriminate].
  destruct (PySeq.get Convert.initial_positions (axis_id - 1)) as [origin |];
    cbn [rbind]; [| discriminate].
  destruct (Py.sub scaled origin) as [rel |]; cbn [rbind]; [| discriminate].
  destruct (Py.mul rel (Py.Int 100)) as [x |]; cbn [rbind]; [| discriminate].
  destruct (Py.to_int x) as [d |]; cbn [rbind]; [| discriminate].
  rewrite set_wraps by (assumption || lia). cbn [rbind].
  intros [= <- <-]. cbv zeta.
  assert (0 <= (axis_id - 1) mod 6 < 6) as B by (apply Z.mod_pos_bound; lia).
  split; [now rewrite length_update |]. split.
  - exists scaled. split; [reflexivity |].
    apply nth_error_update_eq. rewrite L. lia.
  - intros j Hj. now apply nth_error_update_ne.
Qed.

Lemma convert_updates_one_position_witness :
  let lp' := PySeq.update Convert.last_positions0 0
               (Py.Float (S754_finite false 4749890231992320 (-45))) in
  let k := Z.to_nat ((1 - 1) mod 6) in
  length lp' = 6%nat /\
  (exists v, Py.mul target_10_0 gear_13_5 = Ok v /\ nth_error lp' k = Some v) /\
  forall j, j <> k -> nth_error lp' j = nth_error Convert.last_positions0 j.
Proof.
  apply (convert_updates_one_position 1 1000 target_10_0 gear_13_5 false
           Convert.last_positions0 "01F503E8020034BC").
  - lia.
  - reflexivity.
  - vm_compute. reflexivity.
Defined.

End AxisBounds.

Section Checksum.

Lemma sum_app (a b : list Z) :
  Convert.sum (a ++ b) = Convert.sum a + Convert.sum b.
Proof.
  unfold Convert.sum. induction a as [| x a IH]; cbn [app fold_right]; lia.
Qed.

Lemma sum_permutation (a a' : list Z) :
  Permutation a a' -> Convert.sum a = Convert.sum a'.
Proof.
  unfold Convert.sum.
  induction 1 as [| x l l' _ IH | x y l | l l' l'' _ IH1 _ IH2];
    cbn [fold_right]; lia.
Qed.

(** X6. The checksum is a byte, and the checksum of two lists put end to
    end is the sum of their checksums modulo 256: it can be computed
    piece by piece. *)
Theorem calculate_crc_additive (a b : list Z) :
  0 <= Convert.calculate_crc a < 256 /\
  Convert.calculate_crc (a ++ b)
    = (Convert.calculate_crc a + Convert.calculate_crc b) mod 256.
Proof.
  split.
  - rewrite calculate_crc_mod. apply Z.mod_pos_bound. lia.
  - rewrite !calculate_crc_mod, sum_app. apply Zplus_mod.
Qed.

(** X7. The checksum does not see the order of the bytes: any
    rearrangement of the data has the same checksum. *)
Theorem calculate_crc_ignores_order (a a' : list Z) :
  Permutation a a' -> Convert.calculate_crc a' = Convert.calculate_crc a.
Proof.
  intros H. unfold Convert.calculate_crc. now rewrite (sum_permutation a a' H).
Qed.

Lemma calculate_crc_ignores_order_witness :
  Convert.calculate_crc [1; 245; 232; 3] = Convert.calculate_crc [1; 245; 3; 232].
Proof.
  apply (calculate_crc_ignores_order [1; 245; 3; 232] [1; 245; 232; 3]).
  apply perm_skip, perm_skip, perm_swap.
Defined.

End Checksum.

Section FileLoop.

Import Text Regex.

Local Open Scope string_scope.

Lemma encode_axes_ok_length speed axis_id positions lp lp' :
  Convert.outcome (Convert.encode_axes speed axis_id positions lp) = Ok lp' ->
  length (Convert.written (Convert.encode_axes speed axis_id positions lp))
    = length positions.
Proof.
  revert axis_id lp. induction positions as [| position rest IH];
    intros axis_id lp; cbn [Convert.encode_axes]; [reflexivity |].
  destruct (Convert.encode_axis speed axis_id position lp) as [[line l1] |];
    cbn [Convert.written Convert.outcome]; [| discriminate].
  intros H. cbn [length]. f_equal. exact (IH _ _ H).
Qed.

(** What holds of every line of the loop body holds of the lines of a
    command; the list that is threaded keeps its six entries. *)
Lemma encode_axes_lines (P : string -> Prop) speed positions axis_id lp :
  length lp = 6%nat -> 1 <= axis_id ->
  axis_id + Z.of_nat (length positions) <= 7 ->
  (forall a position l line l',
     1 <= a <= 6 -> length l = 6%nat ->
     Convert.encode_axis speed a position l = Ok (line, l') -> P line) ->
  Forall P (Convert.written (Convert.encode_axes speed axis_id positions lp)) /\
  match Convert.outcome (Convert.encode_axes speed axis_id positions lp) with
  | Ok lp' => length lp' = 6%nat
  | Raise _ => True
  end.
Proof.
  intros L H1 H2 HP. revert axis_id lp L H1 H2.
  induction positions as [| position rest IH]; intros axis_id lp L H1 H2;
    cbn [Convert.encode_axes].
  - split; [constructor | exact L].
  - cbn [length] in H2.
    assert (S := encode_axis_same_line speed axis_id position lp lp L L
                   ltac:(lia)).
    destruct (Convert.encode_axis speed axis_id position lp) as [[line l1] |]
      eqn:E; cbn [same_line] in S.
    + destruct S as [_ L1].
      destruct (IH (axis_id + 1) l1 L1 ltac:(lia) ltac:(lia)) as [F O].
      cbn [Convert.written Convert.outcome]. split; [| exact O].
      constructor; [| exact F].
      exact (HP axis_id position lp line l1 ltac:(lia) L E).
    + cbn [Convert.written Convert.outcome]. split; [constructor | exact I].
Qed.

(** The loop body ends alike from two lists of six entries. *)
Lemma encode_axes_same speed positions axis_id lp1 lp2 :
  length lp1 = 6%nat -> length lp2 = 6%nat -> 1 <= axis_id ->
  axis_id + Z.of_nat (length positions) <= 7 ->
  Convert.written (Convert.encode_axes speed axis_id positions lp1)
    = Convert.written (Convert.encode_axes speed axis_id positions lp2) /\
  match Convert.outcome (Convert.encode_axes speed axis_id positions lp1),
        Convert.outcome (Convert.encode_axes speed axis_id positions lp2) with
  | Ok l1, Ok l2 => length l1 = 6%nat /\ length l2 = 6%nat
  | Raise e1, Raise e2 => e1 = e2
  | _, _ => False
  end.
Proof.
  revert axis_id lp1 lp2.
  induction positions as [| position rest IH];
    intros axis_id lp1 lp2 L1 L2 H1 H2; cbn [Convert.encode_axes].
  - cbn [Convert.written Convert.outcome]. repeat split; assumption.
  - cbn [length] in H2.
    assert (S := encode_axis_same_line speed axis_id position lp1 lp2 L1 L2
                   ltac:(lia)).
    assert (S' := encode_axis_same_line speed axis_id position lp2 lp1 L2 L1
                    ltac:(lia)).
    destruct (Convert.encode_axis speed axis_id position lp1) as [[m1 l1] |];
    destruct (Convert.encode_axis speed axis_id position lp2) as [[m2 l2] |];
      cbn [same_line] in S, S'; try contradiction.
    + destruct S as [<- La]. destruct S' as [_ Lb].
      destruct (IH (axis_id + 1) l1 l2 La Lb ltac:(lia) ltac:(lia)) as [W O].
      cbn [Convert.written Convert.outcome]. rewrite W. split; [reflexivity | exact O].
    + cbn [Convert.written Convert.outcome]. split; [reflexivity | exact S].
Qed.

End FileLoop.

Section FileProperties.

Import Text Regex.

Local Open Scope string_scope.

Lemma process_line_invariants (st : Convert.state) (line : string) :
  well_formed st ->
  Forall (fun l => (18 <= String.length l)%nat)
    (Convert.written (Convert.process_line st line)) /\
  match Convert.outcome (Convert.process_line st line) with
  | Ok st' =>
      well_formed st' /\
      (length (Convert.written (Convert.process_line st line)) = 0%nat \/
       length (Convert.written (Convert.process_line st line)) = 6%nat)
  | Raise _ => True
  end.
Proof.
  intros [Hs L]. rewrite process_line_cases.
  assert (F := feed_after_cases st line).
  destruct (long_feed_token line).
  { rewrite F. cbn [Convert.written Convert.outcome].
    split; [constructor |]. split; [split; assumption | now left]. }
  destruct F as (feed & -> & Hf). specialize (Hf Hs).
  assert (Forall (fun l => (18 <= String.length l)%nat) [] /\
          (well_formed (Convert.mkState feed (Convert.last_positions st)) /\
           (@length string [] = 0%nat \/ @length string [] = 6%nat))) as Idle.
  { split; [constructor |]. split; [split; assumption | now left]. }
  destruct (String.prefix "G90" line); [| exact Idle].
  destruct (rmap Convert.parse_value (findall_numbers line)) as [values |].
  2:{ cbn [Convert.written Convert.outcome]. split; [constructor | exact I]. }
  destruct (Nat.leb_spec 7 (length values)) as [C | C]; [| exact Idle].
  assert (L6 := length_slice_1_7 values C).
  destruct (encode_axes_lines (fun l => (18 <= String.length l)%nat)
              feed (PySeq.slice values 1 7) 1
              (Convert.last_positions st) L ltac:(lia) ltac:(lia))
    as [W O].
  { intros a position l ln l' Ha _ E.
    rewrite (encode_axis_length _ _ _ _ _ _ Ha Hf E). lia. }
  cbv zeta. cbn [Convert.written Convert.outcome]. split; [exact W |].
  destruct (Convert.outcome
              (Convert.encode_axes feed 1
                 (PySeq.slice values 1 7) (Convert.last_positions st)))
    as [lp' |] eqn:E; cbn [rbind]; [| exact I].
  split; [split; assumption |]. right.
  now rewrite (encode_axes_ok_length _ _ _ _ _ E).
Qed.

(** X8. Through a whole file, starting with the feed rate 0: the feed
    rate is never negative and [last_positions] keeps its six entries;
    every line written has at least 18 characters; and a conversion that
    ends without an exception has written a multiple of six lines, the
    frames of whole commands. *)
Theorem process_lines_invariants (st : Convert.state) (lines : list string) :
  well_formed st ->
  Forall (fun l => (18 <= String.length l)%nat)
    (Convert.written (Convert.process_lines st lines)) /\
  match Convert.outcome (Convert.process_lines st lines) with
  | Ok st' =>
      well_formed st' /\
      Nat.modulo (length (Convert.written (Convert.process_lines st lines))) 6
        = 0%nat
  | Raise _ => True
  end.
Proof.
  revert st. induction lines as [| line rest IH]; intros st W;
    cbn [Convert.process_lines].
  - cbn [Convert.written Convert.outcome]. split; [constructor |].
    split; [exact W | reflexivity].
  - destruct (process_line_invariants st line W) as [F O].
    destruct (Convert.outcome (Convert.process_line st line)) as [st' |].
    + destruct O as [W' Hlen]. destruct (IH st' W') as [F' O'].
      cbn [Convert.written Convert.outcome].
      split; [apply Forall_app; split; assumption |].
      destruct (Convert.outcome (Convert.process_lines st' rest)) as [st'' |];
        [| exact I].
      destruct O' as [W'' M]. split; [exact W'' |].
      rewrite length_app.
      destruct Hlen as [-> | ->]; [exact M |].
      replace (6 + length (Convert.written (Convert.process_lines st' rest)))%nat
        with (length (Convert.written (Convert.process_lines st' rest)) + 1 * 6)%nat
        by lia.
      rewrite Nat.Div0.mod_add. exact M.
    + cbn [Convert.written Convert.outcome]. split; [exact F | exact I].
Qed.

Lemma well_formed_initial_state : well_formed Convert.initial_state.
Proof. split; [cbn; lia | reflexivity]. Defined.

Lemma process_lines_invariants_witness :
  let lines := ["F1500"; "G90 X10.0 Y0 Z-1.5 A+.25 B3 C-0.001"; "M30"] in
  Forall (fun l => (18 <= String.length l)%nat)
    (Convert.written (Convert.process_lines Convert.initial_state lines)) /\
  match Convert.outcome (Convert.process_lines Convert.initial_state lines) with
  | Ok st' =>
      well_formed st' /\
      Nat.modulo
        (length (Convert.written
                   (Convert.process_lines Convert.initial_state lines))) 6
        = 0%nat
  | Raise _ => True
  end.
Proof.
  apply (process_lines_invariants Convert.initial_state
           ["F1500"; "G90 X10.0 Y0 Z-1.5 A+.25 B3 C-0.001"; "M30"]).
  exact well_formed_initial_state.
Defined.

(** X9. A file can be converted in two parts: the lines of the second
    part are converted from the state that the first part ends in, and
    an exception in the first part ends the conversion there. *)
Theorem process_lines_app (st : Convert.state) (l1 l2 : list string) :
  Convert.process_lines st (l1 ++ l2)%list =
  let r1 := Convert.process_lines st l1 in
  match Convert.outcome r1 with
  | Raise e => Convert.mkRun (Convert.written r1) (Raise e)
  | Ok st' =>
      let r2 := Convert.process_lines st' l2 in
      Convert.mkRun (Convert.written r1 ++ Convert.written r2)%list
        (Convert.outcome r2)
  end.
Proof.
  revert st. induction l1 as [| line rest IH]; intros st.
  - cbn [app Convert.process_lines Convert.written Convert.outcome].
    cbv zeta. cbn [app]. now destruct (Convert.process_lines st l2).
  - cbn [app Convert.process_lines]. cbv zeta.
    destruct (Convert.outcome (Convert.process_line st line)) as [st' |];
      [| reflexivity].
    rewrite IH. cbv zeta. cbn [Convert.written Convert.outcome].
    destruct (Convert.outcome (Convert.process_lines st' rest)) as [st'' |];
      cbn [Convert.written Convert.outcome]; [| reflexivity].
    now rewrite app_assoc.
Qed.

Lemma process_line_same (s : Z) (lp1 lp2 : list Py.num) (line : string) :
  length lp1 = 6%nat -> length lp2 = 6%nat ->
  Convert.written (Convert.process_line (Convert.mkState s lp1) line)
    = Convert.written (Convert.process_line (Convert.mkState s lp2) line) /\
  same_end (Convert.outcome (Convert.process_line (Convert.mkState s lp1) line))
           (Convert.outcome (Convert.process_line (Convert.mkState s lp2) line)).
Proof.
  intros L1 L2. rewrite !process_line_cases.
  change (feed_after (Convert.mkState s lp2) line)
    with (feed_after (Convert.mkState s lp1) line).
  cbn [Convert.last_positions].
  destruct (feed_after (Convert.mkState s lp1) line) as [feed |].
  2:{ cbn [Convert.written Convert.outcome same_end Convert.speed
             Convert.last_positions]. repeat split; assumption. }
  assert (forall a b : list Py.num, length a = 6%nat -> length b = 6%nat ->
          @nil string = [] /\
          same_end (Ok (Convert.mkState feed a)) (Ok (Convert.mkState feed b)))
    as Idle.
  { intros a b La Lb. cbn [same_end Convert.speed Convert.last_positions].
    repeat split; assumption. }
  destruct (String.prefix "G90" line); [| exact (Idle lp1 lp2 L1 L2)].
  destruct (rmap Convert.parse_value (findall_numbers line)) as [values |].
  2:{ cbn [Convert.written Convert.outcome same_end]. now split. }
  destruct (Nat.leb_spec 7 (length values)) as [C | C];
    [| exact (Idle lp1 lp2 L1 L2)].
  assert (L6 := length_slice_1_7 values C).
  destruct (encode_axes_same feed (PySeq.slice values 1 7) 1 lp1 lp2 L1 L2
              ltac:(lia) ltac:(lia)) as [W O].
  cbv zeta. cbn [Convert.written Convert.outcome]. split; [exact W |].
  destruct (Convert.outcome (Convert.encode_axes _ 1 _ lp1)) as [a |];
  destruct (Convert.outcome (Convert.encode_axes _ 1 _ lp2)) as [b |];
    cbn [rbind same_end Convert.speed Convert.last_positions];
    try contradiction; [| exact O].
  destruct O as [La Lb]. repeat split; assumption.
Qed.

(** X10. [last_positions] is written but never read: two conversions of
    the same lines that start with the same feed rate and with different
    contents of [last_positions] write the same lines and end alike. *)
Theorem last_positions_do_not_matter
    (s : Z) (lp1 lp2 : list Py.num) (lines : list string) :
  length lp1 = 6%nat -> length lp2 = 6%nat ->
  Convert.written (Convert.process_lines (Convert.mkState s lp1) lines)
    = Convert.written (Convert.process_lines (Convert.mkState s lp2) lines) /\
  same_end
    (Convert.outcome (Convert.process_lines (Convert.mkState s lp1) lines))
    (Convert.outcome (Convert.process_lines (Convert.mkState s lp2) lines)).
Proof.
  revert s lp1 lp2. induction lines as [| line rest IH]; intros s lp1 lp2 L1 L2;
    cbn [Convert.process_lines].
  - cbn [Convert.written Convert.outcome same_end Convert.speed
           Convert.last_positions]. repeat split; assumption.
  - destruct (process_line_same s lp1 lp2 line L1 L2) as [W O].
    destruct (Convert.outcome (Convert.process_line (Convert.mkState s lp1) line))
      as [[s1 l1] |];
    destruct (Convert.outcome (Convert.process_line (Convert.mkState s lp2) line))
      as [[s2 l2] |]; cbn [same_end Convert.speed Convert.last_positions] in O;
      try contradiction.
    + destruct O as (<- & La & Lb).
      destruct (IH s1 l1 l2 La Lb) as [W' O'].
      cbn [Convert.written Convert.outcome]. rewrite W, W'.
      split; [reflexivity | exact O'].
    + cbn [Convert.written Convert.outcome same_end].
      split; [exact W | exact O].
Qed.

Lemma last_positions_do_not_matter_witness :
  let lines := ["F1500"; "G90 X10.0 Y0 Z-1.5 A+.25 B3 C-0.001"] in
  let other := repeat (Py.Int 7) 6 in
  Convert.written
    (Convert.process_lines (Convert.mkState 0 Convert.last_positions0) lines)
    = Convert.written (Convert.process_lines (Convert.mkState 0 other) lines) /\
  same_end
    (Convert.outcome
       (Convert.process_lines (Convert.mkState 0 Convert.last_positions0) lines))
    (Convert.outcome (Convert.process_lines (Convert.mkState 0 other) lines)).
Proof.
  apply (last_positions_do_not_matter 0 Convert.last_positions0
           (repeat (Py.Int 7) 6)
           ["F1500"; "G90 X10.0 Y0 Z-1.5 A+.25 B3 C-0.001"]);
    reflexivity.
Defined.

End FileProperties.

(** * Further properties of send.py *)

(** ** Reading a line *)

Section LineFacts.

Import Send Text.

Local Open Scope string_scope.

Lemma hex_value_plain (c : ascii) (d : Z) :
  hex_value c = Some d ->
  is_space c = false /\ (c =? " ")%char = false /\ 0 <= d < 16.
Proof.
  intros H. destruct c as [[] [] [] [] [] [] [] []]; cbv in H;
    try discriminate H; injection H as <-;
    (split; [reflexivity | split; [reflexivity | lia]]).
Qed.

Lemma lstrip_hex (s : string) : all_hex s = true -> lstrip s = s.
Proof.
  destruct s as [| c s]; [reflexivity |]. cbn [all_hex lstrip].
  destruct (hex_value c) as [d |] eqn:E; [| discriminate].
  intros _. now destruct (hex_value_plain c d E) as (-> & _).
Qed.

Lemma rstrip_hex (s : string) : all_hex s = true -> rstrip s = s.
Proof.
  induction s as [| c s IH]; [reflexivity |]. cbn [all_hex rstrip].
  destruct (hex_value c) as [d |] eqn:E; [| discriminate].
  intros H. rewrite (IH H). destruct (hex_value_plain c d E) as (-> & _).
  now destruct s.
Qed.

Lemma rstrip_space (s : string) : all_space s = true -> rstrip s = EmptyString.
Proof.
  induction s as [| c s IH]; [reflexivity |]. cbn [all_space rstrip].
  intros H. apply andb_prop in H. destruct H as [Hc Hs].
  now rewrite (IH Hs), Hc.
Qed.

Lemma lstrip_space (s : string) : all_space s = true -> lstrip s = EmptyString.
Proof.
  induction s as [| c s IH]; [reflexivity |]. cbn [all_space lstrip].
  intros H. apply andb_prop in H. destruct H as [Hc Hs].
  rewrite Hc. exact (IH Hs).
Qed.

Lemma rstrip_app_space (s t : string) :
  all_space t = true -> rstrip (s ++ t) = rstrip s.
Proof.
  intros H. induction s as [| c s IH].
  - rewrite append_nil_l. now apply rstrip_space.
  - rewrite append_cons. cbn [rstrip]. now rewrite IH.
Qed.

Lemma lstrip_space_app (s t : string) :
  all_space s = true -> lstrip (s ++ t) = lstrip t.
Proof.
  induction s as [| c s IH]; intros H.
  - now rewrite append_nil_l.
  - rewrite append_cons. cbn [all_space] in H. apply andb_prop in H.
    destruct H as [Hc Hs]. cbn [lstrip]. rewrite Hc. exact (IH Hs).
Qed.

(** [strip] removes the white space around a text of digits, and nothing
    else. *)
Lemma strip_frame (pre line post : string) :
  all_space pre = true -> all_hex line = true -> all_space post = true ->
  strip (pre ++ line ++ post) = line.
Proof.
  intros Hpre Hl Hpost. unfold strip. rewrite lstrip_space_app by exact Hpre.
  destruct line as [| c line].
  - rewrite append_nil_l, (lstrip_space post Hpost). reflexivity.
  - assert (Hc := Hl). cbn [all_hex] in Hc.
    destruct (hex_value c) as [d |] eqn:E; [| discriminate].
    rewrite append_cons. cbn [lstrip].
    destruct (hex_value_plain c d E) as (-> & _).
    rewrite <- append_cons, rstrip_app_space by exact Hpost.
    exact (rstrip_hex _ Hl).
Qed.

Lemma strip_blank (s : string) : all_space s = true -> strip s = EmptyString.
Proof.
  intros H. unfold strip. now rewrite (lstrip_space s H).
Qed.

Lemma split_hex (s : string) : all_hex s = true -> split " "%char s = [s].
Proof.
  induction s as [| c s IH]; [reflexivity |]. cbn [all_hex split].
  destruct (hex_value c) as [d |] eqn:E; [| discriminate].
  intros H. destruct (hex_value_plain c d E) as (_ & -> & _).
  now rewrite (IH H).
Qed.

Lemma split_cons (sep : ascii) (s : string) :
  exists h t, split sep s = h :: t.
Proof.
  induction s as [| c s (h & t & IH)]; cbn [split].
  - now exists EmptyString, [].
  - destruct (c =? sep)%char; [now eexists _, _ |].
    rewrite IH. now eexists _, _.
Qed.

Lemma int16_ok_hex (s : string) (n : Z) : int16 s = Ok n -> all_hex s = true.
Proof.
  unfold int16. intros H.
  assert (exists m, int16_acc s 0 = Some m) as (m & A).
  { destruct s; [discriminate |]. destruct (int16_acc _ 0) as [m |];
      [now exists m | discriminate]. }
  clear H. revert A. generalize 0. induction s as [| c s IH]; intros acc;
    [reflexivity |]. cbn [int16_acc all_hex].
  destruct (hex_value c); [apply IH | discriminate].
Qed.

(** A chunk of one or two digits is read as a byte. *)
Lemma int16_short (s : string) (n : Z) :
  (String.length s <= 2)%nat -> int16 s = Ok n -> 0 <= n < 256.
Proof.
  destruct s as [| a [| b [| c s]]]; cbn [String.length]; intros L;
    try lia; unfold int16; cbn [int16_acc]; [discriminate | |].
  - destruct (hex_value a) as [x |] eqn:A; [| discriminate].
    intros [= <-]. destruct (hex_value_plain a x A) as (_ & _ & ?). lia.
  - destruct (hex_value a) as [x |] eqn:A; [| discriminate].
    destruct (hex_value b) as [y |] eqn:B; [| discriminate].
    intros [= <-]. destruct (hex_value_plain a x A) as (_ & _ & ?).
    destruct (hex_value_plain b y B) as (_ & _ & ?). lia.
Qed.

Lemma chunks2_ok (s : string) (bytes : list Z) :
  rmap int16 (chunks2 s) = Ok bytes ->
  all_hex s = true /\ Forall (fun b => 0 <= b < 256) bytes.
Proof.
  remember (String.length s) as k eqn:Hk. revert s Hk bytes.
  induction k as [k IH] using lt_wf_ind. intros s Hk bytes.
  destruct s as [| a [| b s]]; cbn [chunks2 rmap].
  - intros [= <-]. split; [reflexivity | constructor].
  - destruct (int16 (String a EmptyString)) as [n |] eqn:E; cbn [rbind];
      [| discriminate].
    intros [= <-]. split; [exact (int16_ok_hex _ _ E) |].
    constructor; [| constructor].
    apply (int16_short (String a EmptyString)); [cbn; lia | exact E].
  - destruct (int16 (String a (String b EmptyString))) as [n |] eqn:E;
      cbn [rbind]; [| discriminate].
    destruct (rmap int16 (chunks2 s)) as [bs |] eqn:R; cbn [rbind];
      [| discriminate].
    intros [= <-]. cbn [String.length] in Hk.
    destruct (IH (String.length s) ltac:(lia) s eq_refl bs R) as [Hs Hb].
    split.
    + assert (H2 := int16_ok_hex _ _ E). cbn [all_hex] in H2 |- *.
      destruct (hex_value a); [| discriminate].
      destruct (hex_value b); [exact Hs | discriminate].
    + constructor; [| exact Hb].
      apply (int16_short (String a (String b EmptyString))); [cbn; lia | exact E].
Qed.

Lemma to_byte_ok (z : Z) :
  0 <= z < 256 -> exists b, to_byte z = Ok b /\ byte_val b = z.
Proof.
  intros H. unfold to_byte.
  destruct (Z.leb_spec 0 z); [| lia]. destruct (Z.ltb_spec z 256); [| lia].
  cbn [andb]. destruct (Byte.of_N (Z.to_N z)) as [b |] eqn:E.
  - exists b. split; [reflexivity |]. unfold byte_val.
    rewrite (Byte.to_of_N _ E). lia.
  - apply Byte.of_N_None_iff in E. lia.
Qed.

Lemma to_bytes_ok (bytes : list Z) :
  Forall (fun b => 0 <= b < 256) bytes ->
  exists data, rmap to_byte bytes = Ok data /\ map byte_val data = bytes.
Proof.
  induction 1 as [| z bytes Hz _ (data & IH & M)].
  - now exists [].
  - destruct (to_byte_ok z Hz) as (b & E & V). exists (b :: data).
    cbn [rmap map]. rewrite E, IH. cbn [rbind]. now rewrite V, M.
Qed.

(** A line without a separator: the first chunk of two digits is the
    arbitration id, the other chunks are the payload. *)
Lemma parse_can_message_hex (line : string) (id : Z) (bytes : list Z) :
  rmap int16 (chunks2 line) = Ok (id :: bytes) ->
  exists data,
    parse_can_message line = Ok (mkMessage id data false) /\
    map byte_val data = bytes.
Proof.
  intros H. destruct (chunks2_ok line _ H) as [Hh Hb].
  apply Forall_inv_tail in Hb. destruct (to_bytes_ok bytes Hb) as (data & D & M).
  exists data. split; [| exact M].
  unfold parse_can_message. rewrite (split_hex line Hh).
  change (PySeq.get [line] 0) with (Ok line). cbn [rbind].
  change (PySeq.slice [line] 1 (length [line])) with (@nil string).
  cbn [rmap]. destruct line as [| a [| b s]]; [discriminate H | |].
  - cbn [chunks2 rmap] in H. cbn [substring drop chunks2 rmap].
    destruct (int16 (String a EmptyString)) as [n |]; cbn [rbind] in H |- *;
      [| discriminate H].
    injection H as -> <-. cbn [rmap] in D. injection D as <-. reflexivity.
  - cbn [chunks2 rmap] in H. cbn [substring drop].
    replace (substring 0 0 s) with EmptyString by (now destruct s).
    destruct (int16 (String a (String b EmptyString))) as [n |];
      cbn [rbind] in H |- *; [| discriminate H].
    destruct (rmap int16 (chunks2 s)) as [bs |]; cbn [rbind] in H |- *;
      [| discriminate H].
    injection H as -> ->. rewrite app_nil_r, D. reflexivity.
Qed.

(** X11. What the sender reads from a line is what the converter's
    checksum loop read from it: when the chunks of two digits of a line
    are the numbers [id :: bytes], the frame parsed from the line, with
    any white space around it, has the arbitration id [id] and the
    payload [bytes]. *)
Theorem parse_reads_back_chunks (pre line post : string) (id : Z)
    (bytes : list Z) :
  all_space pre = true -> all_space post = true ->
  rmap int16 (chunks2 line) = Ok (id :: bytes) ->
  exists data,
    parse_can_message (strip (pre ++ line ++ post))
      = Ok (mkMessage id data false) /\
    map byte_val data = bytes.
Proof.
  intros Hpre Hpost H. destruct (chunks2_ok line _ H) as [Hh _].
  rewrite (strip_frame pre line post Hpre Hh Hpost).
  exact (parse_can_message_hex line id bytes H).
Qed.

Lemma parse_reads_back_chunks_witness :
  exists data,
    parse_can_message (strip (" " ++ "01F503E8020034BCD3" ++ newline))
      = Ok (mkMessage 1 data false) /\
    map byte_val data = [245; 3; 232; 2; 0; 52; 188; 211].
Proof.
  apply (parse_reads_back_chunks " " "01F503E8020034BCD3" newline 1
           [245; 3; 232; 2; 0; 52; 188; 211]); reflexivity.
Defined.

End LineFacts.

(** ** From the converter to the sender *)

Section AcrossTheFile.

Import Send Text.

Local Open Scope string_scope.

(** A line of the converter, as the sender reads it. *)
Lemma encoder_line_frame speed axis_id position lp line lp' :
  1 <= axis_id <= 6 -> 0 <= speed <= 65535 ->
  Convert.encode_axis speed axis_id position lp = Ok (line, lp') ->
  exists rel data,
    displacement axis_id position = Ok rel /\
    let p := rel mod 2 ^ 24 in
    let b5 := p / 65536 in
    let b6 := (p / 256) mod 256 in
    let b7 := p mod 256 in
    parse_can_message (strip (line ++ newline))
      = Ok (mkMessage axis_id data false) /\
    map byte_val data
      = [245; speed / 256; speed mod 256; 2; b5; b6; b7;
         (axis_id + 245 + speed / 256 + speed mod 256 + 2 + b5 + b6 + b7)
           mod 256] /\
    speed_of (mkMessage axis_id data false) = Ok (512 + b5).
Proof.
  intros Ha Hs H.
  destruct (encode_axis_chunks speed axis_id position lp line lp' Ha Hs H)
    as (rel & D & C).
  cbv zeta in C.
  destruct (parse_can_message_hex line _ _ C) as (data & P & M).
  exists rel, data. split; [exact D |]. cbv zeta.
  destruct (chunks2_ok line _ C) as [Hh _].
  rewrite <- (append_nil_l (line ++ newline)).
  rewrite (strip_frame EmptyString line newline eq_refl Hh eq_refl).
  split; [exact P |]. split; [exact M |].
  destruct data as [| d0 [| d1 [| d2 [| d3 [| d4 [| d5 [| d6 [| d7 [| d8 data]]]]]]]]];
    try discriminate M.
  cbn [map] in M. injection M as M0 M1 M2 M3 M4 M5 M6 M7.
  unfold speed_of. cbn [Send.data].
  change (PySeq.get [d0; d1; d2; d3; d4; d5; d6; d7] 3) with (Ok d3).
  change (PySeq.get [d0; d1; d2; d3; d4; d5; d6; d7] 4) with (Ok d4).
  cbn [rbind]. rewrite M3, M4. reflexivity.
Qed.

(** X12. A line that the converter writes for an axis 1..6 and a feed
    rate of two bytes is read by the sender, with the end of line that
    [readlines] leaves, as a frame whose arbitration id is the axis and
    whose payload is the eight bytes that follow it, the checksum last.
    The payload bytes 3 and 4, from which [adjust_speeds_within_packet]
    takes the speed of the frame, are the byte [02] and the high byte of
    the displacement: the number read there is 512 plus that byte, the
    feed rate being in the payload bytes 1 and 2. *)
Theorem sender_reads_encoder_line speed axis_id position lp line lp' :
  1 <= axis_id <= 6 -> 0 <= speed <= 65535 ->
  Convert.encode_axis speed axis_id position lp = Ok (line, lp') ->
  exists rel data,
    displacement axis_id position = Ok rel /\
    let p := rel mod 2 ^ 24 in
    let b5 := p / 65536 in
    let b6 := (p / 256) mod 256 in
    let b7 := p mod 256 in
    parse_can_message (strip (line ++ newline))
      = Ok (mkMessage axis_id data false) /\
    map byte_val data
      = [245; speed / 256; speed mod 256; 2; b5; b6; b7;
         (axis_id + 245 + speed / 256 + speed mod 256 + 2 + b5 + b6 + b7)
           mod 256] /\
    speed_of (mkMessage axis_id data false) = Ok (512 + b5).
Proof. exact (encoder_line_frame speed axis_id position lp line lp'). Qed.

Lemma sender_reads_encoder_line_witness :
  exists rel data,
    displacement 1 target_10_0 = Ok rel /\
    let p := rel mod 2 ^ 24 in
    let b5 := p / 65536 in
    let b6 := (p / 256) mod 256 in
    let b7 := p mod 256 in
    parse_can_message (strip ("01F503E8020034BCD3" ++ newline))
      = Ok (mkMessage 1 data false) /\
    map byte_val data
      = [245; 1000 / 256; 1000 mod 256; 2; b5; b6; b7;
         (1 + 245 + 1000 / 256 + 1000 mod 256 + 2 + b5 + b6 + b7) mod 256] /\
    speed_of (mkMessage 1 data false) = Ok (512 + b5).
Proof.
  apply (sender_reads_encoder_line 1000 1 target_10_0 Convert.last_positions0
           "01F503E8020034BCD3"
           (PySeq.update Convert.last_positions0 0
              (Py.Float (S754_finite false 4749890231992320 (-45))))).
  - lia.
  - lia.
  - vm_compute. reflexivity.
Defined.

(** X13. The lines that the converter writes for a command, at a feed
    rate of two bytes, are frames for the sender: each is read as a frame
    of eight payload bytes with an arbitration id from 1 to 6, and the
    speed that [adjust_speeds_within_packet] reads from it lies between
    512 and 767, so that the reference speed of a packet of such frames
    is never 0. *)
Theorem command_lines_are_frames (speed : Z) (positions lp : list Py.num) :
  0 <= speed <= 65535 -> length lp = 6%nat -> (length positions <= 6)%nat ->
  Forall (fun line => exists m v,
            parse_can_message (strip (line ++ newline)) = Ok m /\
            1 <= arbitration_id m <= 6 /\
            length (data m) = 8%nat /\
            speed_of m = Ok v /\ 512 <= v < 768)
    (Convert.written (Convert.encode_axes speed 1 positions lp)).
Proof.
  intros Hs L Hp.
  apply (encode_axes_lines _ speed positions 1 lp L); [lia | lia |].
  intros a position l line l' Ha _ E.
  destruct (encoder_line_frame speed a position l line l' Ha Hs E)
    as (rel & data & _ & P & M & S).
  exists (mkMessage a data false), (512 + rel mod 2 ^ 24 / 65536).
  split; [exact P |]. split; [exact Ha |]. split.
  { cbn [Send.data]. rewrite <- (length_map byte_val), M. reflexivity. }
  split; [exact S |].
  assert (0 <= rel mod 2 ^ 24 < 16777216) as B
    by (apply (Z.mod_pos_bound rel (2 ^ 24)); lia).
  assert (0 <= rel mod 2 ^ 24 / 65536 < 256)
    by (split; [apply Z.div_pos | apply Z.div_lt_upper_bound]; lia).
  lia.
Qed.

Lemma command_lines_are_frames_witness :
  Forall (fun line => exists m v,
            parse_can_message (strip (line ++ newline)) = Ok m /\
            1 <= arbitration_id m <= 6 /\
            length (data m) = 8%nat /\
            speed_of m = Ok v /\ 512 <= v < 768)
    (Convert.written
       (Convert.encode_axes 1000 1
          [target_10_0; Py.Int 0; Py.Int (-3); target_0_125; Py.Int 2; Py.Int 7]
          Convert.last_positions0)).
Proof.
  apply (command_lines_are_frames 1000
           [target_10_0; Py.Int 0; Py.Int (-3); target_0_125; Py.Int 2; Py.Int 7]
           Convert.last_positions0).
  - lia.
  - reflexivity.
  - cbn. lia.
Defined.

End AcrossTheFile.

(** ** The speeds of a packet *)

Section AdjustFacts.

Import Send.

Lemma get_raises {A : Type} (l : list A) (i : Z) (e : exn) :
  PySeq.get l i = Raise e -> e = IndexError.
Proof.
  unfold PySeq.get.
  destruct (_ && _); [destruct (nth_error _ _) |]; congruence.
Qed.

Lemma set_raises {A : Type} (l : list A) (i : Z) (a : A) (e : exn) :
  PySeq.set l i a = Raise e -> e = IndexError.
Proof.
  unfold PySeq.set. destruct (_ && _); congruence.
Qed.

Lemma get_ok_length {A : Type} (l : list A) (k : nat) (a : A) :
  PySeq.get l (Z.of_nat k) = Ok a -> (k < length l)%nat.
Proof.
  unfold PySeq.get. destruct (Z.ltb_spec (Z.of_nat k) 0); [lia |].
  destruct (Z.leb_spec 0 (Z.of_nat k)); [| discriminate].
  destruct (Z.ltb_spec (Z.of_nat k) (Z.of_nat (length l))); [| discriminate].
  intros _. lia.
Qed.

Lemma set_ok_update {A : Type} (l l' : list A) (k : nat) (a : A) :
  PySeq.set l (Z.of_nat k) a = Ok l' -> l' = PySeq.update l k a.
Proof.
  unfold PySeq.set. destruct (Z.ltb_spec (Z.of_nat k) 0); [lia |].
  destruct (_ && _); [| discriminate]. intros [= <-]. now rewrite Nat2Z.id.
Qed.

Lemma speed_of_raises (m : Message) (e : exn) :
  speed_of m = Raise e -> e = IndexError.
Proof.
  unfold speed_of.
  destruct (PySeq.get (data m) 3) as [hi |] eqn:H; cbn [rbind].
  - destruct (PySeq.get (data m) 4) as [lo |] eqn:L; cbn [rbind];
      [discriminate |].
    intros [= <-]. exact (get_raises _ _ _ L).
  - intros [= <-]. exact (get_raises _ _ _ H).
Qed.

Lemma speed_of_ok_length (m : Message) (v : Z) :
  speed_of m = Ok v -> (5 <= length (data m))%nat.
Proof.
  unfold speed_of.
  destruct (PySeq.get (data m) 3) as [hi |]; cbn [rbind]; [| discriminate].
  destruct (PySeq.get (data m) 4) as [lo |] eqn:L; cbn [rbind]; [| discriminate].
  intros _. assert (H := get_ok_length (data m) 4 lo L). lia.
Qed.

Lemma speeds_short (messages : list Message) :
  Exists (fun m => (length (data m) < 5)%nat) messages ->
  rmap speed_of messages = Raise IndexError.
Proof.
  induction messages as [| m ms IH]; intros H; [inversion H |].
  cbn [rmap]. destruct (speed_of m) as [v | e] eqn:E; cbn [rbind].
  - assert (L := speed_of_ok_length m v E).
    rewrite IH; [reflexivity |].
    inversion H as [? ? Hm | ? ? Hms]; subst; [lia | exact Hms].
  - now rewrite (speed_of_raises m e E).
Qed.

Lemma adjust_message_shape (reference_speed : Z) (m m' : Message) :
  adjust_message reference_speed m = Ok m' -> same_but_speed m m'.
Proof.
  unfold adjust_message.
  destruct (speed_of m) as [speed |]; cbn [rbind]; [| discriminate].
  destruct (Py.truediv speed reference_speed) as [ratio |]; cbn [rbind];
    [| discriminate].
  destruct (Py.mul _ _) as [scaled |]; cbn [rbind]; [| discriminate].
  destruct (Py.to_int scaled) as [adjusted_speed |]; cbn [rbind];
    [| discriminate].
  destruct (to_byte (Z.land (Z.shiftr adjusted_speed 8) 255)) as [hi |];
    cbn [rbind]; [| discriminate].
  destruct (PySeq.set (data m) 3 hi) as [data3 |] eqn:S3; cbn [rbind];
    [| discriminate].
  destruct (to_byte (Z.land adjusted_speed 255)) as [lo |]; cbn [rbind];
    [| discriminate].
  destruct (PySeq.set data3 4 lo) as [data4 |] eqn:S4; cbn [rbind];
    [| discriminate].
  intros [= <-]. apply (set_ok_update _ _ 3) in S3. apply (set_ok_update _ _ 4) in S4.
  subst data4 data3. unfold same_but_speed.
  cbn [arbitration_id is_extended_id data].
  split; [reflexivity |]. split; [reflexivity |]. split.
  - now rewrite !length_update.
  - intros i H3 H4. now rewrite !nth_error_update_ne by assumption.
Qed.

Lemma same_but_speed_refl (m : Message) : same_but_speed m m.
Proof. repeat split. Qed.

Lemma rmap_Forall2 {A B : Type} (f : A -> result B) (R : A -> B -> Prop)
    (l : list A) (bs : list B) :
  (forall a b, f a = Ok b -> R a b) -> rmap f l = Ok bs -> Forall2 R l bs.
Proof.
  intros HR. revert bs. induction l as [| a l IH]; intros bs; cbn [rmap].
  - intros [= <-]. constructor.
  - destruct (f a) as [b |] eqn:E; cbn [rbind]; [| discriminate].
    destruct (rmap f l) as [bs' |]; cbn [rbind]; [| discriminate].
    intros [= <-]. constructor; [exact (HR a b E) | now apply IH].
Qed.

(** X14. The adjustment touches the payload bytes 3 and 4 only: the
    packet that it returns has the same frames in the same order, each
    with its arbitration id, its flag, the length of its payload and
    every other byte as before. *)
Theorem adjust_keeps_frames (messages p : list Message) :
  adjust_speeds_within_packet messages = Ok p ->
  Forall2 same_but_speed messages p.
Proof.
  unfold adjust_speeds_within_packet.
  destruct (rmap speed_of messages) as [speeds |]; cbn [rbind]; [| discriminate].
  destruct (length speeds =? 0)%nat; [discriminate |].
  destruct (Convert.sum speeds / Z.of_nat (length speeds) =? 0)%Z.
  - intros [= <-]. induction messages as [| m ms IH]; constructor;
      [apply same_but_speed_refl | exact IH].
  - apply rmap_Forall2. apply adjust_message_shape.
Qed.

Lemma adjust_keeps_frames_witness :
  Forall2 same_but_speed uneven_packet
    [ mkMessage 1 [xf5; x00; x00; x00; x00; x00] false;
      mkMessage 2 [xf5; x00; x00; x00; x61; x00] false ].
Proof.
  apply (adjust_keeps_frames uneven_packet). vm_compute. reflexivity.
Defined.

(** X15. A frame with fewer than five payload bytes anywhere in a packet
    makes the adjustment raise [IndexError], from the list of the speeds,
    before any frame is changed. *)
Theorem adjust_short_payload (messages : list Message) :
  Exists (fun m => (length (data m) < 5)%nat) messages ->
  adjust_speeds_within_packet messages = Raise IndexError.
Proof.
  intros H. unfold adjust_speeds_within_packet.
  now rewrite (speeds_short messages H).
Qed.

Lemma adjust_short_payload_witness :
  adjust_speeds_within_packet [idle_frame 1; status_frame 2 x02]
    = Raise IndexError.
Proof.
  apply (adjust_short_payload [idle_frame 1; status_frame 2 x02]).
  apply Exists_cons_tl, Exists_cons_hd. cbn. lia.
Defined.

End AdjustFacts.

(** ** The handshake of a packet *)

Section HandshakeFacts.

Import Send.

Lemma recv_time (T : Z) (w w1 : world) (m : option Message) :
  0 < T -> recv T w = (m, w1) ->
  latency w1 = latency w /\ now w1 <= now w + T + Z.of_N (latency w).
Proof.
  intros HT. unfold recv. rewrite Z.max_r by lia.
  destruct (inbox w) as [| [arrival msg] rest].
  - intros [= <- <-]. cbn [latency now]. split; [reflexivity | lia].
  - destruct (Z.leb_spec arrival (now w + T)); intros [= <- <-];
      cbn [latency now]; (split; [reflexivity | lia]).
Qed.

(** The last step of a turn, once the probe has been made. *)
Lemma verdict_inv (T start_time : Z) (received r : gset Z) (b : bool)
    (o : option verdict) (w2 w' : world) :
  (if b then
     Returns (received, Some SATISFIED) (note (EvResolved SATISFIED) w2)
   else if now w2 - start_time >? T
        then Returns (received, Some TIMED_OUT)
               (note (EvResolved TIMED_OUT) w2)
        else Returns (received, None) w2) = Returns (r, o) w' ->
  r = received /\ latency w' = latency w2 /\ now w' = now w2 /\
  inbox w' = inbox w2 /\ log w' = log w2 ++ resolved o /\
  match o with
  | Some SATISFIED => b = true
  | Some TIMED_OUT => T < now w2 - start_time
  | None => now w2 - start_time <= T
  end.
Proof.
  destruct b.
  - intros [= <- <- <-]. cbn. repeat split.
  - destruct (Z.gtb_spec (now w2 - start_time) T); intros [= <- <- <-];
      cbn; rewrite ?app_nil_r; repeat split; lia.
Qed.

Lemma conclude_inv (T start_time : Z) (received r : gset Z)
    (o : option verdict) (w w' : world) :
  0 < T -> conclude T start_time received w = Returns (r, o) w' ->
  r = received /\ latency w' = latency w /\
  now w <= now w' <= now w + T + Z.of_N (latency w) /\
  log w' = log w ++ resolved o /\
  exists pre,
    inbox w = pre ++ inbox w' /\
    match o with
    | Some SATISFIED =>
        received = expected_responses /\
        exists arrival probe,
          pre = [(arrival, probe)] /\ status_of probe = Ok 2
    | Some TIMED_OUT => T < now w' - start_time
    | None => now w' - start_time <= T
    end.
Proof.
  intros HT. unfold conclude.
  assert (0 <= Z.of_N (latency w)) as Hlat by lia.
  destruct (bool_decide (received = expected_responses)) eqn:B.
  - apply bool_decide_eq_true in B.
    destruct (recv T w) as [probe w1] eqn:R.
    destruct (recv_spec T w w1 probe HT R) as (Hl & Hn & Hm).
    destruct (recv_time T w w1 probe HT R) as (Hlat1 & Hn1).
    destruct probe as [msg |].
    + destruct Hm as (arrival & Hi).
      destruct (status_of msg) as [status |] eqn:S; [| discriminate].
      intros E.
      apply (verdict_inv T start_time received r (status =? 2) o w1 w') in E.
      destruct E as (-> & E1 & E2 & E3 & E4 & E5).
      split; [reflexivity |]. split; [congruence |]. split; [lia |].
      split; [congruence |]. exists [(arrival, msg)].
      split; [now rewrite E3 |].
      destruct o as [[|] |]; [| lia | lia].
      split; [exact B |]. exists arrival, msg. split; [reflexivity |].
      apply Z.eqb_eq in E5. now subst status.
    + destruct Hm as (Hi & _). intros E.
      apply (verdict_inv T start_time received r false o w1 w') in E.
      destruct E as (-> & E1 & E2 & E3 & E4 & E5).
      split; [reflexivity |]. split; [congruence |]. split; [lia |].
      split; [congruence |]. exists []. split; [cbn [app]; congruence |].
      destruct o as [[|] |]; [discriminate | lia | lia].
  - intros E. apply (verdict_inv T start_time received r false o w w') in E.
    destruct E as (-> & E1 & E2 & E3 & E4 & E5).
    split; [reflexivity |]. split; [congruence |]. split; [lia |].
    split; [congruence |]. exists []. split; [cbn [app]; congruence |].
    destruct o as [[|] |]; [discriminate | lia | lia].
Qed.

Lemma responders_app (t1 t2 : list event) :
  responders (t1 ++ t2) = responders t1 ∪ responders t2.
Proof.
  induction t1 as [| e t1 IH]; cbn [app responders];
    [now rewrite union_empty_l_L |].
  destruct e as [m | m | v]; [exact IH | | exact IH].
  destruct (status_of m) as [status |]; [| exact IH].
  destruct (bool_decide (status ∈ expected_responses)); [| exact IH].
  rewrite IH. apply (assoc_L (∪)).
Qed.

(** One turn of the loop, read backwards from its result. *)
Lemma iteration_inv (T start_time : Z) (received r : gset Z)
    (o : option verdict) (w w' : world) :
  0 < T -> iteration T start_time received w = Returns (r, o) w' ->
  exists rx pre,
    log w' = log w ++ rx ++ resolved o /\
    Forall is_recv rx /\
    r = responders rx ∪ received /\
    latency w' = latency w /\
    now w <= now w' <= now w + 2 * (T + Z.of_N (latency w)) /\
    inbox w = pre ++ inbox w' /\
    (length rx <= length pre)%nat /\
    match o with
    | Some SATISFIED =>
        r = expected_responses /\
        exists pre0 arrival probe,
          pre = pre0 ++ [(arrival, probe)] /\ status_of probe = Ok 2 /\
          (length rx <= length pre0)%nat
    | Some TIMED_OUT => T < now w' - start_time
    | None => now w' - start_time <= T
    end.
Proof.
  intros HT. unfold iteration.
  assert (0 <= Z.of_N (latency w)) as Hlat by lia.
  destruct (recv T w) as [received_msg w1] eqn:R.
  destruct (recv_spec T w w1 received_msg HT R) as (Hl & Hn & Hm).
  destruct (recv_time T w w1 received_msg HT R) as (Hlat1 & Hn1).
  destruct received_msg as [msg |].
  - destruct Hm as (arrival & Hi).
    destruct (status_of msg) as [status |] eqn:S; [| discriminate].
    intros E. apply conclude_inv in E; [| exact HT].
    cbn [note latency now log inbox] in E.
    destruct E as (-> & E1 & E2 & E3 & pre & E4 & E5).
    exists [EvRecv msg], ((arrival, msg) :: pre).
    split; [rewrite E3, Hl, <- app_assoc; reflexivity |].
    split; [repeat constructor |]. split.
    { cbn [responders]. rewrite S.
      destruct (bool_decide (status ∈ expected_responses));
        now rewrite ?union_empty_r_L, ?union_empty_l_L. }
    split; [congruence |]. split; [rewrite Hlat1 in E2; lia |].
    split; [rewrite Hi, E4; reflexivity |].
    split; [cbn [length]; lia |].
    destruct o as [[|] |]; [| exact E5 | exact E5].
    destruct E5 as (E5 & a & probe & -> & P).
    split; [exact E5 |]. exists [(arrival, msg)], a, probe.
    split; [reflexivity |]. split; [exact P | cbn [length]; lia].
  - destruct Hm as (Hi & _).
    intros E. apply conclude_inv in E; [| exact HT].
    destruct E as (-> & E1 & E2 & E3 & pre & E4 & E5).
    exists [], pre.
    split; [rewrite E3, Hl; reflexivity |].
    split; [constructor |].
    split; [cbn [responders]; now rewrite union_empty_l_L |].
    split; [congruence |]. split; [rewrite Hlat1 in E2; lia |].
    split; [rewrite <- Hi; exact E4 |].
    split; [cbn [length]; lia |].
    destruct o as [[|] |]; [| exact E5 | exact E5].
    destruct E5 as (E5 & a & probe & -> & P).
    split; [exact E5 |]. exists [], a, probe.
    split; [reflexivity |]. split; [exact P | cbn [length]; lia].
Qed.

(** The loop, read backwards from its verdict. *)
Lemma await_inv (fuel : nat) (T start_time : Z) (received : gset Z)
    (v : verdict) (w w' : world) :
  0 < T -> now w - start_time <= T ->
  await fuel T start_time received w = Returns v w' ->
  exists rx pre,
    log w' = log w ++ rx ++ [EvResolved v] /\
    Forall is_recv rx /\
    latency w' = latency w /\
    now w <= now w' /\
    now w' - start_time <= 3 * T + 2 * Z.of_N (latency w) /\
    inbox w = pre ++ inbox w' /\
    match v with
    | SATISFIED =>
        responders rx ∪ received = expected_responses /\
        exists pre0 arrival probe,
          pre = pre0 ++ [(arrival, probe)] /\ status_of probe = Ok 2 /\
          (length rx <= length pre0)%nat
    | TIMED_OUT => T < now w' - start_time
    end.
Proof.
  intros HT. revert received w.
  induction fuel as [| fuel IH]; intros received w Hs; [discriminate |].
  cbn [await].
  destruct (iteration T start_time received w) as [[r o] w1 | |] eqn:E;
    [| discriminate | discriminate].
  destruct (iteration_inv T start_time received r o w w1 HT E)
    as (rx & pre & Hl & Hrx & Hr & Hlat & Hn & Hi & Hlen & Ho).
  destruct o as [v0 |].
  - intros [= <- <-]. exists rx, pre.
    split; [exact Hl |]. split; [exact Hrx |]. split; [exact Hlat |].
    split; [lia |]. split; [lia |]. split; [exact Hi |].
    destruct v0; [| exact Ho].
    destruct Ho as (Ho & P). split; [now rewrite <- Hr | exact P].
  - intros A. destruct (IH r w1 Ho A)
      as (rx2 & pre2 & Hl2 & Hrx2 & Hlat2 & Hn2 & Ht2 & Hi2 & Hv).
    exists (rx ++ rx2), (pre ++ pre2).
    split.
    { rewrite Hl2, Hl. cbn [resolved]. rewrite app_nil_r, <- !app_assoc.
      reflexivity. }
    split; [apply Forall_app; split; assumption |].
    split; [congruence |]. split; [lia |].
    split; [rewrite Hlat in Ht2; exact Ht2 |].
    split; [rewrite Hi, Hi2, <- app_assoc; reflexivity |].
    destruct v; [| exact Hv].
    destruct Hv as (Hv & pre0 & a & probe & -> & P & L).
    split.
    { rewrite responders_app, <- Hv, Hr.
      rewrite (comm_L (∪) (responders rx)). symmetry. apply (assoc_L (∪)). }
    exists (pre ++ pre0), a, probe.
    split; [now rewrite app_assoc |]. split; [exact P |].
    rewrite !length_app. lia.
Qed.

Lemma can_send_messages_inv (fuel : nat) (messages : list Message) (T : Z)
    (v : verdict) (w w' : world) :
  0 < T -> can_send_messages fuel messages T w = Returns v w' ->
  exists rx pre,
    log w' = log w ++ map EvSend messages ++ rx ++ [EvResolved v] /\
    Forall is_recv rx /\
    now w <= now w' <= now w + 3 * T + 2 * Z.of_N (latency w) /\
    inbox w = pre ++ inbox w' /\
    match v with
    | SATISFIED =>
        responders rx = expected_responses /\
        exists pre0 arrival probe,
          pre = pre0 ++ [(arrival, probe)] /\ status_of probe = Ok 2 /\
          (length rx <= length pre0)%nat
    | TIMED_OUT => now w + T < now w'
    end.
Proof.
  intros HT. unfold can_send_messages.
  destruct (send_all messages w) as (Hl & Hi & Hn).
  set (w0 := fold_left (fun w msg => send msg w) messages w) in *.
  assert (latency w0 = latency w) as Hlat.
  { subst w0. clear. revert w.
    induction messages as [| m ms IH]; intros w; [reflexivity |].
    cbn [fold_left]. now rewrite IH. }
  intros A.
  destruct (await_inv fuel T (now w0) ∅ v w0 w' HT ltac:(lia) A)
    as (rx & pre & Hl' & Hrx & _ & Hn' & Ht & Hi' & Hv).
  exists rx, pre.
  split; [rewrite Hl', Hl, <- app_assoc; reflexivity |].
  split; [exact Hrx |]. split; [rewrite Hlat in Ht; lia |].
  split; [now rewrite <- Hi |].
  destruct v; [| lia].
  destruct Hv as (Hv & P). split; [| exact P].
  now rewrite union_empty_r_L in Hv.
Qed.



(** X17. The handshake of a packet is bounded in time: with a positive
    time-out [T], and status frames from which a status can be read, the
    call returns at most [3 * T] and twice the latency of the bus after
    it has begun, and it reports a time-out only when more than [T] has
    passed. *)
Theorem handshake_time_bound (fuel : nat) (messages : list Message) (T : Z)
    (w : world) :
  0 < T -> Forall payload_ok (inbox w) -> (length (inbox w) + 2 < fuel)%nat ->
  exists v w',
    can_send_messages fuel messages T w = Returns v w' /\
    now w <= now w' <= now w + 3 * T + 2 * Z.of_N (latency w) /\
    (v = TIMED_OUT -> now w + T < now w').
Proof.
  intros HT Hok Hf.
  destruct (can_send_messages_returns fuel messages T w HT Hok Hf)
    as (v & w' & _ & _ & E & _).
  exists v, w'. split; [exact E |].
  destruct (can_send_messages_inv fuel messages T v w w' HT E)
    as (rx & pre & _ & _ & Hn & _ & Hv).
  split; [exact Hn |]. intros ->. exact Hv.
Qed.

Lemma handshake_time_bound_witness :
  exists v w',
    can_send_messages 6 [idle_frame 1] 3 demo_world = Returns v w' /\
    now demo_world <= now w'
      <= now demo_world + 3 * 3 + 2 * Z.of_N (latency demo_world) /\
    (v = TIMED_OUT -> now demo_world + 3 < now w').
Proof.
  apply (handshake_time_bound 6 [idle_frame 1] 3 demo_world).
  - lia.
  - exact payload_ok_demo_world.
  - cbn. lia.
Defined.

Lemma status_of_short (msg : Message) :
  (length (data msg) < 2)%nat -> status_of msg = Raise IndexError.
Proof.
  unfold status_of. destruct (data msg) as [| b [| c l]]; cbn [length];
    intros H; [reflexivity | reflexivity | lia].
Qed.

Lemma status_of_raises (msg : Message) (e : exn) :
  status_of msg = Raise e -> e = IndexError.
Proof.
  unfold status_of.
  destruct (PySeq.get (data msg) 1) as [b |] eqn:G; cbn [rbind]; [discriminate |].
  intros [= <-]. exact (get_raises _ _ _ G).
Qed.

(** X18. A reply with fewer than two payload bytes ends the call with
    [IndexError], where its status is read: the frames of the packet
    have been sent and the reply has been printed, and no verdict is
    reached. *)
Theorem reply_without_status (fuel : nat) (messages : list Message) (T : Z)
    (w : world) (arrival : Z) (msg : Message) (rest : list (Z * Message)) :
  0 < T -> inbox w = (arrival, msg) :: rest -> arrival <= now w + T ->
  (length (data msg) < 2)%nat ->
  exists w',
    can_send_messages (S fuel) messages T w = Raises IndexError w' /\
    log w' = log w ++ map EvSend messages ++ [EvRecv msg] /\
    inbox w' = rest.
Proof.
  intros HT Hi Ha Hs. unfold can_send_messages.
  destruct (send_all messages w) as (Hl & Hi0 & Hn).
  set (w0 := fold_left (fun w msg => send msg w) messages w) in *.
  cbn [await]. unfold iteration, recv.
  rewrite Hi0, Hi, Hn, Z.max_r by lia.
  destruct (Z.leb_spec arrival (now w + T)); [| lia].
  rewrite (status_of_short msg Hs).
  eexists. split; [reflexivity |]. cbn [note log inbox].
  split; [rewrite Hl, <- app_assoc; reflexivity | reflexivity].
Qed.

Lemma reply_without_status_witness :
  exists w',
    can_send_messages 1 [idle_frame 1] 3
      (mkWorld [(2, mkMessage 1 [xf5] false)] 0 [] 1) = Raises IndexError w' /\
    log w' = [] ++ map EvSend [idle_frame 1] ++ [EvRecv (mkMessage 1 [xf5] false)] /\
    inbox w' = [].
Proof.
  apply (reply_without_status 0 [idle_frame 1] 3
           (mkWorld [(2, mkMessage 1 [xf5] false)] 0 [] 1) 2
           (mkMessage 1 [xf5] false) []).
  - lia.
  - reflexivity.
  - cbn. lia.
  - cbn. lia.
Defined.

End HandshakeFacts.

(** ** The whole run *)

Section RunFacts.

Import Send Text.

Local Open Scope string_scope.

Lemma message_sets_sizes (lines : list string) :
  Forall (fun g => (1 <= length g <= 6)%nat) (message_sets lines).
Proof.
  remember (length lines) as n eqn:Hn. revert lines Hn.
  induction n as [n IH] using lt_wf_ind. intros lines Hn.
  destruct lines as [| a [| b [| c [| d [| e [| f rest]]]]]];
    cbn [message_sets]; try (repeat constructor; cbn [length]; lia).
  constructor; [cbn [length]; lia |].
  apply (IH (length rest)); [subst n; cbn [length]; lia | reflexivity].
Qed.

Lemma message_sets_concat (lines : list string) :
  concat (message_sets lines) = lines.
Proof.
  remember (length lines) as n eqn:Hn. revert lines Hn.
  induction n as [n IH] using lt_wf_ind. intros lines Hn.
  destruct lines as [| a [| b [| c [| d [| e [| f rest]]]]]];
    cbn [message_sets concat app]; try reflexivity.
  do 6 f_equal.
  apply (IH (length rest)); [subst n; cbn [length]; lia | reflexivity].
Qed.

(** X19. The sets of lines that the main program sends are the lines of
    the file cut every six lines: put end to end they give the file
    back, none of them is empty or longer than six lines, and there are
    as many as the number of lines divided by six, rounded up; a file
    without lines gives no set. *)
Theorem message_sets_partition (lines : list string) :
  concat (message_sets lines) = lines /\
  Forall (fun g => (1 <= length g <= 6)%nat) (message_sets lines) /\
  length (message_sets lines) = Nat.div (length lines + 5) 6.
Proof.
  split; [apply message_sets_concat | split; [apply message_sets_sizes |]].
  remember (length lines) as n eqn:Hn. revert lines Hn.
  induction n as [n IH] using lt_wf_ind. intros lines Hn.
  destruct lines as [| a [| b [| c [| d [| e [| f rest]]]]]];
    cbn [length] in Hn; subst n; cbn [message_sets length];
    try reflexivity.
  rewrite (IH (length rest) ltac:(lia) rest eq_refl).
  transitivity (Nat.div (length rest + 5 + 1 * 6) 6);
    [rewrite Nat.div_add by lia; lia | f_equal; lia].
Qed.

Lemma int16_raises (s : string) (e : exn) : int16 s = Raise e -> e = ValueError.
Proof.
  unfold int16. destruct s; [congruence |].
  destruct (int16_acc _ 0); congruence.
Qed.

Lemma to_byte_raises (z : Z) (e : exn) : to_byte z = Raise e -> e = ValueError.
Proof.
  unfold to_byte. destruct (_ && _); [destruct (Byte.of_N _) |]; congruence.
Qed.

(** Whatever is wrong with a line, the exception is [ValueError]. *)
Lemma parse_can_message_raises (line : string) (e : exn) :
  parse_can_message line = Raise e -> e = ValueError.
Proof.
  unfold parse_can_message.
  destruct (split_cons " "%char line) as (h & t & ->).
  change (PySeq.get (h :: t) 0) with (Ok h). cbn [rbind].
  destruct (int16 (substring 0 2 h)) as [id |] eqn:I; cbn [rbind].
  2:{ intros [= <-]. exact (int16_raises _ _ I). }
  destruct (rmap int16 (chunks2 (drop 2 h))) as [head |] eqn:Hh; cbn [rbind].
  2:{ intros [= <-]. exact (rmap_raises int16 _ _ _ int16_raises Hh). }
  destruct (rmap int16 (PySeq.slice (h :: t) 1 (length (h :: t))))
    as [tail |] eqn:Ht; cbn [rbind].
  2:{ intros [= <-]. exact (rmap_raises int16 _ _ _ int16_raises Ht). }
  destruct (rmap to_byte (head ++ tail)) as [data |] eqn:Hd; cbn [rbind];
    [discriminate |].
  intros [= <-]. exact (rmap_raises to_byte _ _ _ to_byte_raises Hd).
Qed.

Lemma parse_blank (line : string) :
  all_space line = true -> parse_can_message (strip line) = Raise ValueError.
Proof.
  intros H. now rewrite (strip_blank line H).
Qed.

(** X20. A line of white space only, an empty line among them, cannot be
    read as a frame: the set of lines that holds it ends the run with
    [ValueError] before any of its frames is sent, and the sets after it
    are not read. *)
Theorem blank_line_ends_the_run (fuel : nat) (message : list string)
    (rest : list (list string)) (T : Z) (w : world) :
  Exists (fun line => all_space line = true) message ->
  send_sets fuel (message :: rest) T w = Raises ValueError w.
Proof.
  intros H. cbn [send_sets].
  rewrite (rmap_first_raise (fun line => parse_can_message (strip line))
             ValueError message); [reflexivity | |].
  - intros line e. apply parse_can_message_raises.
  - apply Exists_exists in H. destruct H as (line & Hin & Hb).
    apply Exists_exists. exists line. split; [exact Hin |].
    exact (parse_blank line Hb).
Qed.

Lemma blank_line_ends_the_run_witness :
  send_sets 6 (["01F503E8020034BCD3"; newline] :: [["02F503E802000000E4"]])
    3 demo_world = Raises ValueError demo_world.
Proof.
  apply (blank_line_ends_the_run 6 ["01F503E8020034BCD3"; newline]
           [["02F503E802000000E4"]] 3 demo_world).
  apply Exists_cons_tl, Exists_cons_hd. reflexivity.
Defined.

Lemma truediv_raises (x y : Z) (e : exn) :
  y <> 0 -> Py.truediv x y = Raise e -> e = OverflowError.
Proof.
  intros Hy. unfold Py.truediv.
  destruct (Z.eqb_spec y 0); [contradiction |].
  destruct (x =? 0)%Z; [discriminate |].
  destruct (SFdiv_core_binary _ _ _ _ _ _) as [[q ex] l].
  destruct (binary_round_aux _ _ _ _ _ _); congruence.
Qed.

Lemma adjust_message_raises (reference_speed : Z) (m : Message) (e : exn) :
  reference_speed <> 0 -> adjust_message reference_speed m = Raise e ->
  e <> ZeroDivisionError.
Proof.
  intros Hr. unfold adjust_message.
  destruct (speed_of m) as [speed |] eqn:S; cbn [rbind].
  2:{ intros [= <-]. now rewrite (speed_of_raises _ _ S). }
  destruct (Py.truediv speed reference_speed) as [ratio |] eqn:D; cbn [rbind].
  2:{ intros [= <-]. now rewrite (truediv_raises _ _ _ Hr D). }
  destruct (Py.mul _ _) as [scaled |] eqn:M; cbn [rbind].
  2:{ intros [= <-]. now rewrite (mul_raises _ _ _ M). }
  destruct (Py.to_int scaled) as [adjusted_speed |] eqn:I; cbn [rbind].
  2:{ intros [= <-]. destruct (to_int_raises _ _ I) as [-> | ->]; discriminate. }
  destruct (to_byte (Z.land (Z.shiftr adjusted_speed 8) 255)) as [hi |] eqn:B1;
    cbn [rbind].
  2:{ intros [= <-]. now rewrite (to_byte_raises _ _ B1). }
  destruct (PySeq.set (data m) 3 hi) as [data3 |] eqn:S3; cbn [rbind].
  2:{ intros [= <-]. now rewrite (set_raises _ _ _ _ S3). }
  destruct (to_byte (Z.land adjusted_speed 255)) as [lo |] eqn:B2; cbn [rbind].
  2:{ intros [= <-]. now rewrite (to_byte_raises _ _ B2). }
  destruct (PySeq.set data3 4 lo) as [data4 |] eqn:S4; cbn [rbind];
    [discriminate |].
  intros [= <-]. now rewrite (set_raises _ _ _ _ S4).
Qed.

Lemma adjust_raises (messages : list Message) (e : exn) :
  messages <> [] -> adjust_speeds_within_packet messages = Raise e ->
  e <> ZeroDivisionError.
Proof.
  intros Hne. unfold adjust_speeds_within_packet.
  destruct (rmap speed_of messages) as [speeds |] eqn:S; cbn [rbind].
  2:{ intros [= <-].
      now rewrite (rmap_raises speed_of (fun e => e = IndexError) _ _
                     speed_of_raises S). }
  assert (L := rmap_length _ _ _ S).
  destruct (Nat.eqb_spec (length speeds) 0) as [Z0 | _].
  { destruct messages; [contradiction | cbn [length] in L; lia]. }
  destruct (Z.eqb_spec (Convert.sum speeds / Z.of_nat (length speeds)) 0)
    as [| Hr]; [discriminate |].
  apply (rmap_raises _ (fun e => e <> ZeroDivisionError)).
  intros m e'. now apply adjust_message_raises.
Qed.

Lemma conclude_raises (T start_time : Z) (received : gset Z) (w w' : world)
    (e : exn) :
  conclude T start_time received w = Raises e w' -> e = IndexError.
Proof.
  unfold conclude.
  destruct (bool_decide (received = expected_responses)).
  - destruct (recv T w) as [[msg |] w1].
    + destruct (status_of msg) as [status |] eqn:S.
      * destruct (status =? 2)%Z; [discriminate |].
        destruct (_ >? _); discriminate.
      * intros [= <- _]. exact (status_of_raises _ _ S).
    + destruct (_ >? _); discriminate.
  - destruct (_ >? _); discriminate.
Qed.

Lemma iteration_raises (T start_time : Z) (received : gset Z) (w w' : world)
    (e : exn) :
  iteration T start_time received w = Raises e w' -> e = IndexError.
Proof.
  unfold iteration. destruct (recv T w) as [[msg |] w1].
  - destruct (status_of msg) as [status |] eqn:S.
    + apply conclude_raises.
    + intros [= <- _]. exact (status_of_raises _ _ S).
  - apply conclude_raises.
Qed.

Lemma await_raises (fuel : nat) (T start_time : Z) (received : gset Z)
    (w w' : world) (e : exn) :
  await fuel T start_time received w = Raises e w' -> e = IndexError.
Proof.
  revert received w. induction fuel as [| fuel IH]; intros received w;
    [discriminate |]. cbn [await].
  destruct (iteration T start_time received w) as [[r [v |]] w1 | e1 w1 |] eqn:E;
    [discriminate | apply IH | | discriminate].
  intros [= <- _]. exact (iteration_raises _ _ _ _ _ _ E).
Qed.

Lemma send_sets_raises (fuel : nat) (sets : list (list string)) (T : Z)
    (w w' : world) (e : exn) :
  Forall (fun g => (1 <= length g <= 6)%nat) sets ->
  send_sets fuel sets T w = Raises e w' -> e <> ZeroDivisionError.
Proof.
  intros Hs. revert w. induction Hs as [| message rest Hm _ IH]; intros w;
    cbn [send_sets]; [discriminate |].
  destruct (rmap (fun line => parse_can_message (strip line)) message)
    as [messages |] eqn:P.
  2:{ intros [= <- _].
      now rewrite (rmap_raises _ (fun e => e = ValueError) _ _
                     (fun line e => parse_can_message_raises (strip line) e) P). }
  assert (messages <> []) as Hne.
  { assert (L := rmap_length _ _ _ P). destruct messages; [cbn in L; lia |].
    discriminate. }
  destruct (adjust_speeds_within_packet messages) as [messages' |] eqn:A.
  2:{ intros [= <- _]. exact (adjust_raises messages _ Hne A). }
  destruct (can_send_messages fuel messages' T w) as [v w1 | e1 w1 |] eqn:C;
    [| | discriminate].
  - destruct (send_sets fuel rest T w1) as [vs w2 | e2 w2 |] eqn:R;
      [discriminate | | discriminate].
    intros [= <- <-]. exact (IH w1 R).
  - intros [= <- _]. unfold can_send_messages in C.
    now rewrite (await_raises _ _ _ _ _ _ _ C).
Qed.

(** X21. The main program never fails on the division of
    [adjust_speeds_within_packet], whatever the file and whatever the
    bus delivers: no set of lines is empty, and a reference speed of 0
    returns before the division.  The exceptions that end a run come
    from reading a line, a payload or a status. *)
Theorem main_never_divides_by_zero (fuel : nat) (lines : list string) (T : Z)
    (w w' : world) (e : exn) :
  main fuel lines T w = Raises e w' -> e <> ZeroDivisionError.
Proof.
  unfold main. apply send_sets_raises. apply message_sets_sizes.
Qed.

Lemma main_never_divides_by_zero_witness :
  main 6 ["01F503"] 3 demo_world = Raises IndexError demo_world /\
  IndexError <> ZeroDivisionError.
Proof.
  assert (main 6 ["01F503"] 3 demo_world = Raises IndexError demo_world) as H
    by (vm_compute; reflexivity).
  split; [exact H |].
  exact (main_never_divides_by_zero 6 ["01F503"] 3 demo_world demo_world
           IndexError H).
Defined.

(** X22. The checksum of send.py, which the script does not call, is the
    checksum of convert.py on the three bytes: arbitration id, [F4],
    status; it is a byte, and only the residues of its arguments modulo
    256 count. *)
Theorem sender_crc_is_byte_sum (arbitration_id status j k : Z) :
  Send.calculate_crc arbitration_id status
    = Convert.calculate_crc [arbitration_id; 244; status] /\
  0 <= Send.calculate_crc arbitration_id status < 256 /\
  Send.calculate_crc (arbitration_id + 256 * j) (status + 256 * k)
    = Send.calculate_crc arbitration_id status.
Proof.
  assert (forall a s, Send.calculate_crc a s = (a + 244 + s) mod 256) as M.
  { intros a s. unfold Send.calculate_crc.
    change 255 with (Z.ones 8). rewrite Z.land_ones by lia. reflexivity. }
  split; [| split].
  - rewrite M, calculate_crc_mod. cbn [Convert.sum fold_right]. f_equal. lia.
  - rewrite M. apply Z.mod_pos_bound. lia.
  - rewrite !M.
    replace (arbitration_id + 256 * j + 244 + (status + 256 * k))
      with (arbitration_id + 244 + status + (j + k) * 256) by lia.
    apply Z.mod_add. lia.
Qed.

End RunFacts.

(** * The adjustment of the speeds, and the last set of lines *)

(** ** Binary64 arithmetic on small numbers *)

Section FloatFacts.



















End FloatFacts.

(** ** What the adjustment writes *)

Section NormalisationFacts.

Import Send Text.

Local Open Scope string_scope.














End NormalisationFacts.

(** ** The last set of lines *)

Section ShortGroup.

Import Send Text.

Local Open Scope string_scope.





(** On these lines the last set has two frames, with the speeds 512 and
    610 and the reference speed 561: the frames sent for it are the two
    frames with their payload bytes 3 and 4 rescaled, 511 for the first
    ([01 FF] where the line has [02 00]) and 610 for the second. *)
Lemma short_file_run :
  match main 6 short_file 3 demo_world with
  | Returns verdicts w' =>
      length verdicts = 2%nat /\
      payloads (Ok (skipn 6 (sends (log w'))))
        = Ok [[245; 3; 232; 1; 255; 52; 188; 211];
              [245; 3; 232; 2; 98; 1; 216; 31]]
  | _ => False
  end.
Proof. vm_compute. split; reflexivity. Qed.

(** C9. The frames that convert.py writes for a command at the feed rate
    0 all have the speed field 0000, so that their speeds add up to 0.
    The adjustment reads the payload bytes 3 and 4 instead, the byte [02]
    and the high byte of the displacement: 538, 516, 515, 515, 515, 515,
    with the reference speed 519, and it rewrites byte 4 of the first
    frame from 26 to 25. *)
Theorem C9_zero_speed_fields_are_rewritten :
  let lines :=
    Convert.written
      (Convert.process_lines Convert.initial_state [zero_feed_command]) in
  let read :=
    rmap (fun line => parse_can_message (strip (line ++ newline))) lines in
  lines = ["01F50000021AC77851"; "02F50000020493E070"; "03F5000002036EE853";
           "04F5000002034BC009"; "05F5000002031AC4DD"; "06F5000002031AC4DE"] /\
  payloads read
    = Ok [[245; 0; 0; 2; 26; 199; 120; 81]; [245; 0; 0; 2; 4; 147; 224; 112];
          [245; 0; 0; 2; 3; 110; 232; 83]; [245; 0; 0; 2; 3; 75; 192; 9];
          [245; 0; 0; 2; 3; 26; 196; 221]; [245; 0; 0; 2; 3; 26; 196; 222]] /\
  (do messages <- read; rmap speed_field messages) = Ok [0; 0; 0; 0; 0; 0] /\
  (do messages <- read; rmap speed_of messages)
    = Ok [538; 516; 515; 515; 515; 515] /\
  Convert.sum [538; 516; 515; 515; 515; 515] / 6 = 519 /\
  payloads (do messages <- read; adjust_speeds_within_packet messages)
    = Ok [[245; 0; 0; 2; 25; 199; 120; 81]; [245; 0; 0; 2; 4; 147; 224; 112];
          [245; 0; 0; 2; 3; 110; 232; 83]; [245; 0; 0; 2; 3; 75; 192; 9];
          [245; 0; 0; 2; 3; 26; 196; 221]; [245; 0; 0; 2; 3; 26; 196; 222]].
Proof. repeat split; vm_compute; reflexivity. Qed.

End ShortGroup.
